(** * MediBook backend: availability and booking engine

    A shallow embedding of the scheduling core of the MediBook backend
    ([src/services/schedule.service.js], [src/services/appointment.service.js],
    [src/controllers/schedule.controller.js] and the appointment statuses of
    [src/api/middleware/validation.middleware.js]) together with the
    properties its design document states about it.

    Conventions of the embedding:
    - a JavaScript [Date] is the integer number of milliseconds since the
      epoch ([Z]); comparisons of dates are comparisons of these numbers;
    - the server clock runs in UTC, so the local calendar day and clock time
      of a timestamp are its UTC day and clock time;
    - every [await prisma.<model>.<op>(...)] is one atomic operation on the
      store; a service method is a program in a small free monad over these
      operations, which is run either sequentially or interleaved with
      another call;
    - the rows that a created or updated appointment is connected to are
      taken to exist, and the notifications sent after a write, whose
      failure the services swallow, are left out. *)

From Stdlib Require Import ZArith List Bool String DecimalString Lia Sorted
  Relations.
From Equations Require Import Equations.
Import ListNotations.
Open Scope Z_scope.

(* ===================================================================== *)
(** * Time-range algebra (private helpers of [ScheduleService])          *)
(* ===================================================================== *)

Module TimeRanges.

(** [{ start, end }] objects of [availableRanges]. *)
Record TimeRange : Type := mkRange { start : Z; end_ : Z }.

(** [_removeTimeRange(availableRanges, removeStart, removeEnd)]
    (schedule.service.js, lines 740-776).  The [for ... of] loop pushes the
    pieces of each range onto [result] in order; [continue] ends the
    iteration, so the tests form an if/else-if chain. *)
Fixpoint _removeTimeRange (availableRanges : list TimeRange)
    (removeStart removeEnd : Z) : list TimeRange :=
  match availableRanges with
  | [] => []
  | range :: rest =>
      let result := _removeTimeRange rest removeStart removeEnd in
      (* completely before or after the remove range: keep it unchanged *)
      if (end_ range <=? removeStart) || (start range >=? removeEnd) then
        range :: result
      (* remove range completely contains this range: skip it *)
      else if (removeStart <=? start range) && (removeEnd >=? end_ range) then
        result
      (* remove range is in the middle of this range: split into two *)
      else if (removeStart >? start range) && (removeEnd <? end_ range) then
        {| start := start range; end_ := removeStart |}
          :: {| start := removeEnd; end_ := end_ range |} :: result
      (* remove range overlaps the start *)
      else if (removeStart <=? start range) && (removeEnd >? start range) then
        {| start := removeEnd; end_ := end_ range |} :: result
      (* remove range overlaps the end *)
      else if (removeStart <? end_ range) && (removeEnd >=? end_ range) then
        {| start := start range; end_ := removeStart |} :: result
      else result
  end.

(** A range object is well formed when it is a non-empty half-open interval. *)
Definition valid (r : TimeRange) : Prop := start r < end_ r.

(** Two half-open intervals are disjoint when one ends at or before the
    other begins. *)
Definition disjoint (a b : TimeRange) : Prop :=
  end_ a <= start b \/ end_ b <= start a.

Definition pairwise_disjoint (R : list TimeRange) : Prop :=
  ForallOrdPairs disjoint R.

(** Sorted by start time. *)
Definition sorted (R : list TimeRange) : Prop :=
  Sorted (fun a b => start a <= start b) R.

(** The instant [t] lies in the half-open interval [r]. *)
Definition inside (t : Z) (r : TimeRange) : Prop := start r <= t < end_ r.

(** The instant [t] lies in the union of the ranges of [R]. *)
Definition covers (R : list TimeRange) (t : Z) : Prop :=
  exists r, In r R /\ inside t r.

(** Working invariant: every range is non-empty and each one ends at or
    before the next one begins, and the first one starts at or after [lo]. *)
Fixpoint chain (lo : Z) (R : list TimeRange) : Prop :=
  match R with
  | [] => True
  | r :: rest => lo <= start r /\ start r < end_ r /\ chain (end_ r) rest
  end.

(** [{ startTime, endTime }] objects pushed by [_generateTimeSlots]. *)
Record Slot : Type := mkSlot { startTime : Z; endTime : Z }.

Definition msPerMinute : Z := 60 * 1000.

(** The literal [15] of [current.setMinutes(current.getMinutes() + 15)]. *)
Definition slotIncrement : Z := 15.

(** The [while (current <= end)] loop of [_generateTimeSlots]
    (schedule.service.js, lines 791-802); [end'] is the end time already
    moved back by the duration.  Each turn advances [current] by the
    increment, so the number of increments that still fit before [end'] is
    a termination measure. *)
Equations? slotLoop (current end' durationMs : Z) : list Slot
    by wf (Z.to_nat ((end' - current) / (slotIncrement * msPerMinute) + 1)) lt :=
  slotLoop current end' durationMs with Z_le_gt_dec current end' := {
    | left _ =>
        {| startTime := current; endTime := current + durationMs |}
          :: slotLoop (current + slotIncrement * msPerMinute) end' durationMs
    | right _ => [] }.
Proof.
  replace (end' - (current + 900000))
    with ((end' - current) + (-1) * 900000) by ring.
  rewrite Z.div_add by lia.
  assert (0 <= (end' - current) / 900000) by (apply Z.div_pos; lia).
  lia.
Qed.

(** [_generateTimeSlots(startTime, endTime, duration)]
    (schedule.service.js, lines 782-805), [duration] in minutes. *)
Definition _generateTimeSlots (startTime endTime duration : Z) : list Slot :=
  let current := startTime in
  let durationMs := duration * 60 * 1000 in
  (* subtract duration from end time so that slots don't exceed end time *)
  let end' := endTime - durationMs in
  slotLoop current end' durationMs.

(** Removing several ranges in sequence, as the
    [for (const x of xs) availableRanges = this._removeTimeRange(...)]
    loops of the service do. *)
Definition removeAll (availableRanges removals : list TimeRange)
    : list TimeRange :=
  fold_left (fun acc x => _removeTimeRange acc (start x) (end_ x))
            removals availableRanges.

End TimeRanges.

(* ===================================================================== *)
(** * Dates and clock times                                              *)
(* ===================================================================== *)

Module Dates.

Definition msPerHour : Z := 60 * 60 * 1000.
Definition msPerDay : Z := 24 * msPerHour.

(** [d.toISOString().split("T")[0]]: the calendar day of a timestamp, kept
    as the number of days since the epoch instead of its ["YYYY-MM-DD"]
    spelling (two spellings are equal exactly when the day numbers are). *)
Definition toISODate (d : Z) : Z := d / msPerDay.

(** [d.setHours(0, 0, 0, 0)] and [d.setHours(23, 59, 59, 999)]. *)
Definition startOfDay (d : Z) : Z := toISODate d * msPerDay.
Definition endOfDay (d : Z) : Z := startOfDay d + msPerDay - 1.

(** [d.getDay()]: 0 is Sunday; the epoch was a Thursday. *)
Definition getDay (d : Z) : Z := (toISODate d + 4) mod 7.

(** A clock time ["HH:MM"], zero padded, kept as its two numbers
    ([time.split(":").map(Number)]). *)
Record ClockTime : Type := mkClock { hour : Z; minute : Z }.

(** [d.setHours(hour, minute, 0, 0)]. *)
Definition setHours (d : Z) (c : ClockTime) : Z :=
  startOfDay d + hour c * msPerHour + minute c * 60 * 1000.

(** [d.toTimeString().substring(0, 5)]. *)
Definition toTimeString (d : Z) : ClockTime :=
  {| hour := (d mod msPerDay) / msPerHour;
     minute := (d mod msPerHour) / (60 * 1000) |}.

(** Order of the zero-padded ["HH:MM"] strings: lexicographic, hours first. *)
Definition clock_leb (a b : ClockTime) : bool :=
  (hour a <? hour b) || ((hour a =? hour b) && (minute a <=? minute b)).

End Dates.

(* ===================================================================== *)
(** * Programs over a store                                              *)
(* ===================================================================== *)

(** Errors thrown by the services ([utils/errors]) and by the client of the
    store. *)
Inductive Error : Type :=
| BadRequestError (message : string)
| NotFoundError (message : string)
| PlainError (message : string)
| PrismaError (message : string)
| TypeError (message : string).

(** An [async] method: it returns, throws, or awaits one operation [q] of
    the store and continues with its answer.  [Q X] is the type of the
    operations whose answer has type [X]. *)
Inductive Prog (Q : Type -> Type) (A : Type) : Type :=
| Ret (a : A)
| Throw (e : Error)
| Await {X : Type} (q : Q X) (k : X -> Prog Q A).

Arguments Ret {Q A} a.
Arguments Throw {Q A} e.
Arguments Await {Q A X} q k.

Fixpoint bind {Q A B} (p : Prog Q A) (f : A -> Prog Q B) : Prog Q B :=
  match p with
  | Ret a => f a
  | Throw e => Throw e
  | Await q k => Await q (fun x => bind (k x) f)
  end.

Definition await {Q X} (q : Q X) : Prog Q X := Await q Ret.

(** [if (cond) throw e]. *)
Definition throwIf {Q} (cond : bool) (e : Error) : Prog Q unit :=
  if cond then Throw e else Ret tt.

(** [if (!x) throw e]. *)
Definition orThrow {Q A} (x : option A) (e : Error) : Prog Q A :=
  match x with Some a => Ret a | None => Throw e end.

Declare Scope prog_scope.
Delimit Scope prog_scope with prog.
Notation "x <- p ;; k" := (bind p (fun x => k))
  (at level 61, p at next level, right associativity) : prog_scope.
Notation "p ;; k" := (bind p (fun _ => k))
  (at level 61, right associativity) : prog_scope.

(** The outcome of a call: the value returned or the error thrown. *)
Inductive Outcome (A : Type) : Type :=
| Returned (a : A)
| Thrown (e : Error).
Arguments Returned {A} a.
Arguments Thrown {A} e.

(** A synchronous computation that may throw is its outcome; [ofOutcome]
    is its use inside an [async] method. *)
Definition bindOutcome {A B} (o : Outcome A) (f : A -> Outcome B)
    : Outcome B :=
  match o with
  | Returned a => f a
  | Thrown e => Thrown e
  end.

Definition ofOutcome {Q A} (o : Outcome A) : Prog Q A :=
  match o with
  | Returned a => Ret a
  | Thrown e => Throw e
  end.

Section Running.
Context {Q : Type -> Type} {S : Type}.
(** How the store answers one operation. *)
Variable exec : forall X, Q X -> S -> S * X.

(** A call that runs alone, from its first operation to its outcome. *)
Fixpoint run {A} (p : Prog Q A) (s : S) : S * Outcome A :=
  match p with
  | Ret a => (s, Returned a)
  | Throw e => (s, Thrown e)
  | Await q k => let (s', x) := exec _ q s in run (k x) s'
  end.

(** Two calls in flight at once: at each step one of them performs its
    next awaited operation on the shared store. *)
Inductive interleave {A B} :
    S * Prog Q A * Prog Q B -> S * Prog Q A * Prog Q B -> Prop :=
| step_left X (q : Q X) k p2 s :
    interleave (s, Await q k, p2)
               (fst (exec _ q s), k (snd (exec _ q s)), p2)
| step_right X (q : Q X) k p1 s :
    interleave (s, p1, Await q k)
               (fst (exec _ q s), p1, k (snd (exec _ q s))).

Definition interleaving {A B} := clos_refl_trans _ (@interleave A B).

(** The first [n] awaited operations of a call. *)
Fixpoint steps {A} (n : nat) (p : Prog Q A) (s : S) : S * Prog Q A :=
  match n, p with
  | Datatypes.S n', Await q k => let (s', x) := exec _ q s in steps n' (k x) s'
  | _, _ => (s, p)
  end.
End Running.

(* ===================================================================== *)
(** * The store as the services see it                                   *)
(* ===================================================================== *)

Definition Id := string.

Module Doctor.
Record t : Type := mk { id : Id; practiceId : Id }.
End Doctor.

Module Service.
Record t : Type := mk { id : Id }.
End Service.

Module Patient.
Record t : Type := mk { id : Id }.
End Patient.

Module Appointment.
Record t : Type := mk {
    id : Id;
    patientId : Id;
    doctorId : Id;
    serviceId : Id;
    practiceId : Id;
    startTime : Z;
    endTime : Z;
    reason : option string;
    notes : option string;
    status : string;
    bookingSource : string;
    cancellationReason : option string }.
End Appointment.

(** The value of a time column of [prisma.schedule].  [createAppointment]
    splices it into a date string and expects a clock string ["HH:MM"]; the
    handlers of schedule.controller.js compare the same columns with Dates
    and store Dates in them ([new Date(slot.startTime)], lines 281-282). *)
Inductive TimeValue : Type :=
| clockString (c : Dates.ClockTime)
| dateValue (d : Z).

(** A row of [prisma.schedule] as [createAppointment] reads it: the day the
    doctor works and the two time columns. *)
Module Schedule.
Record t : Type := mk {
    doctorId : Id;
    date : Z;                       (* calendar day, see [Dates.toISODate] *)
    startTime : TimeValue;
    endTime : TimeValue }.
End Schedule.

(** A row of [prisma.doctorSchedule]: a weekly template. *)
Module DoctorSchedule.
Record t : Type := mk {
    id : Id;
    doctorId : Id;
    dayOfWeek : Z;
    startTime : Dates.ClockTime;
    endTime : Dates.ClockTime;
    isAvailable : bool;
    effectiveDate : option Z;
    expiryDate : option Z }.
End DoctorSchedule.

(** A row of [prisma.scheduleException].  A clock time may be [null]
    ([None]): [addScheduleException] stores [null] for both times of a
    full-day exception and for a time that a partial exception was not
    given.  The clock times are only read when [isFullDay] is false. *)
Module ScheduleException.
Record t : Type := mk {
    id : Id;
    doctorId : Id;
    date : Z;
    isFullDay : bool;
    startTime : option Dates.ClockTime;
    endTime : option Dates.ClockTime }.
End ScheduleException.

(** The two clock times of a partial exception once they are read,
    [exception.startTime.split(":").map(Number)] and the same for
    [endTime]. *)
Module ExceptionTimes.
Record t : Type := mk {
    startTime : Dates.ClockTime;
    endTime : Dates.ClockTime }.
End ExceptionTimes.

Module Db.

Record Store : Type := mkStore {
  doctors : list Doctor.t;
  services : list Service.t;
  patients : list Patient.t;
  appointments : list Appointment.t;
  schedules : list Schedule.t;
  doctorSchedules : list DoctorSchedule.t;
  scheduleExceptions : list ScheduleException.t;
  created : nat                     (* rows created so far, for fresh ids *) }.

(** The [data] of [prisma.appointment.create]: the row without its id. *)
Definition AppointmentCreateInput := Id -> Appointment.t.

(** The operations of the Prisma client that the services await.  A [where]
    object is the predicate it denotes on rows. *)
Inductive Query : Type -> Type :=
| doctor_findUnique (id : Id) : Query (option Doctor.t)
| service_findUnique (id : Id) : Query (option Service.t)
| patient_findUnique (id : Id) : Query (option Patient.t)
| appointment_findUnique (id : Id) : Query (option Appointment.t)
| appointment_findFirst (where_ : Appointment.t -> bool)
    : Query (option Appointment.t)
| appointment_findMany (where_ : Appointment.t -> bool)
    : Query (list Appointment.t)
| appointment_create (data : AppointmentCreateInput) : Query Appointment.t
| appointment_update (id : Id) (data : Appointment.t -> Appointment.t)
    : Query (option Appointment.t)
| schedule_findFirst (where_ : Schedule.t -> bool) : Query (option Schedule.t)
| doctorSchedule_findFirst (where_ : DoctorSchedule.t -> bool)
    : Query (option DoctorSchedule.t)
| doctorSchedule_findMany (where_ : DoctorSchedule.t -> bool)
    : Query (list DoctorSchedule.t)
| doctorSchedule_findFirstOfPractice (id practiceId : Id)
    : Query (option DoctorSchedule.t)
| doctorSchedule_delete (id : Id) : Query unit
| scheduleException_findMany (where_ : ScheduleException.t -> bool)
    : Query (list ScheduleException.t).

(** Fresh identifier of the [n]-th created row (a uuid in the source). *)
Definition freshId (n : nat) : Id :=
  ("appt-" ++ NilEmpty.string_of_uint (Nat.to_uint n))%string.

Definition setAppointments (s : Store) (l : list Appointment.t) : Store :=
  {| doctors := doctors s; services := services s; patients := patients s;
     appointments := l; schedules := schedules s;
     doctorSchedules := doctorSchedules s;
     scheduleExceptions := scheduleExceptions s; created := created s |}.

(** [update({ where: { id }, data })] on the rows of a table. *)
Fixpoint updateRows (id : Id) (data : Appointment.t -> Appointment.t)
    (rows : list Appointment.t) : list Appointment.t :=
  match rows with
  | [] => []
  | a :: rest =>
      if String.eqb (Appointment.id a) id then data a :: rest
      else a :: updateRows id data rest
  end.

Definition hasId (id : Id) (a : Appointment.t) : bool :=
  String.eqb (Appointment.id a) id.

(** The answer of the store to one operation, and the store afterwards.
    [appointment_update] answers [None] when no row has the id (the
    client throws in that case). *)
Definition exec (X : Type) (q : Query X) (s : Store) : Store * X :=
  match q in Query X return Store * X with
  | doctor_findUnique id =>
      (s, find (fun d => String.eqb (Doctor.id d) id) (doctors s))
  | service_findUnique id =>
      (s, find (fun d => String.eqb (Service.id d) id) (services s))
  | patient_findUnique id =>
      (s, find (fun d => String.eqb (Patient.id d) id) (patients s))
  | appointment_findUnique id => (s, find (hasId id) (appointments s))
  | appointment_findFirst where_ => (s, find where_ (appointments s))
  | appointment_findMany where_ => (s, filter where_ (appointments s))
  | appointment_create data =>
      let a := data (freshId (created s)) in
      ({| doctors := doctors s; services := services s;
          patients := patients s;
          appointments := appointments s ++ [a];
          schedules := schedules s;
          doctorSchedules := doctorSchedules s;
          scheduleExceptions := scheduleExceptions s;
          created := S (created s) |}, a)
  | appointment_update id data =>
      match find (hasId id) (appointments s) with
      | Some a =>
          (setAppointments s (updateRows id data (appointments s)),
           Some (data a))
      | None => (s, None)
      end
  | schedule_findFirst where_ => (s, find where_ (schedules s))
  | doctorSchedule_findFirst where_ => (s, find where_ (doctorSchedules s))
  | doctorSchedule_findMany where_ => (s, filter where_ (doctorSchedules s))
  | doctorSchedule_findFirstOfPractice id practiceId =>
      (* where: { id, doctor: { practiceId } } *)
      (s, find (fun d =>
                  String.eqb (DoctorSchedule.id d) id
                  && existsb (fun doc =>
                       String.eqb (Doctor.id doc) (DoctorSchedule.doctorId d)
                       && String.eqb (Doctor.practiceId doc) practiceId)
                     (doctors s))
               (doctorSchedules s))
  | doctorSchedule_delete id =>
      ({| doctors := doctors s; services := services s;
          patients := patients s; appointments := appointments s;
          schedules := schedules s;
          doctorSchedules :=
            filter (fun d => negb (String.eqb (DoctorSchedule.id d) id))
                   (doctorSchedules s);
          scheduleExceptions := scheduleExceptions s;
          created := created s |}, tt)
  | scheduleException_findMany where_ =>
      (s, filter where_ (scheduleExceptions s))
  end.

End Db.

(* ===================================================================== *)
(** * [AppointmentService] (src/services/appointment.service.js)         *)
(* ===================================================================== *)

Module AppointmentService.
Import Db Dates.
Local Open Scope string_scope.
Local Open Scope Z_scope.
Local Open Scope prog_scope.

(** JavaScript truthiness of an identifier that may be absent. *)
Definition truthy (x : Id) : bool := negb (String.eqb x "").
Definition truthyOpt (x : option string) : bool :=
  match x with Some v => truthy v | None => false end.

Definition isSome {A} (x : option A) : bool :=
  match x with Some _ => true | None => false end.

(** [x || dflt] and the default of a destructured parameter. *)
Definition orElse {A} (x : option A) (dflt : A) : A :=
  match x with Some v => v | None => dflt end.

(** The argument of [createAppointment].  An absent identifier is the empty
    string; [startTime] may be absent, [endTime] is a valid date. *)
Module AppointmentData.
Record t : Type := mk {
    patientId : Id;
    doctorId : Id;
    serviceId : Id;
    startTime : option Z;
    endTime : Z;
    reason : option string;
    notes : option string;
    status : option string;
    bookingSource : option string }.
End AppointmentData.

(** The three alternatives of the [OR] of the conflict query
    (lines 87-100 and 318-331). *)
Definition timesClash (startTime endTime : Z) (a : Appointment.t) : bool :=
  ((Appointment.startTime a <=? startTime) &&
   (Appointment.endTime a >? startTime))
  || ((Appointment.startTime a <? endTime) &&
      (Appointment.endTime a >=? endTime))
  || ((Appointment.startTime a >=? startTime) &&
      (Appointment.endTime a <=? endTime)).

(** [where] of the conflict query of [createAppointment] (lines 84-101). *)
Definition conflictWhere (doctorId : Id) (startTime endTime : Z)
    (a : Appointment.t) : bool :=
  String.eqb (Appointment.doctorId a) doctorId
  && negb (String.eqb (Appointment.status a) "CANCELLED")
  && timesClash startTime endTime a.

Definition notAvailable : Error :=
  BadRequestError "Doctor is not available at this time".

(** A clock string ["HH:MM"] that the date-time format accepts after the
    ["T"]: hours 00 to 23 with minutes 00 to 59, and 24:00, the end of the
    day. *)
Definition isTime (c : ClockTime) : bool :=
  ((0 <=? hour c) && (hour c <=? 23) && (0 <=? minute c) && (minute c <=? 59))
  || ((hour c =? 24) && (minute c =? 0)).

(** [new Date(`${appointmentDate}T${value}`)] (lines 121-122): the instant,
    or [None] for an Invalid Date, which is what the constructor makes of a
    string that is not a date-time: a clock string that is not a time, or
    the spelling of a Date. *)
Definition atClock (day : Z) (value : TimeValue) : option Z :=
  match value with
  | clockString c =>
      if isTime c
      then Some (day * msPerDay + hour c * msPerHour + minute c * 60 * 1000)
      else None
  | dateValue _ => None
  end.

(** [a < b] and [a > b] for a Date [b] that may be invalid: a comparison
    with an Invalid Date is false. *)
Definition ltDate (a : Z) (b : option Z) : bool :=
  match b with Some v => a <? v | None => false end.
Definition gtDate (a : Z) (b : option Z) : bool :=
  match b with Some v => a >? v | None => false end.

(** [createAppointment(appointmentData)] (lines 26-178); [now] is the
    reading of the clock by [new Date()].  The notifications sent after the
    row is created are wrapped in a [try]/[catch] that swallows their
    failure and do not touch the store: they are left out. *)
Definition createAppointment (now : Z) (appointmentData : AppointmentData.t)
    : Prog Query Appointment.t :=
  let patientId := AppointmentData.patientId appointmentData in
  let doctorId := AppointmentData.doctorId appointmentData in
  let serviceId := AppointmentData.serviceId appointmentData in
  let endTime := AppointmentData.endTime appointmentData in
  let reason := AppointmentData.reason appointmentData in
  let notes := AppointmentData.notes appointmentData in
  let status := orElse (AppointmentData.status appointmentData) "PENDING" in
  let bookingSource :=
    orElse (AppointmentData.bookingSource appointmentData) "ONLINE" in
  match AppointmentData.startTime appointmentData with
  | None => Throw (BadRequestError "Missing required fields")
  | Some startTime =>
      (* validate required fields *)
      throwIf (negb (truthy patientId) || negb (truthy doctorId)
               || negb (truthy serviceId))
              (BadRequestError "Missing required fields") ;;
      (* validate appointment times *)
      throwIf (startTime >=? endTime)
              (BadRequestError "End time must be after start time") ;;
      throwIf (startTime <? now)
              (BadRequestError "Cannot book appointment in the past") ;;
      (* check if doctor exists *)
      doctor <- await (doctor_findUnique doctorId) ;;
      doctor <- orThrow doctor
        (NotFoundError ("Doctor with ID " ++ doctorId ++ " not found")) ;;
      (* check if service exists *)
      service <- await (service_findUnique serviceId) ;;
      service <- orThrow service
        (NotFoundError ("Service with ID " ++ serviceId ++ " not found")) ;;
      (* check if patient exists *)
      patient <- await (patient_findUnique patientId) ;;
      patient <- orThrow patient
        (NotFoundError ("Patient with ID " ++ patientId ++ " not found")) ;;
      (* check if doctor is available at this time *)
      conflictingAppointment <-
        await (appointment_findFirst
                 (conflictWhere doctorId startTime endTime)) ;;
      throwIf (isSome conflictingAppointment) notAvailable ;;
      (* check if doctor is scheduled to work at this time *)
      let appointmentDate := toISODate startTime in
      schedule <-
        await (schedule_findFirst
                 (fun s => String.eqb (Schedule.doctorId s) doctorId
                           && (Schedule.date s =? appointmentDate))) ;;
      schedule <- orThrow schedule
        (BadRequestError "Doctor is not scheduled to work on this day") ;;
      let scheduleStart := atClock appointmentDate (Schedule.startTime schedule) in
      let scheduleEnd := atClock appointmentDate (Schedule.endTime schedule) in
      let appointmentStart := startTime in
      let appointmentEnd := endTime in
      throwIf (ltDate appointmentStart scheduleStart
               || gtDate appointmentEnd scheduleEnd)
              (BadRequestError
                 "Appointment time is outside of doctor's working hours") ;;
      (* create appointment *)
      await (appointment_create (fun id =>
        {| Appointment.id := id;
           Appointment.patientId := patientId;
           Appointment.doctorId := doctorId;
           Appointment.serviceId := serviceId;
           Appointment.practiceId := Doctor.practiceId doctor;
           Appointment.startTime := startTime;
           Appointment.endTime := endTime;
           Appointment.reason := reason;
           Appointment.notes := notes;
           Appointment.status := status;
           Appointment.bookingSource := bookingSource;
           Appointment.cancellationReason := None |}))
  end.

(** [getAppointmentById(id)] (lines 256-276). *)
Definition getAppointmentById (id : Id) : Prog Query Appointment.t :=
  appointment <- await (appointment_findUnique id) ;;
  orThrow appointment
    (NotFoundError ("Appointment with ID " ++ id ++ " not found")).

(** The argument of [updateAppointment]: every field may be absent
    ([undefined]).  The times arrive as ISO strings in canonical form, so
    comparing two of them is comparing the instants. *)
Module UpdateData.
Record t : Type := mk {
    patientId : option Id;
    doctorId : option Id;
    serviceId : option Id;
    startTime : option Z;
    endTime : option Z;
    reason : option string;
    notes : option string;
    status : option string }.
End UpdateData.

(** [where] of the conflict query of [updateAppointment] (lines 314-332). *)
Definition conflictWhereExcept (id doctorId : Id) (startTime endTime : Z)
    (a : Appointment.t) : bool :=
  String.eqb (Appointment.doctorId a) doctorId
  && negb (String.eqb (Appointment.id a) id)
  && negb (String.eqb (Appointment.status a) "CANCELLED")
  && timesClash startTime endTime a.

(** [updateData] (lines 341-359): only the fields that are provided. *)
Definition updateData (d : UpdateData.t) (a : Appointment.t) : Appointment.t :=
  {| Appointment.id := Appointment.id a;
     Appointment.patientId :=
       orElse (UpdateData.patientId d) (Appointment.patientId a);
     Appointment.doctorId :=
       orElse (UpdateData.doctorId d) (Appointment.doctorId a);
     Appointment.serviceId :=
       orElse (UpdateData.serviceId d) (Appointment.serviceId a);
     Appointment.practiceId := Appointment.practiceId a;
     Appointment.startTime :=
       orElse (UpdateData.startTime d) (Appointment.startTime a);
     Appointment.endTime :=
       orElse (UpdateData.endTime d) (Appointment.endTime a);
     Appointment.reason :=
       match UpdateData.reason d with
       | Some r => Some r | None => Appointment.reason a end;
     Appointment.notes :=
       match UpdateData.notes d with
       | Some n => Some n | None => Appointment.notes a end;
     Appointment.status := orElse (UpdateData.status d) (Appointment.status a);
     Appointment.bookingSource := Appointment.bookingSource a;
     Appointment.cancellationReason := Appointment.cancellationReason a |}.

Definition recordNotFound : Error :=
  PrismaError "Record to update not found.".

(** [updateAppointment(id, appointmentData)] (lines 284-398). *)
Definition updateAppointment (id : Id) (appointmentData : UpdateData.t)
    : Prog Query Appointment.t :=
  (* check if appointment exists *)
  appointment <- getAppointmentById id ;;
  (* validate appointment times if changing *)
  match UpdateData.startTime appointmentData,
        UpdateData.endTime appointmentData with
  | Some startTime, Some endTime =>
      throwIf (startTime >=? endTime)
              (BadRequestError "End time must be after start time")
  | _, _ => Ret tt
  end ;;
  (* if changing doctor or time, check availability *)
  (if (truthyOpt (UpdateData.doctorId appointmentData)
       && negb (String.eqb (orElse (UpdateData.doctorId appointmentData) "")
                           (Appointment.doctorId appointment)))
      || match UpdateData.startTime appointmentData with
         | Some t => negb (t =? Appointment.startTime appointment)
         | None => false
         end
      || match UpdateData.endTime appointmentData with
         | Some t => negb (t =? Appointment.endTime appointment)
         | None => false
         end
   then
     let doctorId :=
       if truthyOpt (UpdateData.doctorId appointmentData)
       then orElse (UpdateData.doctorId appointmentData) ""
       else Appointment.doctorId appointment in
     let startTime :=
       orElse (UpdateData.startTime appointmentData)
              (Appointment.startTime appointment) in
     let endTime :=
       orElse (UpdateData.endTime appointmentData)
              (Appointment.endTime appointment) in
     (* check for conflicts *)
     conflictingAppointment <-
       await (appointment_findFirst
                (conflictWhereExcept id doctorId startTime endTime)) ;;
     throwIf (isSome conflictingAppointment) notAvailable
   else Ret tt) ;;
  (* update appointment *)
  updatedAppointment <-
    await (appointment_update id (updateData appointmentData)) ;;
  orThrow updatedAppointment recordNotFound.

(** [data] of the update of [cancelAppointment] (lines 422-425): the
    status and the cancellation reason, [reason || "No reason provided"]. *)
Definition cancelData (reason : option string) (a : Appointment.t)
    : Appointment.t :=
  {| Appointment.id := Appointment.id a;
     Appointment.patientId := Appointment.patientId a;
     Appointment.doctorId := Appointment.doctorId a;
     Appointment.serviceId := Appointment.serviceId a;
     Appointment.practiceId := Appointment.practiceId a;
     Appointment.startTime := Appointment.startTime a;
     Appointment.endTime := Appointment.endTime a;
     Appointment.reason := Appointment.reason a;
     Appointment.notes := Appointment.notes a;
     Appointment.status := "CANCELLED";
     Appointment.bookingSource := Appointment.bookingSource a;
     Appointment.cancellationReason :=
       Some (if truthyOpt reason then orElse reason ""
             else "No reason provided") |}.

Definition alreadyCancelled : Error :=
  BadRequestError "Appointment is already cancelled".

(** [cancelAppointment(id, reason)] (lines 406-457); [now] is the reading
    of the clock by [new Date()]. *)
Definition cancelAppointment (now : Z) (id : Id) (reason : option string)
    : Prog Query Appointment.t :=
  appointment <- getAppointmentById id ;;
  (* check if appointment is already cancelled *)
  throwIf (String.eqb (Appointment.status appointment) "CANCELLED")
          alreadyCancelled ;;
  (* check if appointment is in the past *)
  throwIf (Appointment.startTime appointment <? now)
          (BadRequestError "Cannot cancel a past appointment") ;;
  (* update appointment status *)
  cancelledAppointment <-
    await (appointment_update id (cancelData reason)) ;;
  orThrow cancelledAppointment recordNotFound.

End AppointmentService.

(* ===================================================================== *)
(** * [ScheduleService] (src/services/schedule.service.js)               *)
(* ===================================================================== *)

Module ScheduleService.
Import Db Dates TimeRanges.
Local Open Scope string_scope.
Local Open Scope Z_scope.
Local Open Scope prog_scope.

(** [status: { notIn: ["CANCELLED", "NO_SHOW"] }]. *)
Definition occupiesTime (a : Appointment.t) : bool :=
  negb (String.eqb (Appointment.status a) "CANCELLED"
        || String.eqb (Appointment.status a) "NO_SHOW").

(** [OR: [{ f: null }, { f: { lte: d } }]] and its [gte] twin. *)
Definition nullOrLte (f : option Z) (d : Z) : bool :=
  match f with None => true | Some v => v <=? d end.
Definition nullOrGte (f : option Z) (d : Z) : bool :=
  match f with None => true | Some v => v >=? d end.

(** The TypeError of [exception.startTime.split(":")] on a time that is
    [null], with the message of the engine. *)
Definition splitOfNull : Error :=
  TypeError "Cannot read properties of null (reading 'split')".

(** The two reads [exception.startTime.split(":").map(Number)] and
    [exception.endTime.split(":").map(Number)] that each loop over the
    partial exceptions makes (lines 360-368, 462-470 and 690-698), in this
    order. *)
Definition readTimes (exception : ScheduleException.t)
    : Outcome ExceptionTimes.t :=
  match ScheduleException.startTime exception with
  | None => Thrown splitOfNull
  | Some startTime =>
      match ScheduleException.endTime exception with
      | None => Thrown splitOfNull
      | Some endTime =>
          Returned {| ExceptionTimes.startTime := startTime;
                      ExceptionTimes.endTime := endTime |}
      end
  end.

(** The reads of a loop over [partialExceptions], one exception after the
    other.  Nothing but the throw of a read leaves the loop early, and what
    the loop has computed is lost when it throws, so the times are read
    before the ranges are removed. *)
Fixpoint readAllTimes (partialExceptions : list ScheduleException.t)
    : Outcome (list ExceptionTimes.t) :=
  match partialExceptions with
  | [] => Returned []
  | exception :: rest =>
      bindOutcome (readTimes exception) (fun times =>
      bindOutcome (readAllTimes rest) (fun others =>
      Returned (times :: others)))
  end.

(** A [for (const x of xs)] loop whose turns push onto one array, or
    throw. *)
Fixpoint forEach {A B} (turn : A -> Outcome (list B)) (xs : list A)
    : Outcome (list B) :=
  match xs with
  | [] => Returned []
  | x :: rest =>
      bindOutcome (turn x) (fun pushed =>
      bindOutcome (forEach turn rest) (fun later =>
      Returned (pushed ++ later)%list))
  end.

(** The range blocked on the day of [day] by a partial exception. *)
Definition exceptionRange (day : Z) (e : ExceptionTimes.t) : TimeRange :=
  {| start := setHours day (ExceptionTimes.startTime e);
     end_ := setHours day (ExceptionTimes.endTime e) |}.

(** The range occupied by an appointment. *)
Definition appointmentRange (a : Appointment.t) : TimeRange :=
  {| start := Appointment.startTime a; end_ := Appointment.endTime a |}.

(** [deleteScheduleItem(scheduleId, practiceId)] (lines 157-183). *)
Definition deleteScheduleItem (scheduleId practiceId : Id)
    : Prog Query bool :=
  (* verify the schedule item belongs to a doctor in this practice *)
  scheduleItem <-
    await (doctorSchedule_findFirstOfPractice scheduleId practiceId) ;;
  _ <- orThrow scheduleItem
         (PlainError "Schedule item not found or unauthorized") ;;
  await (doctorSchedule_delete scheduleId) ;;
  Ret true.

(** The ranges left of one schedule period of the day of [day] once the
    partial exceptions, with their times read, and then the appointments are
    removed: the body of the [for (const schedule of ...)] loops (lines
    342-386 and 671-715). *)
Definition scheduleRanges (day : Z) (schedule : DoctorSchedule.t)
    (partialExceptions : list ExceptionTimes.t)
    (appointments : list Appointment.t) : list TimeRange :=
  let scheduleStart := setHours day (DoctorSchedule.startTime schedule) in
  let scheduleEnd := setHours day (DoctorSchedule.endTime schedule) in
  (* start with the full schedule period as available *)
  let availableRanges := [{| start := scheduleStart; end_ := scheduleEnd |}] in
  (* remove exception times *)
  let availableRanges :=
    removeAll availableRanges (map (exceptionRange day) partialExceptions) in
  (* remove appointment times *)
  removeAll availableRanges (map appointmentRange appointments).

(** [getAvailableTimeSlots(doctorId, date, duration)] (lines 273-404). *)
Definition getAvailableTimeSlots (doctorId : Id) (date duration : Z)
    : Prog Query (list Slot) :=
  let requestedDate := startOfDay date in
  let endDate := endOfDay requestedDate in
  let dayOfWeek := getDay requestedDate in
  (* the doctor's schedule for this day of week *)
  scheduleItems <-
    await (doctorSchedule_findMany (fun s =>
      String.eqb (DoctorSchedule.doctorId s) doctorId
      && (DoctorSchedule.dayOfWeek s =? dayOfWeek)
      && nullOrLte (DoctorSchedule.effectiveDate s) requestedDate
      && nullOrGte (DoctorSchedule.expiryDate s) requestedDate
      && DoctorSchedule.isAvailable s)) ;;
  (* schedule exceptions on this date *)
  exceptions <-
    await (scheduleException_findMany (fun e =>
      String.eqb (ScheduleException.doctorId e) doctorId
      && (ScheduleException.date e >=? requestedDate)
      && (ScheduleException.date e <=? endDate))) ;;
  (* if there's a full-day exception, no slots are available *)
  match find ScheduleException.isFullDay exceptions with
  | Some fullDayException => Ret []
  | None =>
      (* existing appointments for this day *)
      appointments <-
        await (appointment_findMany (fun a =>
          String.eqb (Appointment.doctorId a) doctorId
          && (Appointment.startTime a >=? requestedDate)
          && (Appointment.endTime a <=? endDate)
          && occupiesTime a)) ;;
      (* process each schedule item for this day *)
      ofOutcome (forEach (fun schedule =>
             let partialExceptions :=
               filter (fun e => negb (ScheduleException.isFullDay e))
                      exceptions in
             bindOutcome (readAllTimes partialExceptions) (fun times =>
             let availableRanges :=
               scheduleRanges requestedDate schedule times appointments in
             Returned (flat_map (fun range =>
                         _generateTimeSlots (start range) (end_ range)
                                            duration)
                      availableRanges)))
           scheduleItems)
  end.

(** The [for (const exception of exceptions)] loop of
    [isTimeSlotAvailable] (lines 459-478): it answers at the first partial
    exception that overlaps the interval and throws at the first one, before
    that, with a time that is [null]. *)
Fixpoint overlapsPartialException (start end' : Z)
    (exceptions : list ScheduleException.t) : Outcome bool :=
  match exceptions with
  | [] => Returned false
  | exception :: rest =>
      if negb (ScheduleException.isFullDay exception)
      then
        bindOutcome (readTimes exception) (fun times =>
        let exStart := setHours start (ExceptionTimes.startTime times) in
        let exEnd := setHours start (ExceptionTimes.endTime times) in
        (* does the time slot overlap with the exception? *)
        if negb ((end' <=? exStart) || (start >=? exEnd))
        then Returned true
        else overlapsPartialException start end' rest)
      else overlapsPartialException start end' rest
  end.

(** [isTimeSlotAvailable(doctorId, startTime, endTime)] (lines 413-505). *)
Definition isTimeSlotAvailable (doctorId : Id) (startTime endTime : Z)
    : Prog Query bool :=
  let start := startTime in
  let end' := endTime in
  let dayOfWeek := getDay start in
  let timeStr := toTimeString start in
  let endTimeStr := toTimeString end' in
  let dateForExceptions := startOfDay start in
  (* check if the doctor is scheduled to work at this time *)
  schedule <-
    await (doctorSchedule_findFirst (fun s =>
      String.eqb (DoctorSchedule.doctorId s) doctorId
      && (DoctorSchedule.dayOfWeek s =? dayOfWeek)
      && clock_leb (DoctorSchedule.startTime s) timeStr
      && clock_leb endTimeStr (DoctorSchedule.endTime s)
      && nullOrLte (DoctorSchedule.effectiveDate s) start
      && nullOrGte (DoctorSchedule.expiryDate s) end'
      && DoctorSchedule.isAvailable s)) ;;
  if negb (AppointmentService.isSome schedule) then Ret false else
  (* check for schedule exceptions *)
  exceptions <-
    await (scheduleException_findMany (fun e =>
      String.eqb (ScheduleException.doctorId e) doctorId
      && (ScheduleException.date e =? dateForExceptions))) ;;
  (* check for full-day exceptions *)
  if AppointmentService.isSome (find ScheduleException.isFullDay exceptions)
  then Ret false else
  (* check for partial-day exceptions *)
  overlapsException <-
    ofOutcome (overlapsPartialException start end' exceptions) ;;
  if (overlapsException : bool) then Ret false else
  (* check for overlapping appointments *)
  overlappingAppointment <-
    await (appointment_findFirst (fun a =>
      String.eqb (Appointment.doctorId a) doctorId
      && occupiesTime a
      && ((Appointment.startTime a <? end')
          && (Appointment.endTime a >? start)))) ;;
  if AppointmentService.isSome overlappingAppointment then Ret false
  else Ret true.

(** The objects pushed onto [slots] by [_generateAvailabilitySlots].  Their
    [duration] field, the length of the range in minutes as a floating-point
    number, is derived from the two times and is left out. *)
Module AvailabilitySlot.
Record t : Type := mk { date : Z; startTime : Z; endTime : Z }.
End AvailabilitySlot.

(** One turn of the [while (currentDate <= endDate)] loop of
    [_generateAvailabilitySlots] (lines 642-727): the slots of the day of
    [currentDate], or the throw of a read. *)
Definition availabilityOfDay (weeklySchedule : list DoctorSchedule.t)
    (exceptions : list ScheduleException.t)
    (appointments : list Appointment.t) (currentDate : Z)
    : Outcome (list AvailabilitySlot.t) :=
  let dayOfWeek := getDay currentDate in
  let dateStr := toISODate currentDate in
  (* is there a full-day exception for this date? *)
  match find (fun e => (toISODate (ScheduleException.date e) =? dateStr)
                       && ScheduleException.isFullDay e) exceptions with
  | Some fullDayException => Returned []
  | None =>
      let daySchedules :=
        filter (fun s => DoctorSchedule.dayOfWeek s =? dayOfWeek)
               weeklySchedule in
      let partialExceptions :=
        filter (fun e => (toISODate (ScheduleException.date e) =? dateStr)
                         && negb (ScheduleException.isFullDay e))
               exceptions in
      let dayAppointments :=
        filter (fun a => toISODate (Appointment.startTime a) =? dateStr)
               appointments in
      (* process each schedule period for this day *)
      forEach (fun schedule =>
                  bindOutcome (readAllTimes partialExceptions) (fun times =>
                  Returned
                    (map (fun range =>
                            {| AvailabilitySlot.date := dateStr;
                               AvailabilitySlot.startTime := start range;
                               AvailabilitySlot.endTime := end_ range |})
                         (scheduleRanges currentDate schedule times
                                         dayAppointments))))
               daySchedules
  end.

(** [_generateAvailabilitySlots(weeklySchedule, exceptions, appointments,
    startDate, endDate)] (lines 630-734): [currentDate] starts at
    [startDate] and moves one day at a time. *)
Equations? _generateAvailabilitySlots (weeklySchedule : list DoctorSchedule.t)
    (exceptions : list ScheduleException.t)
    (appointments : list Appointment.t) (currentDate endDate : Z)
    : Outcome (list AvailabilitySlot.t)
    by wf (Z.to_nat ((endDate - currentDate) / msPerDay + 1)) lt :=
  _generateAvailabilitySlots weeklySchedule exceptions appointments
      currentDate endDate with Z_le_gt_dec currentDate endDate := {
    | left _ =>
        bindOutcome
          (availabilityOfDay weeklySchedule exceptions appointments
                             currentDate)
          (fun slots =>
           bindOutcome
             (_generateAvailabilitySlots weeklySchedule exceptions
                appointments (currentDate + msPerDay) endDate)
             (fun later => Returned (slots ++ later)%list))
    | right _ => Returned [] }.
Proof.
  assert (Hd : 0 < msPerDay) by reflexivity.
  replace (endDate - (currentDate + msPerDay))
    with ((endDate - currentDate) + (-1) * msPerDay) by ring.
  rewrite Z.div_add by lia.
  assert (0 <= (endDate - currentDate) / msPerDay) by (apply Z.div_pos; lia).
  lia.
Qed.

(** [getDoctorSchedule(doctorId, startDate, endDate)] (lines 85-149). *)
Definition getDoctorSchedule (doctorId : Id) (startDate endDate : Z)
    : Prog Query (list AvailabilitySlot.t) :=
  let start := startDate in
  let end' := endDate in
  weeklySchedule <-
    await (doctorSchedule_findMany (fun s =>
      String.eqb (DoctorSchedule.doctorId s) doctorId
      && nullOrLte (DoctorSchedule.effectiveDate s) end'
      && nullOrGte (DoctorSchedule.expiryDate s) start
      && DoctorSchedule.isAvailable s)) ;;
  exceptions <-
    await (scheduleException_findMany (fun e =>
      String.eqb (ScheduleException.doctorId e) doctorId
      && (ScheduleException.date e >=? start)
      && (ScheduleException.date e <=? end'))) ;;
  appointments <-
    await (appointment_findMany (fun a =>
      String.eqb (Appointment.doctorId a) doctorId
      && (Appointment.startTime a >=? start)
      && (Appointment.endTime a <=? end')
      && occupiesTime a)) ;;
  ofOutcome (_generateAvailabilitySlots weeklySchedule exceptions
                                        appointments start end').

End ScheduleService.

(* ===================================================================== *)
(** * [deleteSchedule] (src/controllers/schedule.controller.js)          *)
(* ===================================================================== *)

(** The controller addresses [prisma.schedule] with rows that carry an id,
    a practice and two timestamps, and [prisma.appointment] with the status
    strings of the controllers. *)
Module ScheduleController.
Local Open Scope string_scope.
Local Open Scope Z_scope.
Local Open Scope prog_scope.

Module Schedule.
Record t : Type := mk {
    id : Id;
    practiceId : Id;
    doctorId : Id;
    startTime : Z;
    endTime : Z }.
End Schedule.

Record Store : Type := mkStore {
  schedules : list Schedule.t;
  appointments : list Appointment.t }.

Inductive Query : Type -> Type :=
| schedule_findUnique (id practiceId : Id) : Query (option Schedule.t)
| appointment_findMany (where_ : Appointment.t -> bool)
    : Query (list Appointment.t)
| schedule_delete (id : Id) : Query unit.

Definition exec (X : Type) (q : Query X) (s : Store) : Store * X :=
  match q in Query X return Store * X with
  | schedule_findUnique id practiceId =>
      (s, find (fun r => String.eqb (Schedule.id r) id
                         && String.eqb (Schedule.practiceId r) practiceId)
               (schedules s))
  | appointment_findMany where_ => (s, filter where_ (appointments s))
  | schedule_delete id =>
      ({| schedules :=
            filter (fun r => negb (String.eqb (Schedule.id r) id))
                   (schedules s);
          appointments := appointments s |}, tt)
  end.

(** [where] of the conflict query (lines 388-400). *)
Definition conflictsWhere (practiceId : Id) (schedule : Schedule.t)
    (a : Appointment.t) : bool :=
  String.eqb (Appointment.doctorId a) (Schedule.doctorId schedule)
  && String.eqb (Appointment.practiceId a) practiceId
  && (Appointment.startTime a >=? Schedule.startTime schedule)
  && (Appointment.endTime a <=? Schedule.endTime schedule)
  && (String.eqb (Appointment.status a) "scheduled"
      || String.eqb (Appointment.status a) "confirmed").

Definition hasAppointments : Error :=
  BadRequestError "Cannot delete schedule with existing appointments".

(** [deleteSchedule(req, res, next)] (lines 371-422) with
    [req.params = { practiceId, scheduleId }]: it answers with the message
    of [res.json], or hands the error thrown to [next]. *)
Definition deleteSchedule (practiceId scheduleId : Id) : Prog Query string :=
  schedule <- await (schedule_findUnique scheduleId practiceId) ;;
  schedule <- orThrow schedule (NotFoundError "Schedule not found") ;;
  (* check if there are appointments during this schedule *)
  conflicts <- await (appointment_findMany (conflictsWhere practiceId schedule)) ;;
  throwIf (0 <? Z.of_nat (List.length conflicts)) hasAppointments ;;
  (* delete the schedule *)
  await (schedule_delete scheduleId) ;;
  Ret "Schedule deleted successfully".

End ScheduleController.

(* ===================================================================== *)
(** * The appointment routes (src/api/middleware/validation.middleware.js) *)
(* ===================================================================== *)

Module Validation.
Local Open Scope string_scope.

(** The statuses that [validateAppointmentCreate] and
    [validateAppointmentUpdate] let through
    ([body("status").optional().isIn([...])], lines 260-263 and 279-282);
    they are the ones that the appointment service writes and asks for. *)
Definition appointmentStatuses : list string :=
  ["PENDING"; "CONFIRMED"; "COMPLETED"; "CANCELLED"; "NO_SHOW"].

End Validation.

(* ===================================================================== *)
(** * Vocabulary of the properties                                       *)
(* ===================================================================== *)

Module Booking.
Import Db AppointmentService.
Local Open Scope string_scope.
Local Open Scope Z_scope.

(** A service call that runs alone on the store. *)
Definition call {A} (p : Prog Query A) (s : Store) : Store * Outcome A :=
  run exec p s.

(** A stored appointment is an interval: it starts before it ends. *)
Definition wellFormed (a : Appointment.t) : Prop :=
  Appointment.startTime a < Appointment.endTime a.

(** Half-open overlap of [startTime, endTime) with the interval of [a]:
    the two conflict unless one ends at or before the other begins. *)
Definition overlaps (startTime endTime : Z) (a : Appointment.t) : Prop :=
  ~ (Appointment.endTime a <= startTime \/ endTime <= Appointment.startTime a).

(** An appointment that blocks, in the words of the design document: only
    the appointments whose status is neither CANCELLED nor NO_SHOW occupy
    time and block new bookings. *)
Definition blocking (a : Appointment.t) : Prop :=
  Appointment.status a <> "CANCELLED" /\ Appointment.status a <> "NO_SHOW".

(** The request passes every check that [createAppointment] makes before
    it looks for a conflicting appointment: the required fields are there,
    the interval is valid and not in the past, and the doctor, the service
    and the patient exist. *)
Definition reachesConflictCheck (now : Z) (d : AppointmentData.t)
    (startTime : Z) (s : Store) : Prop :=
  AppointmentData.startTime d = Some startTime /\
  AppointmentData.patientId d <> "" /\
  AppointmentData.doctorId d <> "" /\
  AppointmentData.serviceId d <> "" /\
  startTime < AppointmentData.endTime d /\
  now <= startTime /\
  (exists x, In x (doctors s) /\ Doctor.id x = AppointmentData.doctorId d) /\
  (exists x, In x (services s) /\ Service.id x = AppointmentData.serviceId d) /\
  (exists x, In x (patients s) /\ Patient.id x = AppointmentData.patientId d).

(** Two stored appointments of one doctor that both count for the conflict
    query and whose intervals overlap. *)
Definition doubleBooked (s : Store) : Prop :=
  exists a b,
    In a (appointments s) /\ In b (appointments s) /\
    Appointment.id a <> Appointment.id b /\
    Appointment.doctorId a = Appointment.doctorId b /\
    Appointment.status a <> "CANCELLED" /\
    Appointment.status b <> "CANCELLED" /\
    overlaps (Appointment.startTime a) (Appointment.endTime a) b.

(** The store with another table of schedule exceptions. *)
Definition withExceptions (s : Store) (es : list ScheduleException.t)
    : Store :=
  {| doctors := doctors s; services := services s; patients := patients s;
     appointments := appointments s; schedules := schedules s;
     doctorSchedules := doctorSchedules s;
     scheduleExceptions := es; created := created s |}.

(** The store with another table of appointments. *)
Definition withAppointments (s : Store) (rows : list Appointment.t)
    : Store :=
  {| doctors := doctors s; services := services s; patients := patients s;
     appointments := rows; schedules := schedules s;
     doctorSchedules := doctorSchedules s;
     scheduleExceptions := scheduleExceptions s; created := created s |}.

End Booking.

(** A small practice used to evaluate the services: one doctor who works
    on Monday 2022-01-10 (day 19002) from 09:00 to 17:00, one service, one
    patient, and one appointment from 10:00 to 10:30. *)
Module Clinic.
Import Db Dates AppointmentService.
Local Open Scope string_scope.
Local Open Scope Z_scope.

Definition monday : Z := 19002.

(** The instant [h:m] of the day [day]. *)
Definition at_ (day h m : Z) : Z :=
  day * msPerDay + h * msPerHour + m * 60 * 1000.

Definition existing (status : string) : Appointment.t :=
  {| Appointment.id := "appt-0";
     Appointment.patientId := "pat-1";
     Appointment.doctorId := "doc-1";
     Appointment.serviceId := "svc-1";
     Appointment.practiceId := "practice-1";
     Appointment.startTime := at_ monday 10 0;
     Appointment.endTime := at_ monday 10 30;
     Appointment.reason := None;
     Appointment.notes := None;
     Appointment.status := status;
     Appointment.bookingSource := "ONLINE";
     Appointment.cancellationReason := None |}.

Definition store (appointments : list Appointment.t)
    (exceptions : list ScheduleException.t) : Store :=
  {| doctors := [{| Doctor.id := "doc-1"; Doctor.practiceId := "practice-1" |}];
     services := [{| Service.id := "svc-1" |}];
     patients := [{| Patient.id := "pat-1" |}];
     appointments := appointments;
     schedules :=
       [{| Schedule.doctorId := "doc-1"; Schedule.date := monday;
           Schedule.startTime := clockString {| hour := 9; minute := 0 |};
           Schedule.endTime := clockString {| hour := 17; minute := 0 |} |}];
     doctorSchedules :=
       [{| DoctorSchedule.id := "ds-1"; DoctorSchedule.doctorId := "doc-1";
           DoctorSchedule.dayOfWeek := 1;
           DoctorSchedule.startTime := {| hour := 9; minute := 0 |};
           DoctorSchedule.endTime := {| hour := 17; minute := 0 |};
           DoctorSchedule.isAvailable := true;
           DoctorSchedule.effectiveDate := None;
           DoctorSchedule.expiryDate := None |}];
     scheduleExceptions := exceptions;
     created := 1 |}.

(** A request of the patient for the doctor from [h1:m1] to [h2:m2] on that
    Monday. *)
Definition request (h1 m1 h2 m2 : Z) : AppointmentData.t :=
  {| AppointmentData.patientId := "pat-1";
     AppointmentData.doctorId := "doc-1";
     AppointmentData.serviceId := "svc-1";
     AppointmentData.startTime := Some (at_ monday h1 m1);
     AppointmentData.endTime := at_ monday h2 m2;
     AppointmentData.reason := None;
     AppointmentData.notes := None;
     AppointmentData.status := None;
     AppointmentData.bookingSource := None |}.

(** The row that [createAppointment] stores for [request h1 m1 h2 m2] when
    it is the [n]-th row created. *)
Definition booked (n : nat) (h1 m1 h2 m2 : Z) : Appointment.t :=
  {| Appointment.id := freshId n;
     Appointment.patientId := "pat-1";
     Appointment.doctorId := "doc-1";
     Appointment.serviceId := "svc-1";
     Appointment.practiceId := "practice-1";
     Appointment.startTime := at_ monday h1 m1;
     Appointment.endTime := at_ monday h2 m2;
     Appointment.reason := None;
     Appointment.notes := None;
     Appointment.status := "PENDING";
     Appointment.bookingSource := "ONLINE";
     Appointment.cancellationReason := None |}.

(** The clock reads 08:00 of the Friday before. *)
Definition now : Z := at_ (monday - 3) 8 0.

(** A full-day exception and a lunch break on that Monday, as
    [addScheduleException] stores them. *)
Definition dayOff : ScheduleException.t :=
  {| ScheduleException.id := "ex-1"; ScheduleException.doctorId := "doc-1";
     ScheduleException.date := at_ monday 0 0;
     ScheduleException.isFullDay := true;
     ScheduleException.startTime := None;
     ScheduleException.endTime := None |}.

Definition lunch : ScheduleException.t :=
  {| ScheduleException.id := "ex-2"; ScheduleException.doctorId := "doc-1";
     ScheduleException.date := at_ monday 0 0;
     ScheduleException.isFullDay := false;
     ScheduleException.startTime := Some {| hour := 12; minute := 0 |};
     ScheduleException.endTime := Some {| hour := 13; minute := 0 |} |}.

(** The times of the lunch break once read. *)
Definition lunchTimes : ExceptionTimes.t :=
  {| ExceptionTimes.startTime := {| hour := 12; minute := 0 |};
     ExceptionTimes.endTime := {| hour := 13; minute := 0 |} |}.

(** A request to move the stored appointment to other times. *)
Definition moveTo (start' end' : option Z) : UpdateData.t :=
  {| UpdateData.patientId := None; UpdateData.doctorId := None;
     UpdateData.serviceId := None; UpdateData.startTime := start';
     UpdateData.endTime := end'; UpdateData.reason := None;
     UpdateData.notes := None; UpdateData.status := None |}.

(** The confirmed appointment once moved to [h1:m1]-[h2:m2]. *)
Definition moved (h1 m1 h2 m2 : Z) : Appointment.t :=
  updateData (moveTo (Some (at_ monday h1 m1)) (Some (at_ monday h2 m2)))
             (existing "CONFIRMED").

(** The same practice as the schedule controller sees it: the schedule
    entry of that Monday from 09:00 to 17:00 and the appointment. *)
Definition entry : ScheduleController.Schedule.t :=
  {| ScheduleController.Schedule.id := "sched-1";
     ScheduleController.Schedule.practiceId := "practice-1";
     ScheduleController.Schedule.doctorId := "doc-1";
     ScheduleController.Schedule.startTime := at_ monday 9 0;
     ScheduleController.Schedule.endTime := at_ monday 17 0 |}.

(** A "confirmed" appointment that runs over the end of the entry, from
    16:45 to 17:15, and one inside the entry that is recorded under another
    practice. *)
Definition overrun : Appointment.t :=
  {| Appointment.id := "appt-0";
     Appointment.patientId := "pat-1";
     Appointment.doctorId := "doc-1";
     Appointment.serviceId := "svc-1";
     Appointment.practiceId := "practice-1";
     Appointment.startTime := at_ monday 16 45;
     Appointment.endTime := at_ monday 17 15;
     Appointment.reason := None;
     Appointment.notes := None;
     Appointment.status := "confirmed";
     Appointment.bookingSource := "ONLINE";
     Appointment.cancellationReason := None |}.

Definition elsewhere : Appointment.t :=
  {| Appointment.id := "appt-0";
     Appointment.patientId := "pat-1";
     Appointment.doctorId := "doc-1";
     Appointment.serviceId := "svc-1";
     Appointment.practiceId := "practice-2";
     Appointment.startTime := at_ monday 10 0;
     Appointment.endTime := at_ monday 10 30;
     Appointment.reason := None;
     Appointment.notes := None;
     Appointment.status := "confirmed";
     Appointment.bookingSource := "ONLINE";
     Appointment.cancellationReason := None |}.

Definition controllerStore (appointments : list Appointment.t)
    : ScheduleController.Store :=
  {| ScheduleController.schedules := [entry];
     ScheduleController.appointments := appointments |}.

End Clinic.

(* ===================================================================== *)
(** * Schedule management of [ScheduleService]                           *)
(* ===================================================================== *)

(** [setDoctorSchedule], [addScheduleException] and
    [removeScheduleException] (schedule.service.js, lines 16-76 and
    191-264), over the same store. *)
Module ScheduleAdmin.
Import Db Dates.
Local Open Scope string_scope.
Local Open Scope Z_scope.
Local Open Scope prog_scope.

(** The operations of the Prisma client that these methods await. *)
Inductive Query : Type -> Type :=
| doctor_findFirst (id practiceId : Id) : Query (option Doctor.t)
| doctorSchedule_create (data : Id -> DoctorSchedule.t)
    : Query DoctorSchedule.t
| scheduleException_create (data : Id -> ScheduleException.t)
    : Query ScheduleException.t
| scheduleException_findFirstOfPractice (id practiceId : Id)
    : Query (option ScheduleException.t)
| scheduleException_delete (id : Id) : Query unit.

(** Fresh identifier of the [n]-th created row (a uuid in the source). *)
Definition freshRow (n : nat) : Id :=
  ("row-" ++ NilEmpty.string_of_uint (Nat.to_uint n))%string.

(** A doctor of the practice owns the row of doctor [doctorId]:
    [doctor: { practiceId }] in a [where]. *)
Definition ofPractice (s : Store) (doctorId practiceId : Id) : bool :=
  existsb (fun doc => String.eqb (Doctor.id doc) doctorId
                      && String.eqb (Doctor.practiceId doc) practiceId)
          (doctors s).

Definition exec (X : Type) (q : Query X) (s : Store) : Store * X :=
  match q in Query X return Store * X with
  | doctor_findFirst id practiceId =>
      (s, find (fun d => String.eqb (Doctor.id d) id
                         && String.eqb (Doctor.practiceId d) practiceId)
               (doctors s))
  | doctorSchedule_create data =>
      let row := data (freshRow (created s)) in
      ({| doctors := doctors s; services := services s;
          patients := patients s; appointments := appointments s;
          schedules := schedules s;
          doctorSchedules := doctorSchedules s ++ [row];
          scheduleExceptions := scheduleExceptions s;
          created := S (created s) |}, row)
  | scheduleException_create data =>
      let row := data (freshRow (created s)) in
      ({| doctors := doctors s; services := services s;
          patients := patients s; appointments := appointments s;
          schedules := schedules s;
          doctorSchedules := doctorSchedules s;
          scheduleExceptions := scheduleExceptions s ++ [row];
          created := S (created s) |}, row)
  | scheduleException_findFirstOfPractice id practiceId =>
      (s, find (fun e => String.eqb (ScheduleException.id e) id
                         && ofPractice s (ScheduleException.doctorId e)
                                       practiceId)
               (scheduleExceptions s))
  | scheduleException_delete id =>
      ({| doctors := doctors s; services := services s;
          patients := patients s; appointments := appointments s;
          schedules := schedules s;
          doctorSchedules := doctorSchedules s;
          scheduleExceptions :=
            filter (fun e => negb (String.eqb (ScheduleException.id e) id))
                   (scheduleExceptions s);
          created := created s |}, tt)
  end.

(** [prisma.$transaction(async (tx) => body)]: the writes of [body] are
    kept when it returns and discarded when it throws. *)
Definition transaction {A} (body : Prog Query A) (s : Store)
    : Store * Outcome A :=
  match run exec body s with
  | (s', Returned a) => (s', Returned a)
  | (_, Thrown e) => (s, Thrown e)
  end.

(** An element of [scheduleData.scheduleItems]. *)
Module ScheduleItem.
Record t : Type := mk {
    dayOfWeek : Z;
    startTime : ClockTime;
    endTime : ClockTime;
    isAvailable : bool;
    effectiveDate : option Z;
    expiryDate : option Z }.
End ScheduleItem.

Definition invalidTimes : Error :=
  PlainError "Start time must be before end time".

Definition doctorNotInPractice : Error :=
  PlainError "Doctor not found or does not belong to this practice".

(** The [for (const item of scheduleItems)] loop of [setDoctorSchedule]
    (lines 38-67); it returns the rows pushed onto [createdSlots].  The
    clock times are compared as strings, [startTime >= endTime]. *)
Fixpoint createSlots (doctorId : Id) (scheduleItems : list ScheduleItem.t)
    : Prog Query (list DoctorSchedule.t) :=
  match scheduleItems with
  | [] => Ret []
  | item :: rest =>
      (* validate time slots *)
      throwIf (clock_leb (ScheduleItem.endTime item)
                         (ScheduleItem.startTime item)) invalidTimes ;;
      (* create the schedule *)
      schedule <- await (doctorSchedule_create (fun id =>
        {| DoctorSchedule.id := id;
           DoctorSchedule.doctorId := doctorId;
           DoctorSchedule.dayOfWeek := ScheduleItem.dayOfWeek item;
           DoctorSchedule.startTime := ScheduleItem.startTime item;
           DoctorSchedule.endTime := ScheduleItem.endTime item;
           DoctorSchedule.isAvailable := ScheduleItem.isAvailable item;
           DoctorSchedule.effectiveDate := ScheduleItem.effectiveDate item;
           DoctorSchedule.expiryDate := ScheduleItem.expiryDate item |})) ;;
      createdSlots <- createSlots doctorId rest ;;
      Ret (schedule :: createdSlots)
  end.

(** [setDoctorSchedule(doctorId, { scheduleItems, practiceId })]
    (lines 16-76). *)
Definition setDoctorSchedule (doctorId : Id)
    (scheduleItems : list ScheduleItem.t) (practiceId : Id) (s : Store)
    : Store * Outcome (list DoctorSchedule.t) :=
  transaction
    ((* check that the doctor exists and belongs to the practice *)
     doctor <- await (doctor_findFirst doctorId practiceId) ;;
     _ <- orThrow doctor doctorNotInPractice ;;
     (* process each schedule item *)
     createSlots doctorId scheduleItems) s.

(** [exceptionData] of [addScheduleException]; its [reason] is not part of
    the rows of the model.  The method checks the doctor only: a clock time
    may be missing ([None]), also when [isFullDay] is false. *)
Module ExceptionData.
Record t : Type := mk {
    date : Z;
    isFullDay : bool;
    startTime : option ClockTime;
    endTime : option ClockTime;
    practiceId : Id }.
End ExceptionData.

Definition doctorNotAssociated : Error :=
  PlainError "Doctor not found or not associated with this practice".

(** [addScheduleException(doctorId, exceptionData)] (lines 191-230). *)
Definition addScheduleException (doctorId : Id) (exceptionData : ExceptionData.t)
    : Prog Query ScheduleException.t :=
  let isFullDay := ExceptionData.isFullDay exceptionData in
  (* validate the doctor exists and belongs to the practice *)
  doctor <- await (doctor_findFirst doctorId
                     (ExceptionData.practiceId exceptionData)) ;;
  _ <- orThrow doctor doctorNotAssociated ;;
  (* create the exception *)
  await (scheduleException_create (fun id =>
    {| ScheduleException.id := id;
       ScheduleException.doctorId := doctorId;
       ScheduleException.date := ExceptionData.date exceptionData;
       ScheduleException.isFullDay := isFullDay;
       ScheduleException.startTime :=
         if isFullDay then None
         else ExceptionData.startTime exceptionData;
       ScheduleException.endTime :=
         if isFullDay then None
         else ExceptionData.endTime exceptionData |})).

Definition exceptionNotFound : Error :=
  PlainError "Exception not found or unauthorized".

(** [removeScheduleException(exceptionId, practiceId)] (lines 238-264). *)
Definition removeScheduleException (exceptionId practiceId : Id)
    : Prog Query bool :=
  (* verify the exception belongs to a doctor in this practice *)
  exception <-
    await (scheduleException_findFirstOfPractice exceptionId practiceId) ;;
  _ <- orThrow exception exceptionNotFound ;;
  await (scheduleException_delete exceptionId) ;;
  Ret true.

End ScheduleAdmin.

(* ===================================================================== *)
(** * What a call leaves behind                                          *)
(* ===================================================================== *)

(** Names for the rows and stores that the services produce, used to state
    their effect. *)
Module Outcomes.
Import Db Dates AppointmentService.
Local Open Scope string_scope.
Local Open Scope Z_scope.

(** The row that [createAppointment] hands to [prisma.appointment.create]
    (lines 140-161) once the row has its id: the fields of the request, the
    practice of the doctor, and the defaults of [status] and
    [bookingSource]. *)
Definition newAppointment (d : AppointmentData.t) (startTime : Z)
    (practiceId id : Id) : Appointment.t :=
  {| Appointment.id := id;
     Appointment.patientId := AppointmentData.patientId d;
     Appointment.doctorId := AppointmentData.doctorId d;
     Appointment.serviceId := AppointmentData.serviceId d;
     Appointment.practiceId := practiceId;
     Appointment.startTime := startTime;
     Appointment.endTime := AppointmentData.endTime d;
     Appointment.reason := AppointmentData.reason d;
     Appointment.notes := AppointmentData.notes d;
     Appointment.status := orElse (AppointmentData.status d) "PENDING";
     Appointment.bookingSource :=
       orElse (AppointmentData.bookingSource d) "ONLINE";
     Appointment.cancellationReason := None |}.

(** The store after [prisma.appointment.create] has stored [a]. *)
Definition withNewAppointment (s : Store) (a : Appointment.t) : Store :=
  {| doctors := doctors s; services := services s; patients := patients s;
     appointments := (appointments s ++ [a])%list; schedules := schedules s;
     doctorSchedules := doctorSchedules s;
     scheduleExceptions := scheduleExceptions s;
     created := S (created s) |}.

(** A doctor with this id is registered with the practice: what the
    [where: { id: doctorId, practiceId }] and [doctor: { practiceId }]
    lookups of the schedule service decide. *)
Definition doctorOf (s : Store) (doctorId practiceId : Id) : Prop :=
  exists doc, In doc (doctors s) /\ Doctor.id doc = doctorId /\
              Doctor.practiceId doc = practiceId.

(** A stored exception one of whose clock times is [null]. *)
Definition lacksTime (e : ScheduleException.t) : Prop :=
  ScheduleException.startTime e = None \/ ScheduleException.endTime e = None.

(** A clock time of the day: hours below 24, minutes below 60. *)
Definition validClock (c : ClockTime) : Prop :=
  0 <= hour c < 24 /\ 0 <= minute c < 60.

(** A request that changes nothing but the status. *)
Definition setStatus (status : string) : UpdateData.t :=
  {| UpdateData.patientId := None; UpdateData.doctorId := None;
     UpdateData.serviceId := None; UpdateData.startTime := None;
     UpdateData.endTime := None; UpdateData.reason := None;
     UpdateData.notes := None; UpdateData.status := Some status |}.

End Outcomes.

(* ===================================================================== *)
(** * The listings of [AppointmentService]                               *)
(* ===================================================================== *)

(** The [where] objects that [getAppointmentsByPractice],
    [getPatientAppointments] and [getDoctorAppointments]
    (appointment.service.js, lines 193-249 and 470-573) build for
    [prisma.appointment.findMany] and [prisma.appointment.count].  The
    [page] and [limit] of the options only steer [skip] and [take] and are
    left out. *)
Module Listing.
Import Dates AppointmentService.
Local Open Scope string_scope.
Local Open Scope Z_scope.

(** A condition on a date column, [{ gte, lte, lt }]; a bound that the
    object does not have is [None]. *)
Module DateFilter.
Record t : Type := mk { gte : option Z; lte : option Z; lt : option Z }.
End DateFilter.

(** A [where] object.  A key that the object does not have is [None];
    an object has one value per key, so writing a key replaces the value
    that the key had. *)
Module Where.
Record t : Type := mk {
    practiceId : option Id;
    patientId : option Id;
    doctorId : option Id;
    status : option string;
    startTime : option DateFilter.t }.
End Where.

Definition setStatus (v : string) (w : Where.t) : Where.t :=
  {| Where.practiceId := Where.practiceId w;
     Where.patientId := Where.patientId w;
     Where.doctorId := Where.doctorId w;
     Where.status := Some v;
     Where.startTime := Where.startTime w |}.

Definition setDoctorId (v : Id) (w : Where.t) : Where.t :=
  {| Where.practiceId := Where.practiceId w;
     Where.patientId := Where.patientId w;
     Where.doctorId := Some v;
     Where.status := Where.status w;
     Where.startTime := Where.startTime w |}.

Definition setPatientId (v : Id) (w : Where.t) : Where.t :=
  {| Where.practiceId := Where.practiceId w;
     Where.patientId := Some v;
     Where.doctorId := Where.doctorId w;
     Where.status := Where.status w;
     Where.startTime := Where.startTime w |}.

Definition setStartTime (v : DateFilter.t) (w : Where.t) : Where.t :=
  {| Where.practiceId := Where.practiceId w;
     Where.patientId := Where.patientId w;
     Where.doctorId := Where.doctorId w;
     Where.status := Where.status w;
     Where.startTime := Some v |}.

(** [{ ...where, ...(x && { key: ... x ... }) }] for a string [x]: an absent
    or empty [x] is falsy and spreads nothing. *)
Definition spreadString (x : option string)
    (assign : string -> Where.t -> Where.t) (w : Where.t) : Where.t :=
  match x with
  | Some v => if truthy v then assign v w else w
  | None => w
  end.

(** The same for a date [x], which is truthy whenever it is there. *)
Definition spreadDate (x : option Z) (assign : Z -> Where.t -> Where.t)
    (w : Where.t) : Where.t :=
  match x with Some v => assign v w | None => w end.

(** The same for a flag. *)
Definition spreadFlag (x : bool) (assign : Where.t -> Where.t)
    (w : Where.t) : Where.t :=
  if x then assign w else w.

Definition gteOnly (d : Z) : DateFilter.t :=
  {| DateFilter.gte := Some d; DateFilter.lte := None; DateFilter.lt := None |}.
Definition lteOnly (d : Z) : DateFilter.t :=
  {| DateFilter.gte := None; DateFilter.lte := Some d; DateFilter.lt := None |}.
Definition ltOnly (d : Z) : DateFilter.t :=
  {| DateFilter.gte := None; DateFilter.lte := None; DateFilter.lt := Some d |}.

(** The options of [getAppointmentsByPractice]. *)
Module PracticeOptions.
Record t : Type := mk {
    status : option string;
    startDate : option Z;
    endDate : option Z;
    doctorId : option Id;
    patientId : option Id }.
End PracticeOptions.

(** [where] of [getAppointmentsByPractice] (lines 207-218). *)
Definition practiceWhere (practiceId : Id) (options : PracticeOptions.t)
    : Where.t :=
  let where_ :=
    {| Where.practiceId := Some practiceId; Where.patientId := None;
       Where.doctorId := None; Where.status := None;
       Where.startTime := None |} in
  let where_ := spreadString (PracticeOptions.status options) setStatus where_ in
  let where_ :=
    spreadString (PracticeOptions.doctorId options) setDoctorId where_ in
  let where_ :=
    spreadString (PracticeOptions.patientId options) setPatientId where_ in
  let where_ :=
    spreadDate (PracticeOptions.startDate options)
               (fun startDate => setStartTime (gteOnly startDate)) where_ in
  let where_ :=
    spreadDate (PracticeOptions.endDate options)
               (fun endDate => setStartTime (lteOnly endDate)) where_ in
  where_.

(** The options of [getPatientAppointments]. *)
Module PatientOptions.
Record t : Type := mk {
    status : option string;
    upcoming : bool;
    past : bool }.
End PatientOptions.

(** [where] of [getPatientAppointments] (lines 476-481); [now] is the
    clock read by [new Date()]. *)
Definition patientWhere (now : Z) (patientId : Id)
    (options : PatientOptions.t) : Where.t :=
  let where_ :=
    {| Where.practiceId := None; Where.patientId := Some patientId;
       Where.doctorId := None; Where.status := None;
       Where.startTime := None |} in
  let where_ := spreadString (PatientOptions.status options) setStatus where_ in
  let where_ :=
    spreadFlag (PatientOptions.upcoming options)
               (setStartTime (gteOnly now)) where_ in
  let where_ :=
    spreadFlag (PatientOptions.past options)
               (setStartTime (ltOnly now)) where_ in
  where_.

(** The options of [getDoctorAppointments]. *)
Module DoctorOptions.
Record t : Type := mk {
    status : option string;
    date : option Z }.
End DoctorOptions.

(** [where] of [getDoctorAppointments] (lines 528-546). *)
Definition doctorWhere (doctorId : Id) (options : DoctorOptions.t)
    : Where.t :=
  let where_ :=
    {| Where.practiceId := None; Where.patientId := None;
       Where.doctorId := Some doctorId; Where.status := None;
       Where.startTime := None |} in
  let where_ := spreadString (DoctorOptions.status options) setStatus where_ in
  (* if date is provided, filter by that specific day *)
  match DoctorOptions.date options with
  | Some date =>
      setStartTime {| DateFilter.gte := Some (startOfDay date);
                      DateFilter.lte := Some (endOfDay date);
                      DateFilter.lt := None |} where_
  | None => where_
  end.

(** The rows that the client selects for a [where] object: every key that
    the object has must hold. *)
Definition keyHolds (key : option string) (value : string) : bool :=
  match key with Some v => String.eqb value v | None => true end.

Definition dateHolds (key : option DateFilter.t) (value : Z) : bool :=
  match key with
  | Some f =>
      match DateFilter.gte f with Some d => value >=? d | None => true end
      && match DateFilter.lte f with Some d => value <=? d | None => true end
      && match DateFilter.lt f with Some d => value <? d | None => true end
  | None => true
  end.

Definition selects (w : Where.t) (a : Appointment.t) : bool :=
  keyHolds (Where.practiceId w) (Appointment.practiceId a)
  && keyHolds (Where.patientId w) (Appointment.patientId a)
  && keyHolds (Where.doctorId w) (Appointment.doctorId a)
  && keyHolds (Where.status w) (Appointment.status a)
  && dateHolds (Where.startTime w) (Appointment.startTime a).

End Listing.

(* ===================================================================== *)
(** * Properties of the time-range algebra                               *)
(* ===================================================================== *)

Module TimeRangesFacts.
Import TimeRanges.

(** Case analysis on every integer comparison of the goal. *)
Ltac zcases :=
  rewrite ?Z.geb_leb, ?Z.gtb_ltb;
  repeat match goal with
         | |- context [Z.leb ?a ?b] => destruct (Z.leb_spec0 a b)
         | |- context [Z.ltb ?a ?b] => destruct (Z.ltb_spec0 a b)
         end;
  cbn [orb andb negb].

Lemma covers_nil t : covers [] t <-> False.
Proof. split; [intros (r & [] & _) | tauto]. Qed.

Lemma covers_cons r R t : covers (r :: R) t <-> inside t r \/ covers R t.
Proof.
  unfold covers; split.
  - intros (x & [<- | Hin] & Hx); [left | right; exists x]; auto.
  - intros [Hr | (x & Hin & Hx)]; [exists r | exists x]; simpl; auto.
Qed.

Lemma chain_weaken lo lo' R : lo' <= lo -> chain lo R -> chain lo' R.
Proof.
  destruct R; simpl; [tauto|].
  intros ? (? & ? & ?); repeat split; auto; lia.
Qed.

Lemma chain_lower lo R : chain lo R -> Forall (fun r => lo <= start r) R.
Proof.
  revert lo; induction R as [|r R IH]; intros lo; simpl; [constructor|].
  intros (Hlo & Hv & Hc); constructor; [exact Hlo|].
  apply IH, (chain_weaken (end_ r)); [lia | exact Hc].
Qed.

Lemma chain_valid lo R : chain lo R -> Forall valid R.
Proof.
  revert lo; induction R as [|r R IH]; intros lo; simpl; [constructor|].
  intros (_ & Hv & Hc); constructor; [exact Hv | exact (IH _ Hc)].
Qed.

Lemma chain_disjoint lo R : chain lo R -> pairwise_disjoint R.
Proof.
  revert lo; induction R as [|r R IH]; intros lo; simpl; [constructor|].
  intros (_ & Hv & Hc); constructor; [| exact (IH _ Hc)].
  apply chain_lower in Hc. eapply Forall_impl; [| exact Hc].
  intros a Ha; left; exact Ha.
Qed.

Lemma chain_sorted lo R : chain lo R -> sorted R.
Proof.
  revert lo; induction R as [|r R IH]; intros lo; simpl; [constructor|].
  intros (_ & Hv & Hc); constructor; [exact (IH _ Hc)|].
  destruct R as [|r' R]; constructor. simpl in Hc. lia.
Qed.

Lemma chain_intro R :
  Forall valid R -> pairwise_disjoint R -> sorted R ->
  forall lo, Forall (fun r => lo <= start r) R -> chain lo R.
Proof.
  induction R as [|r R IH]; simpl; [tauto|].
  intros Hv Hd Hs lo Hlo.
  inversion Hv as [|? ? Hvr HvR]; inversion Hd as [|? ? Hdr HdR]; subst.
  inversion Hs as [|? ? HsR Hhd]; inversion Hlo as [|? ? Hlor _]; subst.
  repeat split; [exact Hlor | exact Hvr |].
  apply (IH HvR HdR HsR).
  apply Sorted_StronglySorted in Hs; [| intros x y z; lia].
  inversion Hs as [|? ? _ Hall]; subst.
  rewrite Forall_forall in *. intros x Hx.
  specialize (Hall x Hx); specialize (Hdr x Hx); specialize (HvR x Hx).
  unfold disjoint, valid in *. lia.
Qed.

Lemma remove_chain R rs re :
  rs <= re -> forall lo, chain lo R -> chain lo (_removeTimeRange R rs re).
Proof.
  intros Hx; induction R as [|r R IH]; intros lo; simpl; [tauto|].
  intros (Hlo & Hv & Hc). specialize (IH _ Hc).
  assert (Hw : chain lo (_removeTimeRange R rs re))
    by (apply (chain_weaken (end_ r)); [lia | exact IH]).
  zcases; simpl; repeat split; auto; try lia;
    apply (chain_weaken (end_ r)); auto; lia.
Qed.

Lemma remove_covers R rs re t :
  covers (_removeTimeRange R rs re) t <-> covers R t /\ ~ (rs <= t < re).
Proof.
  induction R as [|r R IH]; simpl.
  - rewrite covers_nil; tauto.
  - rewrite (covers_cons r R).
    zcases; rewrite ?covers_cons, IH; unfold inside; simpl; intuition lia.
Qed.

Lemma remove_app R1 R2 rs re :
  _removeTimeRange (R1 ++ R2) rs re =
  _removeTimeRange R1 rs re ++ _removeTimeRange R2 rs re.
Proof.
  induction R1 as [|r R1 IH]; simpl; [reflexivity|].
  rewrite IH; zcases; reflexivity.
Qed.

Lemma remove_cons r R rs re :
  _removeTimeRange (r :: R) rs re =
  _removeTimeRange [r] rs re ++ _removeTimeRange R rs re.
Proof. exact (remove_app [r] R rs re). Qed.

(** Case analysis that follows the if/else-if chain: decide the first test
    still in the way, discard the branches the context contradicts. *)
Ltac step_if :=
  match goal with
  | |- context [if ?c then _ else _] =>
      match c with
      | context [Z.leb ?a ?b] => destruct (Z.leb_spec0 a b)
      | context [Z.ltb ?a ?b] => destruct (Z.ltb_spec0 a b)
      end; cbn [orb andb negb]; try (exfalso; lia)
  end.

Lemma remove_comm_single r a b c d :
  valid r -> a <= b -> c <= d ->
  _removeTimeRange (_removeTimeRange [r] a b) c d =
  _removeTimeRange (_removeTimeRange [r] c d) a b.
Proof.
  destruct r as [s e]; unfold valid; simpl; intros Hv Hab Hcd.
  rewrite ?Z.geb_leb, ?Z.gtb_ltb.
  repeat (step_if; cbn [_removeTimeRange start end_];
          rewrite ?Z.geb_leb, ?Z.gtb_ltb);
    try reflexivity; repeat f_equal; lia.
Qed.

Lemma remove_comm R a b c d :
  Forall valid R -> a <= b -> c <= d ->
  _removeTimeRange (_removeTimeRange R a b) c d =
  _removeTimeRange (_removeTimeRange R c d) a b.
Proof.
  intros Hv Hab Hcd; induction Hv as [|r R Hr _ IH]; [reflexivity|].
  rewrite (remove_cons r R a b), (remove_cons r R c d), !remove_app.
  rewrite IH, (remove_comm_single r a b c d Hr Hab Hcd). reflexivity.
Qed.

Lemma remove_valid R rs re :
  Forall valid R -> Forall valid (_removeTimeRange R rs re).
Proof.
  induction 1 as [|r R Hr _ IH]; simpl; [constructor|].
  unfold valid in *; zcases; repeat constructor; simpl; auto; lia.
Qed.

Lemma removeAll_valid xs :
  forall R, Forall valid R -> Forall valid (removeAll R xs).
Proof.
  induction xs as [|x xs IH]; intros R HR; simpl; [exact HR|].
  apply IH, remove_valid, HR.
Qed.

Lemma removeAll_remove xs a b :
  a <= b -> Forall (fun x => start x <= end_ x) xs ->
  forall R, Forall valid R ->
  removeAll (_removeTimeRange R a b) xs = _removeTimeRange (removeAll R xs) a b.
Proof.
  intros Hab Hxs; induction Hxs as [|x xs Hx _ IH]; intros R HR; simpl;
    [reflexivity|].
  rewrite (remove_comm R a b _ _ HR Hab Hx).
  apply IH, remove_valid, HR.
Qed.

Lemma removeAll_comm R xs ys :
  Forall valid R ->
  Forall (fun x => start x <= end_ x) xs ->
  Forall (fun y => start y <= end_ y) ys ->
  removeAll (removeAll R xs) ys = removeAll (removeAll R ys) xs.
Proof.
  intros HR Hxs Hys; revert R HR.
  induction Hxs as [|x xs Hx Hxs' IH]; intros R HR; simpl; [reflexivity|].
  rewrite IH by (apply remove_valid, HR).
  f_equal. apply removeAll_remove; assumption.
Qed.

(** ** Slot generation *)

Lemma slotLoop_length current end' durationMs :
  Z.of_nat (List.length (slotLoop current end' durationMs)) =
  if current <=? end' then (end' - current) / 900000 + 1 else 0.
Proof.
  funelim (slotLoop current end' durationMs).
  - match goal with IH : Z.of_nat _ = _ |- _ => rename IH into IH' end.
    cbn [List.length]. rewrite Nat2Z.inj_succ, IH'.
    change (slotIncrement * msPerMinute) with 900000.
    destruct (Z.leb_spec0 current end') as [_|]; [|lia].
    destruct (Z.leb_spec0 (current + 900000) end') as [|Hgt].
    + replace (end' - current) with ((end' - (current + 900000)) + 1 * 900000)
        by ring.
      rewrite Z.div_add by lia. lia.
    + rewrite (Z.div_small (end' - current) 900000) by lia. lia.
  - destruct (Z.leb_spec0 current end'); [lia | reflexivity].
Qed.

Lemma slotLoop_slots current end' durationMs :
  Forall (fun sl => endTime sl = startTime sl + durationMs /\
                    current <= startTime sl <= end')
         (slotLoop current end' durationMs).
Proof.
  funelim (slotLoop current end' durationMs); constructor.
  - simpl; lia.
  - match goal with IH : Forall _ _ |- _ => rename IH into IH' end.
    eapply Forall_impl; [| exact IH']. simpl.
    change (slotIncrement * msPerMinute) with 900000. intros sl. lia.
Qed.

Lemma chain_of R :
  Forall valid R -> pairwise_disjoint R -> sorted R -> exists lo, chain lo R.
Proof.
  intros Hv Hd Hs. destruct R as [|r R]; [exists 0; exact I|].
  exists (start r). apply chain_intro; auto.
  constructor; [lia|].
  apply Sorted_StronglySorted in Hs; [| intros x y z; lia].
  inversion Hs; subst; assumption.
Qed.

(** C3: on a pairwise-disjoint sorted list of non-empty ranges,
    [_removeTimeRange] returns a pairwise-disjoint sorted list of non-empty
    ranges; an instant is covered by the result exactly when it is covered
    by the input and lies outside the removed range, so the result together
    with the removed part of the input is the input; and each range is
    handled by one of the five cases: kept, dropped, split in two, truncated
    from the left, truncated from the right. *)
Theorem removeTimeRange_subtracts (R : list TimeRange)
    (removeStart removeEnd : Z) :
  Forall valid R -> pairwise_disjoint R -> sorted R ->
  removeStart <= removeEnd ->
  let R' := _removeTimeRange R removeStart removeEnd in
  Forall valid R' /\ pairwise_disjoint R' /\ sorted R' /\
  (forall t, covers R' t \/ (covers R t /\ removeStart <= t < removeEnd)
             <-> covers R t) /\
  (forall t, covers R' t -> ~ removeStart <= t < removeEnd) /\
  (forall range rest, valid range ->
     let tail := _removeTimeRange rest removeStart removeEnd in
     let result := _removeTimeRange (range :: rest) removeStart removeEnd in
     (end_ range <= removeStart \/ removeEnd <= start range ->
        result = range :: tail) /\
     (removeStart <= start range /\ end_ range <= removeEnd ->
        result = tail) /\
     (start range < removeStart /\ removeEnd < end_ range ->
        result = {| start := start range; end_ := removeStart |}
                   :: {| start := removeEnd; end_ := end_ range |} :: tail) /\
     (removeStart <= start range /\ start range < removeEnd
      /\ removeEnd < end_ range ->
        result = {| start := removeEnd; end_ := end_ range |} :: tail) /\
     (start range < removeStart /\ removeStart < end_ range
      /\ end_ range <= removeEnd ->
        result = {| start := start range; end_ := removeStart |} :: tail)).
Proof.
  intros Hv Hd Hs Hx R'.
  destruct (chain_of R Hv Hd Hs) as [lo Hc].
  pose proof (remove_chain R removeStart removeEnd Hx lo Hc) as Hc'.
  split; [exact (chain_valid _ _ Hc')|].
  split; [exact (chain_disjoint _ _ Hc')|].
  split; [exact (chain_sorted _ _ Hc')|].
  split; [| split].
  - intros t. unfold R'. rewrite remove_covers.
    destruct (Z_le_gt_dec removeStart t), (Z_lt_ge_dec t removeEnd);
      intuition lia.
  - intros t Ht. apply remove_covers in Ht. tauto.
  - intros range rest Hr; unfold valid in Hr; cbn zeta.
    repeat split; intros Hcase; simpl; zcases; try reflexivity; lia.
Qed.

(** The theorem at the range 09:00-17:00 (in minutes) and the removal range
    12:00-13:00. *)
Lemma removeTimeRange_subtracts_witness :
  let R := [{| start := 540; end_ := 1020 |}] in
  _removeTimeRange R 720 780 =
    [{| start := 540; end_ := 720 |}; {| start := 780; end_ := 1020 |}]
  /\ sorted (_removeTimeRange R 720 780).
Proof.
  split; [reflexivity|].
  refine (proj1 (proj2 (proj2
    (removeTimeRange_subtracts [{| start := 540; end_ := 1020 |}] 720 780
       _ _ _ _)))).
  - repeat constructor.
  - repeat constructor.
  - repeat constructor.
  - lia.
Defined.

(** C6: over a range that is [L] minutes long, [_generateTimeSlots] with a
    duration of [d] minutes and its increment of 15 minutes yields
    floor((L - d) / 15) + 1 slots when [d <= L] and none otherwise; every
    slot is [d] minutes long and lies within the range. *)
Theorem generateTimeSlots_exhaustive (rangeStart L d : Z) :
  let rangeEnd := rangeStart + L * msPerMinute in
  let slots := _generateTimeSlots rangeStart rangeEnd d in
  Z.of_nat (List.length slots) =
    (if d <=? L then (L - d) / slotIncrement + 1 else 0) /\
  Forall (fun sl => endTime sl - startTime sl = d * msPerMinute /\
                    rangeStart <= startTime sl /\ endTime sl <= rangeEnd)
         slots.
Proof.
  cbn zeta; unfold _generateTimeSlots, msPerMinute, slotIncrement; split.
  - rewrite slotLoop_length.
    replace (rangeStart + L * (60 * 1000) - d * 60 * 1000 - rangeStart)
      with ((L - d) * 60000) by ring.
    change 900000 with (15 * 60000).
    rewrite Z.div_mul_cancel_r by lia.
    destruct (Z.leb_spec0 d L), (Z.leb_spec0 rangeStart
      (rangeStart + L * (60 * 1000) - d * 60 * 1000)); lia.
  - eapply Forall_impl; [| apply slotLoop_slots]. simpl. intros sl. lia.
Qed.

End TimeRangesFacts.

(* ===================================================================== *)
(** * Properties of the appointment service                              *)
(* ===================================================================== *)

Module AppointmentFacts.
Import Db Dates AppointmentService ScheduleService Booking Clinic.
Local Open Scope string_scope.
Local Open Scope Z_scope.
Local Open Scope prog_scope.

Section RunLemmas.
Context {Q : Type -> Type} {S : Type} (ex : forall X, Q X -> S -> S * X).

Lemma run_bind {A B} (p : Prog Q A) (f : A -> Prog Q B) (s : S) :
  run ex (bind p f) s =
  match run ex p s with
  | (s', Returned a) => run ex (f a) s'
  | (s', Thrown e) => (s', Thrown e)
  end.
Proof.
  revert s; induction p as [a | e | X q k IH]; intros s; simpl;
    [reflexivity | reflexivity |].
  destruct (ex X q s) as [s' x]. apply IH.
Qed.

Lemma run_throwIf {B} (c : bool) (e : Error) (k : Prog Q B) (s : S) :
  run ex (throwIf c e ;; k) s = if c then (s, Thrown e) else run ex k s.
Proof. destruct c; reflexivity. Qed.

Lemma run_orThrow {A B} (o : option A) (e : Error) (f : A -> Prog Q B)
    (s : S) :
  run ex (bind (orThrow o e) f) s =
  match o with Some a => run ex (f a) s | None => (s, Thrown e) end.
Proof. destruct o; reflexivity. Qed.

Lemma run_await {X B} (q : Q X) (f : X -> Prog Q B) (s : S) :
  run ex (bind (await q) f) s = run ex (f (snd (ex X q s))) (fst (ex X q s)).
Proof. simpl. destruct (ex X q s); reflexivity. Qed.
End RunLemmas.

Lemma isSome_find {A} (f : A -> bool) (l : list A) :
  isSome (find f l) = true <-> exists x, In x l /\ f x = true.
Proof.
  split.
  - destruct (find f l) as [x|] eqn:E; [| discriminate].
    intros _. exists x. exact (find_some _ _ E).
  - intros (x & Hin & Hx). destruct (find f l) eqn:E; [reflexivity|].
    rewrite (find_none _ _ E x Hin) in Hx. discriminate.
Qed.

Lemma find_exists {A} (f : A -> bool) (l : list A) :
  (exists x, In x l /\ f x = true) -> exists y, find f l = Some y.
Proof.
  intros H. apply isSome_find in H. destruct (find f l) as [y|];
    [exists y; reflexivity | discriminate].
Qed.

Lemma truthy_true (x : Id) : x <> "" -> truthy x = true.
Proof.
  intros H. unfold truthy. destruct (String.eqb_spec x ""); [contradiction|].
  reflexivity.
Qed.

(** The three alternatives of the query are the half-open overlap test as
    soon as both intervals are non-empty. *)
Lemma timesClash_overlaps (startTime endTime : Z) (a : Appointment.t) :
  wellFormed a -> startTime < endTime ->
  timesClash startTime endTime a = true <-> overlaps startTime endTime a.
Proof.
  unfold wellFormed, overlaps, timesClash. intros Ha Hr.
  rewrite !Z.geb_leb, !Z.gtb_ltb.
  destruct (Z.leb_spec0 (Appointment.startTime a) startTime),
           (Z.ltb_spec0 startTime (Appointment.endTime a)),
           (Z.ltb_spec0 (Appointment.startTime a) endTime),
           (Z.leb_spec0 endTime (Appointment.endTime a)),
           (Z.leb_spec0 startTime (Appointment.startTime a)),
           (Z.leb_spec0 (Appointment.endTime a) endTime);
    cbn [orb andb]; split; intros; try discriminate; try reflexivity; lia.
Qed.

Lemma conflictWhere_spec (doctorId : Id) (startTime endTime : Z)
    (a : Appointment.t) :
  wellFormed a -> startTime < endTime ->
  conflictWhere doctorId startTime endTime a = true <->
  Appointment.doctorId a = doctorId /\
  Appointment.status a <> "CANCELLED" /\
  overlaps startTime endTime a.
Proof.
  intros Ha Hr. unfold conflictWhere.
  rewrite !andb_true_iff, negb_true_iff, (timesClash_overlaps _ _ _ Ha Hr).
  rewrite String.eqb_eq, String.eqb_neq. tauto.
Qed.

(** Rewrites the lookup of a row that the hypothesis [H] says exists. *)
Ltac find_row H :=
  match goal with
  | |- context [find ?f ?l] =>
      let r := fresh "row" in
      let E := fresh "Hrow" in
      destruct (find_exists f l) as [r E];
      [ destruct H as (x & Hx & Hid); exists x;
        split; [exact Hx | apply String.eqb_eq, Hid]
      | rewrite E, run_orThrow, run_await; cbn [exec fst snd] ]
  end.

(** Runs [createAppointment] up to its conflict query, for a request that
    passes the checks made before it. *)
Ltac to_conflict_check Hreach :=
  destruct Hreach as (Hst & Hp & Hd & Hsv & Hlt & Hnow & Hdoc & Hser & Hpat);
  unfold call, createAppointment; rewrite Hst;
  rewrite run_throwIf, !truthy_true by assumption; cbn [negb orb];
  rewrite run_throwIf, Z.geb_leb, (proj2 (Z.leb_gt _ _)) by assumption;
  rewrite run_throwIf, (proj2 (Z.ltb_ge _ _)) by assumption;
  rewrite run_await; cbn [exec fst snd];
  find_row Hdoc; find_row Hser; find_row Hpat;
  rewrite run_throwIf.

Lemma createAppointment_conflict_found (now : Z)
    (d : AppointmentData.t) (startTime : Z) (s : Store) :
  reachesConflictCheck now d startTime s ->
  isSome (find (conflictWhere (AppointmentData.doctorId d) startTime
                              (AppointmentData.endTime d))
               (appointments s)) = true ->
  call (createAppointment now d) s = (s, Thrown notAvailable).
Proof.
  intros Hreach Hc. to_conflict_check Hreach. rewrite Hc. reflexivity.
Qed.

Lemma createAppointment_no_conflict_found (now : Z)
    (d : AppointmentData.t) (startTime : Z) (s : Store) :
  reachesConflictCheck now d startTime s ->
  isSome (find (conflictWhere (AppointmentData.doctorId d) startTime
                              (AppointmentData.endTime d))
               (appointments s)) = false ->
  snd (call (createAppointment now d) s) <> Thrown notAvailable.
Proof.
  intros Hreach Hc. to_conflict_check Hreach. rewrite Hc.
  rewrite run_await. cbn [exec fst snd]. rewrite run_orThrow.
  destruct (find _ (schedules s)); [| discriminate].
  rewrite run_throwIf.
  match goal with |- context [if ?c then _ else _] => destruct c end;
    cbn; discriminate.
Qed.

(** The conflict query finds a row exactly when a stored appointment of the
    doctor that is not cancelled overlaps the requested interval. *)
Lemma conflict_query_spec (doctorId : Id) (startTime endTime : Z)
    (rows : list Appointment.t) :
  Forall wellFormed rows -> startTime < endTime ->
  isSome (find (conflictWhere doctorId startTime endTime) rows) = true <->
  exists a, In a rows /\
            Appointment.doctorId a = doctorId /\
            Appointment.status a <> "CANCELLED" /\
            overlaps startTime endTime a.
Proof.
  intros Hwf Hlt. rewrite isSome_find. rewrite Forall_forall in Hwf.
  split; intros (a & Hin & Ha); exists a; (split; [exact Hin|]);
    apply (conflictWhere_spec _ _ _ _ (Hwf a Hin) Hlt); exact Ha.
Qed.

(** The conflict error is thrown exactly when the conflict query finds a
    row. *)
Lemma conflict_error_iff (now : Z) (d : AppointmentData.t) (startTime : Z)
    (s : Store) :
  reachesConflictCheck now d startTime s ->
  Forall wellFormed (appointments s) ->
  snd (call (createAppointment now d) s) = Thrown notAvailable <->
  exists a, In a (appointments s) /\
            Appointment.doctorId a = AppointmentData.doctorId d /\
            Appointment.status a <> "CANCELLED" /\
            overlaps startTime (AppointmentData.endTime d) a.
Proof.
  intros Hreach Hwf.
  assert (Hlt : startTime < AppointmentData.endTime d) by (apply Hreach).
  rewrite <- (conflict_query_spec _ _ _ _ Hwf Hlt).
  destruct (isSome (find (conflictWhere (AppointmentData.doctorId d) startTime
                                        (AppointmentData.endTime d))
                         (appointments s))) eqn:Hc.
  - rewrite (createAppointment_conflict_found _ _ _ _ Hreach Hc).
    simpl; tauto.
  - split; [| discriminate]. intros Hout.
    destruct (createAppointment_no_conflict_found _ _ _ _ Hreach Hc Hout).
Qed.

(** The conflict check as the query has it: for a request that passes the
    checks made before the conflict query, over stored appointments that are
    intervals, [createAppointment] throws its conflict error exactly when
    some stored appointment of the same doctor that is not cancelled
    overlaps [startTime, endTime) in the half-open sense; an appointment
    that ends when the request starts does not match the query, and one that
    strictly overlaps gets the request rejected with the store left as it
    was. *)
Theorem createAppointment_conflict_iff (now : Z) (d : AppointmentData.t)
    (startTime : Z) (s : Store) :
  reachesConflictCheck now d startTime s ->
  Forall wellFormed (appointments s) ->
  let doctorId := AppointmentData.doctorId d in
  let endTime := AppointmentData.endTime d in
  (snd (call (createAppointment now d) s) = Thrown notAvailable <->
   exists a, In a (appointments s) /\
             Appointment.doctorId a = doctorId /\
             Appointment.status a <> "CANCELLED" /\
             overlaps startTime endTime a) /\
  (forall a, wellFormed a -> Appointment.endTime a = startTime ->
             conflictWhere doctorId startTime endTime a = false) /\
  (forall a, In a (appointments s) ->
             Appointment.doctorId a = doctorId ->
             Appointment.status a <> "CANCELLED" ->
             Appointment.startTime a < endTime ->
             startTime < Appointment.endTime a ->
             call (createAppointment now d) s = (s, Thrown notAvailable)).
Proof.
  intros Hreach Hwf doctorId endTime.
  assert (Hlt : startTime < endTime) by (apply Hreach).
  pose proof (conflict_query_spec doctorId startTime endTime _ Hwf Hlt) as Hq.
  split; [| split].
  - exact (conflict_error_iff now d startTime s Hreach Hwf).
  - intros a Ha Hend.
    destruct (conflictWhere doctorId startTime endTime a) eqn:Hc;
      [| reflexivity].
    apply (conflictWhere_spec _ _ _ _ Ha Hlt) in Hc.
    destruct Hc as (_ & _ & Hov). unfold overlaps in Hov. lia.
  - intros a Hin Hdoc Hst Hs He.
    apply (createAppointment_conflict_found _ _ _ _ Hreach).
    apply Hq. exists a. unfold overlaps. repeat split; auto. lia.
Qed.

(** The design document's scenario: with a confirmed appointment from
    10:00 to 10:30, the request for 10:15-10:45 is rejected as a
    conflict. *)
Lemma createAppointment_conflict_iff_witness :
  snd (call (createAppointment Clinic.now (request 10 15 10 45))
            (store [existing "CONFIRMED"] [])) = Thrown notAvailable.
Proof.
  refine (proj2 (proj1 (createAppointment_conflict_iff Clinic.now
    (request 10 15 10 45) (at_ monday 10 15)
    (store [existing "CONFIRMED"] []) _ _)) _).
  - unfold reachesConflictCheck; simpl.
    repeat split; try discriminate; try (vm_compute; congruence).
    + exists {| Doctor.id := "doc-1"; Doctor.practiceId := "practice-1" |}.
      simpl; auto.
    + exists {| Service.id := "svc-1" |}. simpl; auto.
    + exists {| Patient.id := "pat-1" |}. simpl; auto.
  - repeat constructor.
  - exists (existing "CONFIRMED"). simpl.
    repeat split; try discriminate; auto.
    unfold overlaps; simpl. vm_compute. intros [H | H]; apply H; reflexivity.
Defined.

(** The scenario of the design document: the request for 10:30-11:00,
    back to back with the confirmed appointment, is accepted. *)
Example back_to_back_accepted :
  snd (call (createAppointment Clinic.now (request 10 30 11 0))
            (store [existing "CONFIRMED"] []))
  = Returned (booked 1 10 30 11 0).
Proof. vm_compute; reflexivity. Qed.

(** The three alternatives of the query are not the overlap test on a
    stored row that ends before it starts. *)
Example timesClash_on_inverted_row :
  forall a, Appointment.startTime a = 10 -> Appointment.endTime a = 5 ->
            timesClash 6 8 a = true /\ ~ overlaps 6 8 a.
Proof.
  intros a Hs He. unfold timesClash, overlaps. rewrite Hs, He.
  split; [reflexivity | lia].
Qed.

(** C2 (the code departs from the claim): the conflict query of
    [createAppointment] leaves out the cancelled appointments only. For a
    request that passes the checks made before the query, over stored
    appointments that are intervals, the conflict error is thrown exactly
    when a stored appointment of the doctor that blocks, or that is a
    NO_SHOW, overlaps [startTime, endTime) in the half-open sense. So a
    blocking appointment that overlaps does get the request rejected, and
    one that ends when the request starts does not; but the request for
    10:15-10:45 over a NO_SHOW appointment from 10:00 to 10:30 is rejected
    with the conflict error although no blocking appointment of the doctor
    overlaps it. *)
Theorem createAppointment_conflict_beyond_blocking :
  (forall now d startTime s,
     reachesConflictCheck now d startTime s ->
     Forall wellFormed (appointments s) ->
     (snd (call (createAppointment now d) s) = Thrown notAvailable <->
      exists a, In a (appointments s) /\
        Appointment.doctorId a = AppointmentData.doctorId d /\
        (blocking a \/ Appointment.status a = "NO_SHOW") /\
        overlaps startTime (AppointmentData.endTime d) a)) /\
  (let s := store [existing "NO_SHOW"] [] in
   let d := request 10 15 10 45 in
   reachesConflictCheck Clinic.now d (at_ monday 10 15) s /\
   Forall wellFormed (appointments s) /\
   call (createAppointment Clinic.now d) s = (s, Thrown notAvailable) /\
   ~ exists a, In a (appointments s) /\
       Appointment.doctorId a = AppointmentData.doctorId d /\
       blocking a /\
       overlaps (at_ monday 10 15) (AppointmentData.endTime d) a).
Proof.
  split.
  - intros now d startTime s Hreach Hwf.
    rewrite (conflict_error_iff now d startTime s Hreach Hwf).
    split; intros (a & Hin & Hdoc & Hst & Hov); exists a;
      (split; [exact Hin|]); (split; [exact Hdoc|]);
      (split; [| exact Hov]).
    + destruct (string_dec (Appointment.status a) "NO_SHOW") as [E | E];
        [right; exact E | left; split; assumption].
    + destruct Hst as [[Hc _] | E]; [exact Hc|]. rewrite E. discriminate.
  - cbn zeta. split.
    { unfold reachesConflictCheck; simpl.
      repeat split; try discriminate; try (vm_compute; congruence).
      + exists {| Doctor.id := "doc-1"; Doctor.practiceId := "practice-1" |}.
        simpl; auto.
      + exists {| Service.id := "svc-1" |}. simpl; auto.
      + exists {| Patient.id := "pat-1" |}. simpl; auto. }
    split; [repeat constructor|].
    split; [vm_compute; reflexivity|].
    intros (a & [<- | []] & _ & [_ Hns] & _). apply Hns. reflexivity.
Qed.

(** ** Cancellation *)

Lemma updateRows_first (id : Id) (g : Appointment.t -> Appointment.t)
    (l : list Appointment.t) (a : Appointment.t) :
  NoDup (map Appointment.id l) ->
  find (hasId id) l = Some a ->
  forall x, In x (updateRows id g l) <->
            x = g a \/ (In x l /\ Appointment.id x <> id).
Proof.
  induction l as [|b l IH]; simpl; [discriminate|].
  intros Hnd Hf x. inversion Hnd as [|? ? Hb Hl]; subst.
  unfold hasId in *.
  destruct (String.eqb_spec (Appointment.id b) id) as [Heq|Hne].
  - inversion Hf; subst b; clear Hf. simpl. split.
    + intros [<- | Hx]; [left; reflexivity|]. right. split; [right; exact Hx|].
      intros Hid. apply Hb. rewrite Heq, <- Hid. apply in_map, Hx.
    + intros [-> | ([<- | Hx] & Hid)]; [left; reflexivity | contradiction |].
      right; exact Hx.
  - simpl. rewrite (IH Hl Hf x). split.
    + intros [<- | [-> | (Hx & Hid)]]; [right | left | right]; auto.
    + intros [-> | ([<- | Hx] & Hid)]; auto.
Qed.

Lemma find_hasId (id : Id) (l : list Appointment.t) (a : Appointment.t) :
  find (hasId id) l = Some a -> In a l /\ Appointment.id a = id.
Proof.
  intros H. apply find_some in H. unfold hasId in H.
  rewrite String.eqb_eq in H. exact H.
Qed.


(** What [cancelAppointment] does to the row stored under [id]. *)
Lemma cancelAppointment_run (now : Z) (id : Id) (reason : option string)
    (s : Store) (a : Appointment.t) :
  find (hasId id) (appointments s) = Some a ->
  (Appointment.status a = "CANCELLED" ->
   call (cancelAppointment now id reason) s = (s, Thrown alreadyCancelled)) /\
  (forall s' r, call (cancelAppointment now id reason) s = (s', Returned r) ->
     Appointment.status a <> "CANCELLED" /\
     r = cancelData reason a /\
     s' = setAppointments s
            (updateRows id (cancelData reason) (appointments s))).
Proof.
  intros Hf. unfold call, cancelAppointment, getAppointmentById.
  rewrite !run_bind. cbn [run exec await]. rewrite Hf. cbn [orThrow run].
  split.
  - intros ->. reflexivity.
  - intros s' r.
    destruct (String.eqb_spec (Appointment.status a) "CANCELLED") as [|Hst];
      cbn [throwIf run]; [discriminate|].
    destruct (Appointment.startTime a <? now); cbn [throwIf run];
      [discriminate|].
    cbn [bind run exec await]. rewrite Hf. cbn [orThrow run].
    intros H; inversion H; subst; clear H. auto.
Qed.



(** Cancelling the confirmed appointment frees 10:00-10:30: the request
    that was rejected is then accepted. *)
Example cancel_then_rebook :
  let s := store [existing "CONFIRMED"] [] in
  let s' := fst (call (cancelAppointment Clinic.now "appt-0" None) s) in
  snd (call (createAppointment Clinic.now (request 10 0 10 30)) s)
    = Thrown notAvailable /\
  snd (call (createAppointment Clinic.now (request 10 0 10 30)) s')
    = Returned (booked 1 10 0 10 30).
Proof. cbn zeta. split; vm_compute; reflexivity. Qed.

(** ** Rescheduling *)

Lemma run_bind_readonly {A B} (p : Prog Query A) (f : A -> Prog Query B)
    (s : Store) :
  fst (run exec p s) = s ->
  run exec (bind p f) s =
  match snd (run exec p s) with
  | Returned a => run exec (f a) s
  | Thrown e => (s, Thrown e)
  end.
Proof.
  intros H. rewrite run_bind. destruct (run exec p s) as [s0 [a|e]];
    simpl in *; subst; reflexivity.
Qed.

(** An update that throws leaves the store as it was. *)
Lemma updateAppointment_failure_keeps_store (id : Id) (d : UpdateData.t)
    (s s' : Store) (e : Error) :
  call (updateAppointment id d) s = (s', Thrown e) -> s' = s.
Proof.
  unfold call, updateAppointment.
  rewrite run_bind_readonly
    by (unfold getAppointmentById; cbn [bind run exec await];
        destruct (find _ (appointments s)); reflexivity).
  destruct (snd (run exec (getAppointmentById id) s)) as [a|e0] eqn:Hget;
    [| intros H; inversion H; reflexivity].
  rewrite run_bind_readonly
    by (destruct (UpdateData.startTime d) as [st|],
                 (UpdateData.endTime d) as [en|];
        try reflexivity; destruct (st >=? en); reflexivity).
  match goal with
  | |- context [snd (run exec ?p s)] =>
      destruct (snd (run exec p s)); [| intros H; inversion H; reflexivity]
  end.
  rewrite run_bind_readonly
    by (match goal with |- context [if ?c then _ else _] => destruct c end;
        [| reflexivity]; cbn [bind run exec await];
        match goal with |- context [isSome ?o] => destruct o end;
        reflexivity).
  match goal with
  | |- context [snd (run exec ?p s)] =>
      destruct (snd (run exec p s)); [| intros H; inversion H; reflexivity]
  end.
  cbn [bind run exec await].
  destruct (find (hasId id) (appointments s)); cbn [orThrow run];
    intros H; inversion H; reflexivity.
Qed.

(** ** Exceptions and statuses in the booking path *)

(** [createAppointment] never reads the table of schedule exceptions: with
    any other table it does the same thing. *)
Lemma createAppointment_reads_no_exception (now : Z)
    (d : AppointmentData.t) (s : Store) (es : list ScheduleException.t) :
  call (createAppointment now d) (withExceptions s es) =
  (withExceptions (fst (call (createAppointment now d) s)) es,
   snd (call (createAppointment now d) s)).
Proof.
  unfold call, createAppointment.
  destruct (AppointmentData.startTime d) as [st|]; [| reflexivity].
  repeat first
    [ rewrite !run_throwIf
    | rewrite !run_await; cbn [exec fst snd withExceptions doctors services
                                 patients appointments schedules]
    | rewrite !run_orThrow
    | match goal with
      | |- context [if ?c then _ else _] => destruct c
      | |- context [match ?o with Some _ => _ | None => _ end] => destruct o
      end
    | reflexivity ].
Qed.

(** C8 (the code departs from the claim): [updateAppointment] moves the
    confirmed appointment to 03:00-03:30, before the doctor's working hours,
    and to an interval that is over when the clock is read, although
    [createAppointment] rejects both intervals. *)
Theorem updateAppointment_skips_booking_checks :
  let s := store [existing "CONFIRMED"] [] in
  snd (call (createAppointment Clinic.now (request 3 0 3 30)) s) =
    Thrown (BadRequestError
              "Appointment time is outside of doctor's working hours") /\
  call (updateAppointment "appt-0"
          (moveTo (Some (at_ monday 3 0)) (Some (at_ monday 3 30)))) s =
    (store [moved 3 0 3 30] [], Returned (moved 3 0 3 30)) /\
  snd (call (createAppointment (at_ (monday + 1) 8 0) (request 11 0 11 30)) s) =
    Thrown (BadRequestError "Cannot book appointment in the past") /\
  call (updateAppointment "appt-0"
          (moveTo (Some (at_ monday 11 0)) (Some (at_ monday 11 30)))) s =
    (store [moved 11 0 11 30] [], Returned (moved 11 0 11 30)).
Proof. cbn zeta. repeat apply conj; vm_compute; reflexivity. Qed.

(** The appointment being moved never matches the conflict query of its
    own update. *)
Lemma updateAppointment_excludes_itself (id doctorId : Id)
    (startTime endTime : Z) (a : Appointment.t) :
  Appointment.id a = id ->
  conflictWhereExcept id doctorId startTime endTime a = false.
Proof.
  intros <-. unfold conflictWhereExcept. rewrite String.eqb_refl. cbn.
  rewrite andb_false_r. reflexivity.
Qed.

(** The filter of the availability computations. *)
Lemma occupiesTime_spec (a : Appointment.t) :
  occupiesTime a = true <->
  Appointment.status a <> "CANCELLED" /\ Appointment.status a <> "NO_SHOW".
Proof.
  unfold occupiesTime. rewrite negb_true_iff, orb_false_iff, !String.eqb_neq.
  tauto.
Qed.

(** C4 (the code departs from the claim): a NO_SHOW appointment gets a
    request for its interval rejected by [createAppointment], although
    [isTimeSlotAvailable] reports the interval free; in general a NO_SHOW
    appointment does not occupy time for the availability computations and
    matches the conflict query of [createAppointment]. *)
Theorem createAppointment_blocked_by_no_show :
  let s := store [existing "NO_SHOW"] [] in
  call (createAppointment Clinic.now (request 10 0 10 30)) s =
    (s, Thrown notAvailable) /\
  snd (call (isTimeSlotAvailable "doc-1" (at_ monday 10 0) (at_ monday 10 30)) s)
    = Returned true /\
  (forall a, Appointment.status a = "NO_SHOW" -> wellFormed a ->
     occupiesTime a = false /\
     conflictWhere (Appointment.doctorId a) (Appointment.startTime a)
                   (Appointment.endTime a) a = true).
Proof.
  cbn zeta. split; [vm_compute; reflexivity|].
  split; [vm_compute; reflexivity|].
  intros a Hst Ha. split.
  - unfold occupiesTime. rewrite Hst. reflexivity.
  - apply conflictWhere_spec; [exact Ha | exact Ha |].
    rewrite Hst. unfold overlaps, wellFormed in *.
    repeat split; [discriminate | lia].
Qed.

(** C5 (the code departs from the claim): on a day with a full-day
    exception, and inside a partial exception, [createAppointment] stores
    the appointment, while [isTimeSlotAvailable] reports the interval
    unavailable. *)
Theorem createAppointment_ignores_exceptions :
  let s := store [] [dayOff] in
  call (createAppointment Clinic.now (request 11 0 11 30)) s =
    ({| doctors := doctors s; services := services s; patients := patients s;
        appointments := [booked 1 11 0 11 30];
        schedules := schedules s; doctorSchedules := doctorSchedules s;
        scheduleExceptions := [dayOff]; created := 2 |},
     Returned (booked 1 11 0 11 30)) /\
  snd (call (isTimeSlotAvailable "doc-1" (at_ monday 11 0) (at_ monday 11 30)) s)
    = Returned false /\
  snd (call (createAppointment Clinic.now (request 12 15 12 45))
            (store [] [lunch])) = Returned (booked 1 12 15 12 45) /\
  snd (call (isTimeSlotAvailable "doc-1" (at_ monday 12 15) (at_ monday 12 45))
            (store [] [lunch])) = Returned false.
Proof. cbn zeta. repeat apply conj; vm_compute; reflexivity. Qed.

(** ** Two bookings in flight *)

Lemma interleave_left {A B} (n : nat) (p1 : Prog Query A)
    (p2 : Prog Query B) (s : Store) :
  interleaving exec (s, p1, p2)
    (fst (steps exec n p1 s), snd (steps exec n p1 s), p2).
Proof.
  revert p1 s; induction n as [|n IH]; intros p1 s; [apply rt_refl|].
  destruct p1 as [a | e | X q k]; try apply rt_refl.
  cbn [steps]. eapply rt_trans; [apply rt_step, step_left|].
  destruct (exec X q s) as [s' x]. apply IH.
Qed.

Lemma interleave_right {A B} (n : nat) (p1 : Prog Query A)
    (p2 : Prog Query B) (s : Store) :
  interleaving exec (s, p1, p2)
    (fst (steps exec n p2 s), p1, snd (steps exec n p2 s)).
Proof.
  revert p2 s; induction n as [|n IH]; intros p2 s; [apply rt_refl|].
  destruct p2 as [a | e | X q k]; try apply rt_refl.
  cbn [steps]. eapply rt_trans; [apply rt_step, step_right|].
  destruct (exec X q s) as [s' x]. apply IH.
Qed.

(** Run one after the other, the second call is rejected. *)
Example sequential_bookings_conflict :
  let s0 := store [] [] in
  let s1 := fst (call (createAppointment Clinic.now (request 10 0 10 30)) s0) in
  call (createAppointment Clinic.now (request 10 15 10 45)) s1
  = (s1, Thrown notAvailable).
Proof. vm_compute; reflexivity. Qed.

(** C1 (the code departs from the claim): two calls for the same doctor,
    10:00-10:30 and 10:15-10:45, interleaved so that each runs its conflict
    query before the other creates its row, both return their appointment,
    and the store then holds two overlapping appointments of the doctor. *)
Theorem concurrent_bookings_double_book :
  let s0 := store [] [] in
  let first := booked 1 10 0 10 30 in
  let second := booked 2 10 15 10 45 in
  exists s',
    interleaving exec
      (s0, createAppointment Clinic.now (request 10 0 10 30),
           createAppointment Clinic.now (request 10 15 10 45))
      (s', Ret first, Ret second) /\
    appointments s' = [first; second] /\
    doubleBooked s'.
Proof.
  cbn zeta. eexists. split; [| split].
  - eapply rt_trans; [apply (interleave_left 5)|].
    eapply rt_trans; [apply (interleave_right 5)|].
    eapply rt_trans; [apply (interleave_left 1)|].
    eapply rt_trans; [apply (interleave_right 1)|].
    vm_compute. apply rt_refl.
  - reflexivity.
  - exists (booked 1 10 0 10 30), (booked 2 10 15 10 45).
    repeat split; simpl; auto; try discriminate.
    unfold overlaps. vm_compute. intros [H | H]; apply H; reflexivity.
Qed.

End AppointmentFacts.

(* ===================================================================== *)
(** * Properties of the schedule service                                 *)
(* ===================================================================== *)

Module ScheduleFacts.
Import Db Dates AppointmentService Booking AppointmentFacts.
Import Clinic ScheduleService TimeRanges TimeRangesFacts.
Local Open Scope string_scope.
Local Open Scope Z_scope.
Local Open Scope prog_scope.

(** C7: removing two ranges from a list of non-empty ranges gives the same
    list in either order, and the ranges that [_generateAvailabilitySlots]
    and [getAvailableTimeSlots] leave of a schedule period, removing the
    day's partial exceptions (their times read) and then its appointments,
    are those left by removing the appointments first and the exceptions
    afterwards. *)
Theorem subtraction_order_independent (R : list TimeRange) (X Y : TimeRange)
    (day : Z) (schedule : DoctorSchedule.t)
    (partialExceptions : list ExceptionTimes.t)
    (appointments : list Appointment.t) :
  Forall valid R ->
  start X <= end_ X -> start Y <= end_ Y ->
  setHours day (DoctorSchedule.startTime schedule)
    < setHours day (DoctorSchedule.endTime schedule) ->
  Forall (fun e => start (exceptionRange day e) <= end_ (exceptionRange day e))
         partialExceptions ->
  Forall (fun a => Appointment.startTime a <= Appointment.endTime a)
         appointments ->
  _removeTimeRange (_removeTimeRange R (start X) (end_ X)) (start Y) (end_ Y) =
  _removeTimeRange (_removeTimeRange R (start Y) (end_ Y)) (start X) (end_ X)
  /\
  scheduleRanges day schedule partialExceptions appointments =
  removeAll
    (removeAll [{| start := setHours day (DoctorSchedule.startTime schedule);
                   end_ := setHours day (DoctorSchedule.endTime schedule) |}]
               (map appointmentRange appointments))
    (map (exceptionRange day) partialExceptions).
Proof.
  intros HR HX HY Hs He Ha. split.
  - apply remove_comm; assumption.
  - unfold scheduleRanges. apply removeAll_comm.
    + repeat constructor. exact Hs.
    + apply Forall_map. exact He.
    + apply Forall_map. exact Ha.
Qed.

(** The theorem on the Monday of the practice: working hours 09:00-17:00,
    lunch from 12:00 to 13:00, an appointment from 10:00 to 10:30. *)
Lemma subtraction_order_independent_witness :
  scheduleRanges (at_ monday 0 0)
    {| DoctorSchedule.id := "ds-1"; DoctorSchedule.doctorId := "doc-1";
       DoctorSchedule.dayOfWeek := 1;
       DoctorSchedule.startTime := {| hour := 9; minute := 0 |};
       DoctorSchedule.endTime := {| hour := 17; minute := 0 |};
       DoctorSchedule.isAvailable := true;
       DoctorSchedule.effectiveDate := None;
       DoctorSchedule.expiryDate := None |}
    [lunchTimes] [existing "CONFIRMED"] =
  [ {| start := at_ monday 9 0; end_ := at_ monday 10 0 |};
    {| start := at_ monday 10 30; end_ := at_ monday 12 0 |};
    {| start := at_ monday 13 0; end_ := at_ monday 17 0 |} ].
Proof.
  refine (eq_trans (proj2 (subtraction_order_independent
    [{| start := 540; end_ := 1020 |}]
    {| start := 720; end_ := 780 |} {| start := 600; end_ := 630 |}
    (at_ monday 0 0) _ [lunchTimes] [existing "CONFIRMED"] _ _ _ _ _ _)) _).
  - repeat constructor.
  - simpl; lia.
  - simpl; lia.
  - vm_compute; reflexivity.
  - repeat constructor. vm_compute. discriminate.
  - repeat constructor. vm_compute. discriminate.
  - vm_compute; reflexivity.
Defined.

(** The removal range has to start at or before its end: a pair that ends
    before it starts splits a range into two overlapping pieces, and the
    order of removal then shows in the list. *)
Lemma inverted_removal_range :
  let R := [{| start := 0; end_ := 10 |}] in
  _removeTimeRange R 7 3 =
    [{| start := 0; end_ := 7 |}; {| start := 3; end_ := 10 |}] /\
  _removeTimeRange (_removeTimeRange R 7 3) 4 5 <>
  _removeTimeRange (_removeTimeRange R 4 5) 7 3.
Proof. split; [reflexivity | vm_compute; discriminate]. Qed.

(** [isTimeSlotAvailable] answers no on a day with a full-day exception:
    it looks for one before it reads the times of any partial exception. *)
Lemma isTimeSlotAvailable_respects_exceptions (doctorId : Id)
    (startTime endTime : Z) (s : Store) (e : ScheduleException.t) :
  In e (scheduleExceptions s) ->
  ScheduleException.doctorId e = doctorId ->
  ScheduleException.date e = startOfDay startTime ->
  ScheduleException.isFullDay e = true ->
  call (isTimeSlotAvailable doctorId startTime endTime) s = (s, Returned false).
Proof.
  intros Hin Hdoc Hdate Hfull. unfold call, isTimeSlotAvailable.
  rewrite run_await. cbn [exec fst snd].
  destruct (find _ (doctorSchedules s)); [| reflexivity]. cbn [isSome negb].
  rewrite run_await. cbn [exec fst snd].
  set (es := filter _ (scheduleExceptions s)).
  assert (He : In e es).
  { apply filter_In. split; [exact Hin|].
    rewrite Hdoc, Hdate, String.eqb_refl, Z.eqb_refl. reflexivity. }
  assert (Hf : isSome (find ScheduleException.isFullDay es) = true)
    by (apply isSome_find; exists e; auto).
  rewrite Hf. reflexivity.
Qed.

(** [deleteScheduleItem] removes a weekly template without looking at the
    appointments: here the doctor has a confirmed appointment inside it. *)
Example deleteScheduleItem_checks_no_appointment :
  let s := store [existing "CONFIRMED"] [] in
  snd (call (deleteScheduleItem "ds-1" "practice-1") s) = Returned true /\
  doctorSchedules (fst (call (deleteScheduleItem "ds-1" "practice-1") s)) = [].
Proof. cbn zeta. split; vm_compute; reflexivity. Qed.

End ScheduleFacts.

(* ===================================================================== *)
(** * Properties of the schedule controller                              *)
(* ===================================================================== *)

Module ControllerFacts.
Import AppointmentFacts Clinic ScheduleController.
Local Open Scope string_scope.
Local Open Scope Z_scope.
Local Open Scope prog_scope.

Lemma conflictsWhere_spec (practiceId : Id) (sch : Schedule.t)
    (a : Appointment.t) :
  conflictsWhere practiceId sch a = true <->
  Appointment.doctorId a = Schedule.doctorId sch /\
  Appointment.practiceId a = practiceId /\
  Schedule.startTime sch <= Appointment.startTime a /\
  Appointment.endTime a <= Schedule.endTime sch /\
  (Appointment.status a = "scheduled" \/ Appointment.status a = "confirmed").
Proof.
  unfold conflictsWhere.
  rewrite !andb_true_iff, orb_true_iff, !String.eqb_eq, Z.geb_le, Z.leb_le.
  tauto.
Qed.

(** The guard of the handler, as it is written: deleting the entry found
    for [scheduleId] is rejected with "Cannot delete schedule with existing
    appointments", the store left as it was, when some appointment of the
    entry's doctor and of the practice, with status "scheduled" or
    "confirmed", starts at or after the start of the entry and ends at or
    before its end; otherwise the handler answers "Schedule deleted
    successfully" and the store holds no entry with that id any more. *)
Theorem deleteSchedule_guard (practiceId scheduleId : Id) (s : Store)
    (sch : Schedule.t) :
  find (fun r => String.eqb (Schedule.id r) scheduleId
                 && String.eqb (Schedule.practiceId r) practiceId)
       (schedules s) = Some sch ->
  let blocked :=
    exists a, In a (appointments s) /\
      Appointment.doctorId a = Schedule.doctorId sch /\
      Appointment.practiceId a = practiceId /\
      Schedule.startTime sch <= Appointment.startTime a /\
      Appointment.endTime a <= Schedule.endTime sch /\
      (Appointment.status a = "scheduled"
       \/ Appointment.status a = "confirmed") in
  (blocked ->
   run exec (deleteSchedule practiceId scheduleId) s
     = (s, Thrown hasAppointments)) /\
  (~ blocked ->
   exists s',
     run exec (deleteSchedule practiceId scheduleId) s
       = (s', Returned "Schedule deleted successfully") /\
     appointments s' = appointments s /\
     forall r, In r (schedules s') <->
               In r (schedules s) /\ Schedule.id r <> scheduleId).
Proof.
  intros Hf blocked.
  assert (Hb : blocked <->
    filter (conflictsWhere practiceId sch) (appointments s) <> []).
  { unfold blocked. split.
    - intros (a & Hin & Ha) Hnil.
      assert (In a (filter (conflictsWhere practiceId sch) (appointments s)))
        by (apply filter_In; split; [exact Hin | apply conflictsWhere_spec, Ha]).
      rewrite Hnil in *. contradiction.
    - destruct (filter _ _) as [|a l] eqn:E; [congruence|]. intros _.
      assert (Hin : In a (filter (conflictsWhere practiceId sch)
                                 (appointments s)))
        by (rewrite E; left; reflexivity).
      apply filter_In in Hin. exists a.
      split; [tauto | apply conflictsWhere_spec; tauto]. }
  unfold deleteSchedule.
  rewrite run_await. cbn [exec fst snd]. rewrite Hf, run_orThrow.
  rewrite run_await. cbn [exec fst snd]. rewrite run_throwIf.
  destruct (filter (conflictsWhere practiceId sch) (appointments s))
    as [|a l] eqn:E.
  - split; [intros H; apply Hb in H; congruence|]. intros _.
    cbn. eexists. split; [reflexivity|]. split; [reflexivity|].
    intros r. cbn. rewrite filter_In, negb_true_iff, String.eqb_neq. tauto.
  - split; [reflexivity|]. intros H. exfalso. apply H, Hb. discriminate.
Qed.

(** The guard on the practice's entry with a "confirmed" appointment from
    10:00 to 10:30 inside it. *)
Lemma deleteSchedule_guard_witness :
  run exec (deleteSchedule "practice-1" "sched-1")
      (controllerStore [existing "confirmed"])
  = (controllerStore [existing "confirmed"], Thrown hasAppointments).
Proof.
  refine (proj1 (deleteSchedule_guard "practice-1" "sched-1"
                   (controllerStore [existing "confirmed"]) entry _) _).
  - reflexivity.
  - exists (existing "confirmed"). simpl.
    repeat apply conj; auto; vm_compute; discriminate.
Defined.

(** The guard also lets pass an appointment of the doctor with one of the
    handler's own statuses: one that lies inside the entry and is
    "completed", one that overlaps the end of the entry, and one that lies
    inside it under another practice; the entry is deleted all the same. *)
Lemma deleteSchedule_despite_appointments :
  let deleted (a : Appointment.t) :=
    In a (appointments (controllerStore [a])) /\
    Appointment.doctorId a = Schedule.doctorId entry /\
    Appointment.status a <> "cancelled" /\
    Appointment.status a <> "CANCELLED" /\
    ~ (Appointment.endTime a <= Schedule.startTime entry \/
       Schedule.endTime entry <= Appointment.startTime a) /\
    run exec (deleteSchedule "practice-1" "sched-1") (controllerStore [a])
      = ({| schedules := []; appointments := [a] |},
         Returned "Schedule deleted successfully") in
  (deleted (existing "completed") /\
   Schedule.startTime entry <= Appointment.startTime (existing "completed") /\
   Appointment.endTime (existing "completed") <= Schedule.endTime entry) /\
  deleted overrun /\
  deleted elsewhere.
Proof.
  cbn zeta.
  repeat apply conj;
    try (simpl; auto; fail);
    try (vm_compute; discriminate);
    try (vm_compute; reflexivity);
    vm_compute; intros [H | H]; apply H; reflexivity.
Qed.

(** C10 (the code departs from the claim): the guard of the [deleteSchedule]
    handler asks for the statuses "scheduled" and "confirmed", which no
    appointment written through the appointment routes has. Whatever
    appointments with a status of those routes the store holds, deleting an
    entry that exists succeeds and removes it; so the practice's entry is
    deleted although a CONFIRMED appointment of its doctor lies inside its
    time span. [deleteScheduleItem] of the schedule service has no guard at
    all: its answer and the templates it leaves are the same for every table
    of appointments, and it removes the doctor's template for the Monday of
    that CONFIRMED appointment. *)
Theorem deleteSchedule_never_blocked_by_service_statuses :
  (forall practiceId scheduleId s sch,
     find (fun r => String.eqb (Schedule.id r) scheduleId
                    && String.eqb (Schedule.practiceId r) practiceId)
          (schedules s) = Some sch ->
     (forall a, In a (appointments s) ->
                In (Appointment.status a) Validation.appointmentStatuses) ->
     exists s',
       run exec (deleteSchedule practiceId scheduleId) s
         = (s', Returned "Schedule deleted successfully") /\
       appointments s' = appointments s /\
       forall r, In r (schedules s') <->
                 In r (schedules s) /\ Schedule.id r <> scheduleId) /\
  (let a := existing "CONFIRMED" in
   In (Appointment.status a) Validation.appointmentStatuses /\
   Appointment.status a <> "CANCELLED" /\
   Appointment.doctorId a = Schedule.doctorId entry /\
   Appointment.practiceId a = Schedule.practiceId entry /\
   Schedule.startTime entry <= Appointment.startTime a /\
   Appointment.endTime a <= Schedule.endTime entry /\
   run exec (deleteSchedule "practice-1" "sched-1") (controllerStore [a])
     = ({| schedules := []; appointments := [a] |},
        Returned "Schedule deleted successfully")) /\
  (forall scheduleId practiceId (s : Db.Store) rows,
     let item := ScheduleService.deleteScheduleItem scheduleId practiceId in
     snd (Booking.call item (Booking.withAppointments s rows))
       = snd (Booking.call item s) /\
     Db.doctorSchedules (fst (Booking.call item
                                (Booking.withAppointments s rows)))
       = Db.doctorSchedules (fst (Booking.call item s))) /\
  (let s := store [existing "CONFIRMED"] [] in
   let item := ScheduleService.deleteScheduleItem "ds-1" "practice-1" in
   snd (Booking.call item s) = Returned true /\
   Db.doctorSchedules (fst (Booking.call item s)) = []).
Proof.
  split; [| split; [| split]].
  - intros practiceId scheduleId s sch Hf Hst.
    assert (Hnone : filter (conflictsWhere practiceId sch) (appointments s)
                    = []).
    { destruct (filter _ _) as [|a l] eqn:E; [reflexivity|]. exfalso.
      assert (Hin : In a (filter (conflictsWhere practiceId sch)
                                 (appointments s)))
        by (rewrite E; left; reflexivity).
      apply filter_In in Hin. destruct Hin as [Hin Hc].
      apply conflictsWhere_spec in Hc.
      destruct Hc as (_ & _ & _ & _ & Hc). specialize (Hst a Hin).
      unfold Validation.appointmentStatuses in Hst. cbn [In] in Hst.
      destruct Hc as [Hc | Hc]; rewrite Hc in Hst;
        repeat (destruct Hst as [Hst | Hst]; [discriminate Hst|]);
        exact Hst. }
    unfold deleteSchedule.
    rewrite run_await. cbn [exec fst snd]. rewrite Hf, run_orThrow.
    rewrite run_await. cbn [exec fst snd]. rewrite run_throwIf, Hnone.
    cbn. eexists. split; [reflexivity|]. split; [reflexivity|].
    intros r. cbn. rewrite filter_In, negb_true_iff, String.eqb_neq. tauto.
  - cbn zeta. repeat apply conj;
      try (vm_compute; reflexivity); try (vm_compute; discriminate).
    simpl. tauto.
  - intros scheduleId practiceId s rows. cbn zeta.
    unfold Booking.call, ScheduleService.deleteScheduleItem.
    rewrite !run_await. cbn [Db.exec fst snd Booking.withAppointments
                             Db.doctorSchedules Db.doctors].
    match goal with |- context [orThrow ?o _] => destruct o end;
      split; reflexivity.
  - cbn zeta. split; vm_compute; reflexivity.
Qed.

End ControllerFacts.

(* ===================================================================== *)
(** * Further properties of the time-range algebra                       *)
(* ===================================================================== *)

Module TimeRangesMore.
Import TimeRanges TimeRangesFacts.

Lemma remove_idem_single r a b :
  _removeTimeRange (_removeTimeRange [r] a b) a b = _removeTimeRange [r] a b.
Proof.
  destruct r as [s e]; simpl.
  rewrite ?Z.geb_leb, ?Z.gtb_ltb.
  repeat (step_if; cbn [_removeTimeRange start end_];
          rewrite ?Z.geb_leb, ?Z.gtb_ltb);
    try reflexivity; repeat f_equal; lia.
Qed.

(** X1: removing a range a second time changes nothing, whatever the ranges
    and the bounds of the removal are (also for a removal that ends before it
    starts). *)
Theorem removeTimeRange_idempotent (R : list TimeRange) (a b : Z) :
  _removeTimeRange (_removeTimeRange R a b) a b = _removeTimeRange R a b.
Proof.
  induction R as [|r R IH]; [reflexivity|].
  rewrite (remove_cons r R a b), remove_app, IH, remove_idem_single.
  reflexivity.
Qed.

Lemma slotLoop_enumerates current end' durationMs :
  slotLoop current end' durationMs =
  map (fun k =>
         {| startTime := current + Z.of_nat k * (slotIncrement * msPerMinute);
            endTime := current + Z.of_nat k * (slotIncrement * msPerMinute)
                       + durationMs |})
      (seq 0 (Z.to_nat (if current <=? end'
                        then (end' - current) / 900000 + 1 else 0))).
Proof.
  funelim (slotLoop current end' durationMs).
  - match goal with IH : slotLoop _ _ _ = _ |- _ => rename IH into IH' end.
    rewrite IH'. clear IH' Heqcall.
    change (slotIncrement * msPerMinute) with 900000.
    destruct (Z.leb_spec0 current end') as [_|]; [|lia].
    assert (Hq : 0 <= (end' - current) / 900000) by (apply Z.div_pos; lia).
    replace (Z.to_nat ((end' - current) / 900000 + 1))
      with (S (Z.to_nat (if current + 900000 <=? end'
                         then (end' - (current + 900000)) / 900000 + 1
                         else 0))).
    + cbn [seq map]. f_equal.
      * f_equal; lia.
      * rewrite <- seq_shift, map_map. apply map_ext. intros k.
        f_equal; lia.
    + destruct (Z.leb_spec0 (current + 900000) end').
      * replace (end' - current)
          with ((end' - (current + 900000)) + 1 * 900000) by ring.
        rewrite Z.div_add by lia.
        assert (0 <= (end' - (current + 900000)) / 900000)
          by (apply Z.div_pos; lia). lia.
      * rewrite (Z.div_small (end' - current) 900000) by lia. reflexivity.
  - destruct (Z.leb_spec0 current end'); [lia | reflexivity].
Qed.

(** X2: the slots of a range are the intervals of the requested duration that
    start at the beginning of the range and then every fifteen minutes, in
    this order, as long as the interval ends at or before the end of the
    range; a range shorter than the duration has none. *)
Theorem generateTimeSlots_enumerates (rangeStart rangeEnd duration : Z) :
  let durationMs := duration * msPerMinute in
  let n := if durationMs <=? rangeEnd - rangeStart
           then (rangeEnd - rangeStart - durationMs)
                  / (slotIncrement * msPerMinute) + 1
           else 0 in
  _generateTimeSlots rangeStart rangeEnd duration =
  map (fun k =>
         {| startTime := rangeStart + Z.of_nat k * (slotIncrement * msPerMinute);
            endTime := rangeStart + Z.of_nat k * (slotIncrement * msPerMinute)
                       + durationMs |})
      (seq 0 (Z.to_nat n)).
Proof.
  cbn zeta. unfold _generateTimeSlots. rewrite slotLoop_enumerates.
  replace (duration * 60 * 1000) with (duration * msPerMinute)
    by (unfold msPerMinute; ring).
  replace (rangeEnd - duration * msPerMinute - rangeStart)
    with (rangeEnd - rangeStart - duration * msPerMinute) by ring.
  replace (rangeStart <=? rangeEnd - duration * msPerMinute)
    with (duration * msPerMinute <=? rangeEnd - rangeStart)
    by (destruct (Z.leb_spec0 rangeStart (rangeEnd - duration * msPerMinute)),
          (Z.leb_spec0 (duration * msPerMinute) (rangeEnd - rangeStart));
        try reflexivity; lia).
  reflexivity.
Qed.

End TimeRangesMore.

(* ===================================================================== *)
(** * Further properties of the appointment service                      *)
(* ===================================================================== *)

Module BookingFacts.
Import Db Dates AppointmentService ScheduleService Booking Clinic.
Import Outcomes AppointmentFacts.
Local Open Scope string_scope.
Local Open Scope Z_scope.
Local Open Scope prog_scope.

(** The two ways a call of [createAppointment] ends. *)
Lemma createAppointment_outcome (now : Z) (d : AppointmentData.t) (s : Store) :
  (exists e, call (createAppointment now d) s = (s, Thrown e)) \/
  (exists startTime doctor schedule,
     let r := newAppointment d startTime (Doctor.practiceId doctor)
                             (freshId (created s)) in
     call (createAppointment now d) s = (withNewAppointment s r, Returned r) /\
     AppointmentData.startTime d = Some startTime /\
     startTime < AppointmentData.endTime d /\
     now <= startTime /\
     In doctor (doctors s) /\
     Doctor.id doctor = AppointmentData.doctorId d /\
     (exists x, In x (services s) /\
                Service.id x = AppointmentData.serviceId d) /\
     (exists x, In x (patients s) /\
                Patient.id x = AppointmentData.patientId d) /\
     find (conflictWhere (AppointmentData.doctorId d) startTime
                         (AppointmentData.endTime d)) (appointments s) = None /\
     In schedule (schedules s) /\
     Schedule.doctorId schedule = AppointmentData.doctorId d /\
     Schedule.date schedule = toISODate startTime /\
     ltDate startTime
            (atClock (toISODate startTime) (Schedule.startTime schedule))
       = false /\
     gtDate (AppointmentData.endTime d)
            (atClock (toISODate startTime) (Schedule.endTime schedule))
       = false).
Proof.
  unfold call, createAppointment.
  destruct (AppointmentData.startTime d) as [st|] eqn:Hst;
    [| left; eexists; reflexivity].
  rewrite run_throwIf.
  match goal with |- context [if ?c then _ else _] => destruct c end;
    [left; eexists; reflexivity|].
  rewrite run_throwIf, Z.geb_leb.
  destruct (Z.leb_spec0 (AppointmentData.endTime d) st);
    [left; eexists; reflexivity|].
  rewrite run_throwIf.
  destruct (Z.ltb_spec0 st now); [left; eexists; reflexivity|].
  rewrite run_await. cbn [exec fst snd]. rewrite run_orThrow.
  destruct (find _ (doctors s)) as [doc|] eqn:Hdoc;
    [| left; eexists; reflexivity].
  rewrite run_await. cbn [exec fst snd]. rewrite run_orThrow.
  destruct (find _ (services s)) as [svc|] eqn:Hsvc;
    [| left; eexists; reflexivity].
  rewrite run_await. cbn [exec fst snd]. rewrite run_orThrow.
  destruct (find _ (patients s)) as [pat|] eqn:Hpat;
    [| left; eexists; reflexivity].
  rewrite run_await. cbn [exec fst snd]. rewrite run_throwIf.
  destruct (find _ (appointments s)) as [c|] eqn:Hc; cbn [isSome];
    [left; eexists; reflexivity|].
  rewrite run_await. cbn [exec fst snd]. rewrite run_orThrow.
  destruct (find _ (schedules s)) as [sch|] eqn:Hsch;
    [| left; eexists; reflexivity].
  rewrite run_throwIf.
  destruct (ltDate st (atClock (toISODate st) (Schedule.startTime sch)))
    eqn:Hlo; cbn [orb]; [left; eexists; reflexivity|].
  destruct (gtDate (AppointmentData.endTime d)
                   (atClock (toISODate st) (Schedule.endTime sch)))
    eqn:Hhi; [left; eexists; reflexivity|].
  right. exists st, doc, sch. cbn zeta.
  apply find_some in Hdoc. apply find_some in Hsch.
  apply find_some in Hsvc. apply find_some in Hpat.
  rewrite String.eqb_eq in Hdoc, Hsvc, Hpat.
  rewrite andb_true_iff, String.eqb_eq, Z.eqb_eq in Hsch.
  repeat apply conj; try tauto; try lia;
    [exists svc; tauto | exists pat; tauto].
Qed.

(** The practice of [Clinic] holds no double booking. *)
Lemma clinic_not_double_booked (status : string) :
  ~ doubleBooked (store [existing status] []).
Proof.
  intros (a & b & Ha & Hb & Hid & _).
  destruct Ha as [<- | []], Hb as [<- | []]. apply Hid. reflexivity.
Qed.

Lemma overlaps_sym (a b : Appointment.t) :
  overlaps (Appointment.startTime a) (Appointment.endTime a) b ->
  overlaps (Appointment.startTime b) (Appointment.endTime b) a.
Proof. unfold overlaps. tauto. Qed.

Lemma updateRows_ids (id : Id) (g : Appointment.t -> Appointment.t)
    (l : list Appointment.t) :
  (forall x, Appointment.id (g x) = Appointment.id x) ->
  map Appointment.id (updateRows id g l) = map Appointment.id l.
Proof.
  intros Hg. induction l as [|b l IH]; simpl; [reflexivity|].
  destruct (String.eqb (Appointment.id b) id); simpl;
    [rewrite Hg | rewrite IH]; reflexivity.
Qed.

(** X3: the first checks of [createAppointment], in the order the code makes
    them, each with its error and with the store left as it was: a missing
    start time, patient, doctor or service; an end time at or before the start
    time; a start time in the past; a doctor that does not exist. *)
Theorem createAppointment_validation (now : Z) (d : AppointmentData.t)
    (s : Store) :
  let present :=
    AppointmentData.patientId d <> "" /\ AppointmentData.doctorId d <> "" /\
    AppointmentData.serviceId d <> "" in
  ((AppointmentData.startTime d = None \/ ~ present) ->
   call (createAppointment now d) s
   = (s, Thrown (BadRequestError "Missing required fields"))) /\
  (forall startTime,
     AppointmentData.startTime d = Some startTime -> present ->
     (AppointmentData.endTime d <= startTime ->
      call (createAppointment now d) s
      = (s, Thrown (BadRequestError "End time must be after start time"))) /\
     (startTime < AppointmentData.endTime d -> startTime < now ->
      call (createAppointment now d) s
      = (s, Thrown (BadRequestError "Cannot book appointment in the past"))) /\
     (startTime < AppointmentData.endTime d -> now <= startTime ->
      (forall x, In x (doctors s) ->
                 Doctor.id x <> AppointmentData.doctorId d) ->
      call (createAppointment now d) s
      = (s, Thrown (NotFoundError
                      ("Doctor with ID " ++ AppointmentData.doctorId d
                       ++ " not found"))))).
Proof.
  cbn zeta. unfold call, createAppointment. split.
  - intros [-> | Hmiss]; [reflexivity|].
    destruct (AppointmentData.startTime d); [| reflexivity].
    rewrite run_throwIf. unfold truthy.
    destruct (String.eqb_spec (AppointmentData.patientId d) ""),
             (String.eqb_spec (AppointmentData.doctorId d) ""),
             (String.eqb_spec (AppointmentData.serviceId d) "");
      cbn [negb orb]; try reflexivity. tauto.
  - intros st -> (Hp & Hd & Hs).
    rewrite run_throwIf, !truthy_true by assumption. cbn [negb orb].
    rewrite run_throwIf, Z.geb_leb. repeat apply conj.
    + intros H. rewrite (proj2 (Z.leb_le _ _) H). reflexivity.
    + intros H1 H2. rewrite (proj2 (Z.leb_gt _ _) H1).
      rewrite run_throwIf, (proj2 (Z.ltb_lt _ _) H2). reflexivity.
    + intros H1 H2 Hno. rewrite (proj2 (Z.leb_gt _ _) H1).
      rewrite run_throwIf, (proj2 (Z.ltb_ge _ _) H2).
      rewrite run_await. cbn [exec fst snd]. rewrite run_orThrow.
      destruct (find _ (doctors s)) as [x|] eqn:Hf; [| reflexivity].
      apply find_some in Hf. rewrite String.eqb_eq in Hf.
      destruct (Hno x); tauto.
Qed.

(** X4: a call of [createAppointment] that throws, whatever the error, leaves
    the store exactly as it was. *)
Theorem createAppointment_failure_keeps_store (now : Z)
    (d : AppointmentData.t) (s s' : Store) (e : Error) :
  call (createAppointment now d) s = (s', Thrown e) -> s' = s.
Proof.
  intros H.
  destruct (createAppointment_outcome now d s)
    as [[e0 H0] | (st & doc & sch & H0 & _)];
    rewrite H0 in H; inversion H; reflexivity.
Qed.

(** The theorem on a request for 10:15-10:45, which overlaps the confirmed
    appointment and is rejected. *)
Lemma createAppointment_failure_keeps_store_witness :
  fst (call (createAppointment Clinic.now (request 10 15 10 45))
            (store [existing "CONFIRMED"] []))
  = store [existing "CONFIRMED"] [].
Proof.
  apply (createAppointment_failure_keeps_store Clinic.now
           (request 10 15 10 45) (store [existing "CONFIRMED"] []) _
           notAvailable).
  vm_compute. reflexivity.
Defined.

(** X5: what a call of [createAppointment] that returns has done and checked.
    The store has one more appointment, the row returned, at the end of the
    table, and no other table changed; the row carries the fields of the
    request, status "PENDING" unless the request names one, and no
    cancellation reason; it starts at or after the clock and before it ends;
    its doctor exists and gives it the practice; the doctor has a schedule
    row for the day of the start, and the appointment starts at or after the
    start time of the row and ends at or before its end time as far as the
    column holds a clock string that is a time (a column that holds anything
    else, such as 16:75 or a Date, makes an Invalid Date and is not
    checked); and no stored appointment of the doctor that is an interval
    and is not cancelled overlaps it. *)
Theorem createAppointment_success (now : Z) (d : AppointmentData.t)
    (s s' : Store) (r : Appointment.t) :
  call (createAppointment now d) s = (s', Returned r) ->
  (appointments s' = (appointments s ++ [r])%list /\
   doctors s' = doctors s /\ services s' = services s /\
   patients s' = patients s /\ schedules s' = schedules s /\
   doctorSchedules s' = doctorSchedules s /\
   scheduleExceptions s' = scheduleExceptions s) /\
  (AppointmentData.startTime d = Some (Appointment.startTime r) /\
   Appointment.endTime r = AppointmentData.endTime d /\
   Appointment.doctorId r = AppointmentData.doctorId d /\
   Appointment.patientId r = AppointmentData.patientId d /\
   Appointment.serviceId r = AppointmentData.serviceId d /\
   Appointment.status r = orElse (AppointmentData.status d) "PENDING" /\
   Appointment.cancellationReason r = None) /\
  (now <= Appointment.startTime r < Appointment.endTime r) /\
  (exists doctor, In doctor (doctors s) /\
     Doctor.id doctor = Appointment.doctorId r /\
     Doctor.practiceId doctor = Appointment.practiceId r) /\
  (exists schedule, In schedule (schedules s) /\
     Schedule.doctorId schedule = Appointment.doctorId r /\
     Schedule.date schedule = toISODate (Appointment.startTime r) /\
     (forall t, atClock (Schedule.date schedule) (Schedule.startTime schedule)
                = Some t -> t <= Appointment.startTime r) /\
     (forall t, atClock (Schedule.date schedule) (Schedule.endTime schedule)
                = Some t -> Appointment.endTime r <= t)) /\
  (forall a, In a (appointments s) -> wellFormed a ->
     Appointment.doctorId a = Appointment.doctorId r ->
     Appointment.status a <> "CANCELLED" ->
     Appointment.endTime a <= Appointment.startTime r \/
     Appointment.endTime r <= Appointment.startTime a).
Proof.
  intros H.
  destruct (createAppointment_outcome now d s)
    as [[e0 H0] | (st & doc & sch & H0 & Hst & Hlt & Hnow & Hdin & Hdid
                   & _ & _ & Hc & Hsin & Hsd & Hsdate & Hlo & Hhi)];
    rewrite H0 in H; inversion H; subst; clear H.
  cbn [withNewAppointment newAppointment appointments doctors services
       patients schedules doctorSchedules scheduleExceptions
       Appointment.startTime Appointment.endTime Appointment.doctorId
       Appointment.patientId Appointment.serviceId Appointment.status
       Appointment.cancellationReason Appointment.practiceId].
  repeat apply conj; try reflexivity; try assumption; try lia.
  - exists doc. auto.
  - exists sch. rewrite Hsdate. repeat apply conj; auto.
    + intros t Ht. rewrite Ht in Hlo. cbn [ltDate] in Hlo.
      apply Z.ltb_ge in Hlo. exact Hlo.
    + intros t Ht. rewrite Ht in Hhi. cbn [gtDate] in Hhi.
      rewrite Z.gtb_ltb in Hhi. apply Z.ltb_ge in Hhi. exact Hhi.
  - intros a Hin Hwf Hdoc Hstatus.
    pose proof (find_none _ _ Hc a Hin) as Hn.
    destruct (Z_le_gt_dec (Appointment.endTime a) st) as [|H1]; [left; lia|].
    destruct (Z_le_gt_dec (AppointmentData.endTime d)
                          (Appointment.startTime a)) as [|H2];
      [right; lia|].
    exfalso.
    assert (Ht : conflictWhere (AppointmentData.doctorId d) st
                   (AppointmentData.endTime d) a = true).
    { apply (conflictWhere_spec _ _ _ _ Hwf Hlt).
      unfold overlaps. repeat split; auto. lia. }
    congruence.
Qed.

(** The theorem on the request for 10:30-11:00, right after the confirmed
    appointment. *)
Lemma createAppointment_success_witness :
  now <= Appointment.startTime (booked 1 10 30 11 0)
      < Appointment.endTime (booked 1 10 30 11 0).
Proof.
  refine (proj1 (proj2 (proj2 (createAppointment_success Clinic.now
    (request 10 30 11 0) (store [existing "CONFIRMED"] [])
    (withNewAppointment (store [existing "CONFIRMED"] [])
                        (booked 1 10 30 11 0))
    (booked 1 10 30 11 0) _)))).
  vm_compute. reflexivity.
Defined.

(** The working hours are checked against a clock string that is a time
    only. With 09:00-17:00 the request for 03:00-03:30 is rejected; with the
    Dates that the schedule controller stores in the two columns, or with
    09:75 and 16:75, the bounds are Invalid Dates and the request is
    stored. *)
Example createAppointment_unchecked_hours :
  let practice (startTime endTime : TimeValue) :=
    {| doctors := doctors (store [] []); services := services (store [] []);
       patients := patients (store [] []); appointments := [];
       schedules :=
         [{| Schedule.doctorId := "doc-1"; Schedule.date := monday;
             Schedule.startTime := startTime;
             Schedule.endTime := endTime |}];
       doctorSchedules := doctorSchedules (store [] []);
       scheduleExceptions := []; created := created (store [] []) |} in
  let outcome s := snd (call (createAppointment Clinic.now (request 3 0 3 30)) s) in
  outcome (practice (clockString {| hour := 9; minute := 0 |})
                    (clockString {| hour := 17; minute := 0 |}))
    = Thrown (BadRequestError
                "Appointment time is outside of doctor's working hours") /\
  outcome (practice (dateValue (at_ monday 9 0)) (dateValue (at_ monday 17 0)))
    = Returned (booked 1 3 0 3 30) /\
  outcome (practice (clockString {| hour := 9; minute := 75 |})
                    (clockString {| hour := 16; minute := 75 |}))
    = Returned (booked 1 3 0 3 30).
Proof. cbn zeta. repeat split; vm_compute; reflexivity. Qed.

(** X6: calls of [createAppointment] that run one after the other never create
    a double booking: if the stored appointments are intervals and no two of
    one doctor that are not cancelled overlap, the same holds after the call,
    whether it returns or throws. *)
Theorem createAppointment_keeps_no_double_booking (now : Z)
    (d : AppointmentData.t) (s : Store) :
  Forall wellFormed (appointments s) ->
  ~ doubleBooked s ->
  let s' := fst (call (createAppointment now d) s) in
  Forall wellFormed (appointments s') /\ ~ doubleBooked s'.
Proof.
  intros Hwf Hnd. cbn zeta.
  destruct (createAppointment_outcome now d s)
    as [[e0 H0] | (st & doc & sch & H0 & Hst & Hlt & Hnow & _ & _
                   & _ & _ & Hc & _)];
    rewrite H0; cbn [fst]; [auto|].
  cbn [withNewAppointment appointments].
  set (r := newAppointment d st (Doctor.practiceId doc) (freshId (created s))).
  assert (Hfree : forall a, In a (appointments s) ->
            Appointment.doctorId a = Appointment.doctorId r ->
            Appointment.status a <> "CANCELLED" ->
            overlaps (Appointment.startTime r) (Appointment.endTime r) a ->
            False).
  { intros a Hin Hdoc Hstatus Hov.
    pose proof (find_none _ _ Hc a Hin) as Hn.
    rewrite Forall_forall in Hwf.
    assert (Ht : conflictWhere (AppointmentData.doctorId d) st
                   (AppointmentData.endTime d) a = true).
    { apply (conflictWhere_spec _ _ _ _ (Hwf a Hin) Hlt).
      repeat split; auto. }
    congruence. }
  split.
  - apply Forall_app. split; [exact Hwf|]. repeat constructor.
    unfold wellFormed, r. cbn. lia.
  - intros (a & b & Ha & Hb & Hid & Hdoc & Hsa & Hsb & Hov).
    apply in_app_iff in Ha, Hb. simpl in Ha, Hb.
    destruct Ha as [Ha | [<- | []]], Hb as [Hb | [<- | []]].
    + apply Hnd. exists a, b. auto 10.
    + apply (Hfree a Ha Hdoc Hsa). apply overlaps_sym. exact Hov.
    + apply (Hfree b Hb (eq_sym Hdoc) Hsb). exact Hov.
    + apply Hid; reflexivity.
Qed.

(** The theorem on the practice and the request for 10:30-11:00. *)
Lemma createAppointment_keeps_no_double_booking_witness :
  let s' := fst (call (createAppointment Clinic.now (request 10 30 11 0))
                      (store [existing "CONFIRMED"] [])) in
  Forall wellFormed (appointments s') /\ ~ doubleBooked s'.
Proof.
  apply (createAppointment_keeps_no_double_booking Clinic.now
           (request 10 30 11 0) (store [existing "CONFIRMED"] [])).
  - repeat constructor.
  - apply clinic_not_double_booked.
Defined.

(** X7: an appointment just created is the one [getAppointmentById] finds
    under its id, provided no stored appointment already has the id that the
    store gives to the new row. *)
Theorem created_appointment_is_found (now : Z) (d : AppointmentData.t)
    (s s' : Store) (r : Appointment.t) :
  Forall (fun a => Appointment.id a <> freshId (created s)) (appointments s) ->
  call (createAppointment now d) s = (s', Returned r) ->
  call (getAppointmentById (Appointment.id r)) s' = (s', Returned r).
Proof.
  intros Hfresh H.
  destruct (createAppointment_outcome now d s)
    as [[e0 H0] | (st & doc & sch & H0 & _)];
    rewrite H0 in H; inversion H; subst; clear H.
  unfold call, getAppointmentById. rewrite run_await. cbn [exec fst snd].
  cbn [withNewAppointment appointments].
  assert (Hf : forall l x,
             Forall (fun a => Appointment.id a <> Appointment.id x) l ->
             find (hasId (Appointment.id x)) (l ++ [x]) = Some x).
  { induction l as [|b l IH]; intros x Hl; simpl.
    - unfold hasId. rewrite String.eqb_refl. reflexivity.
    - inversion Hl; subst. unfold hasId at 1.
      destruct (String.eqb_spec (Appointment.id b) (Appointment.id x));
        [contradiction|]. apply IH. assumption. }
  match goal with |- context [find _ (_ ++ [?x])] =>
    rewrite (Hf (appointments s) x Hfresh) end.
  reflexivity.
Qed.

(** The theorem on the request for 10:30-11:00: the new row gets the id
    "appt-1". *)
Lemma created_appointment_is_found_witness :
  call (getAppointmentById (Appointment.id (booked 1 10 30 11 0)))
       (withNewAppointment (store [existing "CONFIRMED"] [])
                           (booked 1 10 30 11 0))
  = (withNewAppointment (store [existing "CONFIRMED"] [])
                        (booked 1 10 30 11 0),
     Returned (booked 1 10 30 11 0)).
Proof.
  apply (created_appointment_is_found Clinic.now (request 10 30 11 0)
           (store [existing "CONFIRMED"] [])).
  - repeat constructor. vm_compute. discriminate.
  - vm_compute. reflexivity.
Defined.

(** What [updateAppointment] does with an appointment that exists: the
    validation of the two times, the conflict query when the doctor or a
    time changes, and the update. *)
Lemma updateAppointment_outcome (id : Id) (d : UpdateData.t) (s : Store)
    (a : Appointment.t) :
  find (hasId id) (appointments s) = Some a ->
  let invalid :=
    match UpdateData.startTime d, UpdateData.endTime d with
    | Some st, Some en => st >=? en
    | _, _ => false
    end in
  let changed :=
    (truthyOpt (UpdateData.doctorId d)
       && negb (String.eqb (orElse (UpdateData.doctorId d) "")
                           (Appointment.doctorId a)))
    || match UpdateData.startTime d with
       | Some t => negb (t =? Appointment.startTime a)
       | None => false
       end
    || match UpdateData.endTime d with
       | Some t => negb (t =? Appointment.endTime a)
       | None => false
       end in
  let doctorId :=
    if truthyOpt (UpdateData.doctorId d)
    then orElse (UpdateData.doctorId d) ""
    else Appointment.doctorId a in
  let startTime :=
    orElse (UpdateData.startTime d) (Appointment.startTime a) in
  let endTime := orElse (UpdateData.endTime d) (Appointment.endTime a) in
  call (updateAppointment id d) s =
  if invalid
  then (s, Thrown (BadRequestError "End time must be after start time"))
  else if changed
          && isSome (find (conflictWhereExcept id doctorId startTime endTime)
                          (appointments s))
  then (s, Thrown notAvailable)
  else (setAppointments s (updateRows id (updateData d) (appointments s)),
        Returned (updateData d a)).
Proof.
  intros Hf. cbn zeta. unfold call, updateAppointment, getAppointmentById.
  rewrite !run_bind. cbn [run exec await]. rewrite Hf. cbn [orThrow run].
  destruct (UpdateData.startTime d) as [st|], (UpdateData.endTime d) as [en|];
    cbn [run throwIf].
  all: try (destruct (st >=? en); cbn [run]; [reflexivity|]).
  all: match goal with
       | |- context [if ?c then _ else Ret tt] => destruct c
       end; cbn [run bind await exec andb throwIf].
  all: try match goal with
       | |- context [isSome ?o] =>
           destruct o; cbn [isSome throwIf run bind]; [reflexivity|]
       end.
  all: cbn [run bind await exec]; rewrite ?Hf; reflexivity.
Qed.

(** X8: an update that names no doctor and no time is never checked against
    anything: it succeeds on every appointment that exists, also a cancelled
    one, and the status becomes the one requested. *)
Theorem updateAppointment_without_times_or_doctor (id : Id)
    (d : UpdateData.t) (s : Store) (a : Appointment.t) :
  find (hasId id) (appointments s) = Some a ->
  UpdateData.doctorId d = None ->
  UpdateData.startTime d = None ->
  UpdateData.endTime d = None ->
  call (updateAppointment id d) s =
  (setAppointments s (updateRows id (updateData d) (appointments s)),
   Returned (updateData d a)) /\
  Appointment.status (updateData d a)
  = orElse (UpdateData.status d) (Appointment.status a) /\
  Appointment.startTime (updateData d a) = Appointment.startTime a /\
  Appointment.endTime (updateData d a) = Appointment.endTime a.
Proof.
  intros Hf Hd Hs He.
  rewrite (updateAppointment_outcome id d s a Hf).
  cbn [updateData Appointment.status Appointment.startTime
       Appointment.endTime].
  rewrite Hd, Hs, He. repeat apply conj; reflexivity.
Qed.

(** The theorem on the cancelled appointment of the practice, which a
    request for the status "CONFIRMED" brings back. *)
Lemma updateAppointment_without_times_or_doctor_witness :
  call (updateAppointment "appt-0" (setStatus "CONFIRMED"))
       (store [existing "CANCELLED"] [])
  = (store [existing "CONFIRMED"] [], Returned (existing "CONFIRMED")).
Proof.
  refine (eq_trans (proj1 (updateAppointment_without_times_or_doctor "appt-0"
    (setStatus "CONFIRMED") (store [existing "CANCELLED"] [])
    (existing "CANCELLED") _ _ _ _)) _); reflexivity.
Defined.

(** X9: an update that names a start time and no end time checks conflicts
    only: when no other appointment matches the conflict query the start time
    is stored as given, the end time stays, and nothing compares the two, so
    the stored appointment may start after it ends. *)
Theorem updateAppointment_lone_start_unchecked (id : Id) (startTime : Z)
    (s : Store) (a : Appointment.t) :
  find (hasId id) (appointments s) = Some a ->
  (forall x, In x (appointments s) ->
     conflictWhereExcept id (Appointment.doctorId a) startTime
                         (Appointment.endTime a) x = false) ->
  exists r,
    call (updateAppointment id (moveTo (Some startTime) None)) s =
    (setAppointments s
       (updateRows id (updateData (moveTo (Some startTime) None))
                   (appointments s)),
     Returned r) /\
    Appointment.startTime r = startTime /\
    Appointment.endTime r = Appointment.endTime a.
Proof.
  intros Hf Hno. exists (updateData (moveTo (Some startTime) None) a).
  split; [| split; reflexivity].
  rewrite (updateAppointment_outcome id _ s a Hf).
  cbn [moveTo UpdateData.startTime UpdateData.endTime UpdateData.doctorId
       truthyOpt orElse andb orb].
  destruct (find (conflictWhereExcept id (Appointment.doctorId a) startTime
                    (Appointment.endTime a)) (appointments s)) as [x|] eqn:E.
  - apply find_some in E. rewrite (Hno x) in E; [| tauto].
    destruct E; discriminate.
  - cbn [isSome]. rewrite andb_false_r. reflexivity.
Qed.

(** The theorem on the appointment of 10:00-10:30 and the start time 11:00:
    the stored row then runs from 11:00 to 10:30. *)
Lemma updateAppointment_lone_start_unchecked_witness :
  exists r,
    call (updateAppointment "appt-0" (moveTo (Some (at_ monday 11 0)) None))
         (store [existing "CONFIRMED"] []) =
    (setAppointments (store [existing "CONFIRMED"] [])
       (updateRows "appt-0" (updateData (moveTo (Some (at_ monday 11 0)) None))
                   [existing "CONFIRMED"]),
     Returned r) /\
    Appointment.startTime r = at_ monday 11 0 /\
    Appointment.endTime r = at_ monday 10 30.
Proof.
  apply (updateAppointment_lone_start_unchecked "appt-0" (at_ monday 11 0)
           (store [existing "CONFIRMED"] []) (existing "CONFIRMED")).
  - reflexivity.
  - intros x [<- | []]. vm_compute. reflexivity.
Defined.

(** X10: moving an appointment to a new interval, possibly with another
    doctor, keeps the store free of double bookings: if the ids are distinct,
    the stored appointments are intervals and no two of one doctor that are
    not cancelled overlap, all three hold after the call, whether it returns
    or throws. The request gives both times and leaves the status alone. *)
Theorem reschedule_keeps_no_double_booking (id : Id) (d : UpdateData.t)
    (s : Store) (startTime endTime : Z) :
  NoDup (map Appointment.id (appointments s)) ->
  Forall wellFormed (appointments s) ->
  ~ doubleBooked s ->
  UpdateData.startTime d = Some startTime ->
  UpdateData.endTime d = Some endTime ->
  UpdateData.status d = None ->
  UpdateData.doctorId d <> Some "" ->
  let s' := fst (call (updateAppointment id d) s) in
  NoDup (map Appointment.id (appointments s')) /\
  Forall wellFormed (appointments s') /\
  ~ doubleBooked s'.
Proof.
  intros Hnd Hwf Hndb Hst Hen Hstat Hdoc. cbn zeta.
  destruct (find (hasId id) (appointments s)) as [a|] eqn:Hf.
  2:{ unfold call, updateAppointment, getAppointmentById.
      rewrite !run_bind. cbn [run exec await]. rewrite Hf. cbn. auto. }
  rewrite (updateAppointment_outcome id d s a Hf). rewrite Hst, Hen.
  cbn [orElse].
  destruct (Z.geb_spec startTime endTime) as [|Hlt]; [cbn; auto|].
  match goal with |- context [if ?c then _ else _] => destruct c eqn:Hc end;
    [cbn; auto|].
  cbn [fst appointments setAppointments].
  pose proof (updateRows_first id (updateData d) _ a Hnd Hf) as Hrows.
  destruct (find_hasId _ _ _ Hf) as [Hain Haid].
  set (r := updateData d a) in *.
  assert (Hrs : Appointment.startTime r = startTime)
    by (unfold r; cbn; rewrite Hst; reflexivity).
  assert (Hre : Appointment.endTime r = endTime)
    by (unfold r; cbn; rewrite Hen; reflexivity).
  assert (Hrst : Appointment.status r = Appointment.status a)
    by (unfold r; cbn; rewrite Hstat; reflexivity).
  assert (Hrid : Appointment.id r = id) by (unfold r; cbn; exact Haid).
  rewrite Forall_forall in Hwf.
  split; [rewrite updateRows_ids by reflexivity; exact Hnd|].
  split.
  { rewrite Forall_forall. intros x Hx. apply Hrows in Hx.
    destruct Hx as [-> | [Hx _]]; [| exact (Hwf x Hx)].
    unfold wellFormed. lia. }
  (* a pair of the new store that involves the moved appointment *)
  assert (Hfree : forall y, In y (appointments s) -> Appointment.id y <> id ->
            Appointment.doctorId r = Appointment.doctorId y ->
            Appointment.status r <> "CANCELLED" ->
            Appointment.status y <> "CANCELLED" ->
            overlaps (Appointment.startTime r) (Appointment.endTime r) y ->
            False).
  { intros y Hy Hyid Hyd Hrs' Hys Hov.
    apply andb_false_iff in Hc. destruct Hc as [Hunch | Hnone].
    - (* nothing moved: the pair was already there *)
      apply orb_false_iff in Hunch. destruct Hunch as [Hunch He].
      apply orb_false_iff in Hunch. destruct Hunch as [Hd0 Hs0].
      rewrite negb_false_iff, Z.eqb_eq in Hs0, He.
      assert (Hrd : Appointment.doctorId r = Appointment.doctorId a).
      { unfold r; cbn. destruct (UpdateData.doctorId d) as [x|] eqn:Ed;
          [| reflexivity]. cbn in Hd0 |- *.
        unfold truthy in Hd0.
        destruct (String.eqb_spec x "") as [->|];
          [exfalso; apply Hdoc; reflexivity|].
        cbn in Hd0. rewrite negb_false_iff, String.eqb_eq in Hd0. exact Hd0. }
      apply Hndb. exists a, y. repeat apply conj; auto; try congruence.
    - (* the conflict query found nothing *)
      match type of Hnone with isSome ?o = false =>
        destruct o as [c|] eqn:E; [discriminate|] end.
      pose proof (find_none _ _ E y Hy) as Hn.
      unfold conflictWhereExcept in Hn.
      assert (Htarget :
        (if truthyOpt (UpdateData.doctorId d)
         then orElse (UpdateData.doctorId d) ""
         else Appointment.doctorId a) = Appointment.doctorId r).
      { unfold r; cbn. destruct (UpdateData.doctorId d) as [x|] eqn:Ed;
          [| reflexivity]. cbn. unfold truthy.
        destruct (String.eqb_spec x "") as [->|];
          [exfalso; apply Hdoc; reflexivity | reflexivity]. }
      rewrite Htarget in Hn.
      rewrite (proj2 (String.eqb_eq _ _) (eq_sym Hyd)) in Hn.
      rewrite (proj2 (String.eqb_neq _ _) Hyid) in Hn.
      rewrite (proj2 (String.eqb_neq _ _) Hys) in Hn. cbn in Hn.
      rewrite Hrs, Hre in Hov.
      apply (timesClash_overlaps _ _ _ (Hwf y Hy)) in Hov; [| lia].
      congruence. }
  intros (x & y & Hx & Hy & Hid & Hd' & Hsx & Hsy & Hov).
  apply Hrows in Hx. apply Hrows in Hy.
  destruct Hx as [-> | [Hx Hxid]], Hy as [-> | [Hy Hyid]].
  - apply Hid; reflexivity.
  - exact (Hfree y Hy Hyid Hd' Hsx Hsy Hov).
  - apply (Hfree x Hx Hxid (eq_sym Hd') Hsy Hsx). unfold overlaps in *. tauto.
  - apply Hndb. exists x, y. auto 10.
Qed.

(** The theorem on the appointment of the practice moved to 11:00-11:30. *)
Lemma reschedule_keeps_no_double_booking_witness :
  let s' := fst (call (updateAppointment "appt-0"
                         (moveTo (Some (at_ monday 11 0))
                                 (Some (at_ monday 11 30))))
                      (store [existing "CONFIRMED"] [])) in
  NoDup (map Appointment.id (appointments s')) /\
  Forall wellFormed (appointments s') /\
  ~ doubleBooked s'.
Proof.
  apply (reschedule_keeps_no_double_booking "appt-0"
           (moveTo (Some (at_ monday 11 0)) (Some (at_ monday 11 30)))
           (store [existing "CONFIRMED"] [])
           (at_ monday 11 0) (at_ monday 11 30)).
  - repeat constructor. simpl. tauto.
  - repeat constructor.
  - apply clinic_not_double_booked.
  - reflexivity.
  - reflexivity.
  - reflexivity.
  - discriminate.
Defined.




Lemma cancelAppointment_thrown (now : Z) (id : Id) (reason : option string)
    (s s' : Store) (e : Error) :
  call (cancelAppointment now id reason) s = (s', Thrown e) -> s' = s.
Proof.
  unfold call, cancelAppointment, getAppointmentById.
  rewrite !run_bind. cbn [run exec await].
  destruct (find (hasId id) (appointments s)) as [a|] eqn:Hf;
    cbn [orThrow run]; [| intros H; inversion H; reflexivity].
  destruct (String.eqb (Appointment.status a) "CANCELLED");
    cbn [throwIf run]; [intros H; inversion H; reflexivity|].
  destruct (Appointment.startTime a <? now); cbn [throwIf run];
    [intros H; inversion H; reflexivity|].
  cbn [bind run exec await]. rewrite Hf. cbn [orThrow run]. discriminate.
Qed.

(** X12: the rejections of [cancelAppointment]: an id that no appointment has
    is answered with "Appointment with ID ... not found", an appointment that
    is not cancelled and started before the clock with "Cannot cancel a past
    appointment", and a call that throws, whatever the error, leaves the store
    as it was. *)
Theorem cancelAppointment_rejections (now : Z) (id : Id)
    (reason : option string) (s : Store) :
  (find (hasId id) (appointments s) = None ->
   call (cancelAppointment now id reason) s
   = (s, Thrown (NotFoundError
                   ("Appointment with ID " ++ id ++ " not found")))) /\
  (forall a, find (hasId id) (appointments s) = Some a ->
     Appointment.status a <> "CANCELLED" ->
     Appointment.startTime a < now ->
     call (cancelAppointment now id reason) s
     = (s, Thrown (BadRequestError "Cannot cancel a past appointment"))) /\
  (forall s' e, call (cancelAppointment now id reason) s = (s', Thrown e) ->
     s' = s).
Proof.
  repeat apply conj; [| | apply cancelAppointment_thrown];
    unfold call, cancelAppointment, getAppointmentById;
    rewrite !run_bind; cbn [run exec await].
  - intros ->. reflexivity.
  - intros a -> Hst Hpast. cbn [orThrow run].
    rewrite (proj2 (String.eqb_neq _ _) Hst). cbn [throwIf run].
    rewrite (proj2 (Z.ltb_lt _ _) Hpast). reflexivity.
Qed.

(** X13: cancelling keeps the store free of double bookings and touches one
    row only: if the ids are distinct and no two appointments of one doctor
    that are not cancelled overlap, both hold after the call, every
    appointment with another id is in the table after the call exactly when it
    was before, and the stored appointments remain intervals. *)
Theorem cancelAppointment_keeps_no_double_booking (now : Z) (id : Id)
    (reason : option string) (s : Store) :
  NoDup (map Appointment.id (appointments s)) ->
  ~ doubleBooked s ->
  let s' := fst (call (cancelAppointment now id reason) s) in
  NoDup (map Appointment.id (appointments s')) /\
  ~ doubleBooked s' /\
  (forall x, Appointment.id x <> id ->
     (In x (appointments s') <-> In x (appointments s))) /\
  (Forall wellFormed (appointments s) ->
   Forall wellFormed (appointments s')).
Proof.
  intros Hnd Hndb. cbn zeta.
  destruct (call (cancelAppointment now id reason) s) as [s' [r|e]] eqn:Hcall;
    cbn [fst].
  2:{ rewrite (cancelAppointment_thrown now id reason s s' e Hcall). tauto. }
  destruct (find (hasId id) (appointments s)) as [a|] eqn:Hf.
  2:{ revert Hcall. unfold call, cancelAppointment, getAppointmentById.
      rewrite !run_bind. cbn [run exec await]. rewrite Hf. discriminate. }
  destruct (proj2 (cancelAppointment_run now id reason s a Hf) s' r Hcall)
    as (Hna & -> & ->).
  cbn [appointments setAppointments].
  pose proof (updateRows_first id (cancelData reason) _ a Hnd Hf) as Hrows.
  destruct (find_hasId _ _ _ Hf) as [Hain Haid].
  repeat apply conj.
  - rewrite updateRows_ids by reflexivity. exact Hnd.
  - intros (x & y & Hx & Hy & Hid & Hd & Hsx & Hsy & Hov).
    apply Hrows in Hx. apply Hrows in Hy.
    destruct Hx as [-> | [Hx _]]; [apply Hsx; reflexivity|].
    destruct Hy as [-> | [Hy _]]; [apply Hsy; reflexivity|].
    apply Hndb. exists x, y. auto 10.
  - intros x Hx. rewrite Hrows. split; [| tauto].
    intros [-> | [H _]]; [| exact H]. destruct Hx. exact Haid.
  - rewrite !Forall_forall. intros Hwf x Hx. apply Hrows in Hx.
    destruct Hx as [-> | [Hx _]]; [exact (Hwf a Hain) | exact (Hwf x Hx)].
Qed.

(** The theorem on the confirmed appointment of the practice, cancelled on
    the Friday before. *)
Lemma cancelAppointment_keeps_no_double_booking_witness :
  let s' := fst (call (cancelAppointment Clinic.now "appt-0" None)
                      (store [existing "CONFIRMED"] [])) in
  NoDup (map Appointment.id (appointments s')) /\
  ~ doubleBooked s'.
Proof.
  refine (let H := cancelAppointment_keeps_no_double_booking Clinic.now
                     "appt-0" None (store [existing "CONFIRMED"] []) _ _ in
          conj (proj1 H) (proj1 (proj2 H))).
  - repeat constructor. simpl. tauto.
  - apply clinic_not_double_booked.
Defined.

(** X14: cancelling frees the interval: once [cancelAppointment] has returned,
    [createAppointment] does not answer a request for the same doctor and for
    an interval inside that of the cancelled appointment with the conflict
    error, provided the store held no double booking. *)
Theorem cancelled_interval_is_free (now now' : Z) (id : Id)
    (reason : option string) (s s' : Store) (r : Appointment.t)
    (d : AppointmentData.t) (startTime : Z) :
  NoDup (map Appointment.id (appointments s)) ->
  Forall wellFormed (appointments s) ->
  ~ doubleBooked s ->
  call (cancelAppointment now id reason) s = (s', Returned r) ->
  reachesConflictCheck now' d startTime s' ->
  AppointmentData.doctorId d = Appointment.doctorId r ->
  Appointment.startTime r <= startTime ->
  AppointmentData.endTime d <= Appointment.endTime r ->
  Appointment.status r = "CANCELLED" /\
  snd (call (createAppointment now' d) s') <> Thrown notAvailable.
Proof.
  intros Hnd Hwf Hndb Hcall Hreach Hdoc Hs He.
  destruct (find (hasId id) (appointments s)) as [a|] eqn:Hf.
  2:{ revert Hcall. unfold call, cancelAppointment, getAppointmentById.
      rewrite !run_bind. cbn [run exec await]. rewrite Hf. discriminate. }
  destruct (proj2 (cancelAppointment_run now id reason s a Hf) s' r Hcall)
    as (Hna & -> & ->).
  split; [reflexivity|].
  pose proof (updateRows_first id (cancelData reason) _ a Hnd Hf) as Hrows.
  destruct (find_hasId _ _ _ Hf) as [Hain Haid].
  assert (Hlt : startTime < AppointmentData.endTime d) by apply Hreach.
  assert (Hwf' : Forall wellFormed
                   (appointments (setAppointments s
                      (updateRows id (cancelData reason) (appointments s))))).
  { cbn [appointments setAppointments]. rewrite Forall_forall in *.
    intros x Hx. apply Hrows in Hx.
    destruct Hx as [-> | [Hx _]]; [exact (Hwf a Hain) | exact (Hwf x Hx)]. }
  intros Hthrown.
  apply (conflict_error_iff now' d startTime _ Hreach Hwf') in Hthrown.
  destruct Hthrown as (x & Hx & Hxd & Hxs & Hov).
  cbn [appointments setAppointments] in Hx. apply Hrows in Hx.
  destruct Hx as [-> | [Hx Hxid]]; [apply Hxs; reflexivity|].
  apply Hndb. exists a, x. repeat apply conj; auto.
  - congruence.
  - cbn in Hdoc. congruence.
  - cbn in Hs, He. unfold overlaps in *. lia.
Qed.

(** The theorem on the confirmed appointment of the practice: once it is
    cancelled, the request for 10:00-10:30 is not answered with the conflict
    error. *)
Lemma cancelled_interval_is_free_witness :
  snd (call (createAppointment Clinic.now (request 10 0 10 30))
            (setAppointments (store [existing "CONFIRMED"] [])
               (updateRows "appt-0" (cancelData None)
                           [existing "CONFIRMED"])))
  <> Thrown notAvailable.
Proof.
  refine (proj2 (cancelled_interval_is_free Clinic.now Clinic.now "appt-0"
    None (store [existing "CONFIRMED"] []) _
    (cancelData None (existing "CONFIRMED")) (request 10 0 10 30)
    (at_ monday 10 0) _ _ _ _ _ _ _ _)).
  - repeat constructor. simpl. tauto.
  - repeat constructor.
  - apply clinic_not_double_booked.
  - vm_compute. reflexivity.
  - unfold reachesConflictCheck; simpl.
    repeat split; try discriminate; try (vm_compute; congruence).
    + exists {| Doctor.id := "doc-1"; Doctor.practiceId := "practice-1" |}.
      simpl; auto.
    + exists {| Service.id := "svc-1" |}. simpl; auto.
    + exists {| Patient.id := "pat-1" |}. simpl; auto.
  - reflexivity.
  - vm_compute. discriminate.
  - vm_compute. discriminate.
Defined.

End BookingFacts.

(* ===================================================================== *)
(** * Further properties of the schedule service                         *)
(* ===================================================================== *)

Module AvailabilityFacts.
Import Db Dates AppointmentService ScheduleService Booking Clinic.
Import Outcomes TimeRanges TimeRangesFacts AppointmentFacts.
Local Open Scope string_scope.
Local Open Scope Z_scope.
Local Open Scope prog_scope.

Lemma removeAll_covers (xs : list TimeRange) :
  forall R t, covers (removeAll R xs) t <->
              covers R t /\ forall x, In x xs -> ~ inside t x.
Proof.
  induction xs as [|x xs IH]; intros R t.
  - simpl. intuition.
  - change (removeAll R (x :: xs))
      with (removeAll (_removeTimeRange R (start x) (end_ x)) xs).
    rewrite IH, remove_covers. unfold inside. simpl.
    split.
    + intros [[Hc Hx] Hxs]. split; [exact Hc|]. intros y [<- | Hy]; auto.
    + intros [Hc H]. repeat split; auto.
Qed.

Lemma removeAll_chain (xs : list TimeRange) :
  Forall (fun x => start x <= end_ x) xs ->
  forall lo R, chain lo R -> chain lo (removeAll R xs).
Proof.
  induction 1 as [|x xs Hx _ IH]; intros lo R HR; simpl; [exact HR|].
  apply IH, remove_chain; assumption.
Qed.

Lemma scheduleRanges_covers (day : Z) (schedule : DoctorSchedule.t)
    (partialExceptions : list ExceptionTimes.t)
    (appointments : list Appointment.t) (t : Z) :
  covers (scheduleRanges day schedule partialExceptions appointments) t <->
  setHours day (DoctorSchedule.startTime schedule) <= t
    < setHours day (DoctorSchedule.endTime schedule) /\
  (forall e, In e partialExceptions ->
     ~ setHours day (ExceptionTimes.startTime e) <= t
         < setHours day (ExceptionTimes.endTime e)) /\
  (forall a, In a appointments ->
     ~ Appointment.startTime a <= t < Appointment.endTime a).
Proof.
  unfold scheduleRanges. rewrite !removeAll_covers, covers_cons, covers_nil.
  unfold inside; simpl. split.
  - intros [[[Hin | []] He] Ha]. repeat split; try lia.
    + intros e Hine. apply (He (exceptionRange day e)). apply in_map, Hine.
    + intros a Hina. apply (Ha (appointmentRange a)). apply in_map, Hina.
  - intros (Hin & He & Ha). repeat split; auto.
    + intros x Hx. apply in_map_iff in Hx. destruct Hx as (e & <- & Hine).
      exact (He e Hine).
    + intros x Hx. apply in_map_iff in Hx. destruct Hx as (a & <- & Hina).
      exact (Ha a Hina).
Qed.

(** ** Reading the times of the partial exceptions *)

Lemma run_ofOutcome {A} (o : Outcome A) (s : Store) :
  run exec (ofOutcome o) s = (s, o).
Proof. destruct o; reflexivity. Qed.

Lemma readTimes_returned (e : ScheduleException.t) (times : ExceptionTimes.t) :
  readTimes e = Returned times <->
  ScheduleException.startTime e = Some (ExceptionTimes.startTime times) /\
  ScheduleException.endTime e = Some (ExceptionTimes.endTime times).
Proof.
  unfold readTimes. destruct times as [st en]. cbn.
  destruct (ScheduleException.startTime e) as [st'|],
           (ScheduleException.endTime e) as [en'|];
    split; try discriminate; try (intros [H1 H2]; discriminate).
  - intros H; inversion H; auto.
  - intros [H1 H2]; inversion H1; inversion H2; reflexivity.
Qed.

Lemma readTimes_thrown (e : ScheduleException.t) (err : Error) :
  readTimes e = Thrown err <-> err = splitOfNull /\ lacksTime e.
Proof.
  unfold readTimes, lacksTime.
  destruct (ScheduleException.startTime e) as [st'|],
           (ScheduleException.endTime e) as [en'|]; split;
    try discriminate;
    try (intros H; inversion H; auto; fail);
    try (intros [-> _]; reflexivity);
    intros [_ [H | H]]; discriminate.
Qed.

Lemma readTimes_cases (e : ScheduleException.t) :
  (exists st en, ScheduleException.startTime e = Some st /\
                 ScheduleException.endTime e = Some en /\
                 readTimes e = Returned {| ExceptionTimes.startTime := st;
                                           ExceptionTimes.endTime := en |}) \/
  (lacksTime e /\ readTimes e = Thrown splitOfNull).
Proof.
  unfold readTimes, lacksTime.
  destruct (ScheduleException.startTime e) as [st|],
           (ScheduleException.endTime e) as [en|]; eauto 6.
Qed.

Lemma readAllTimes_cases (l : list ScheduleException.t) :
  (exists ts, readAllTimes l = Returned ts /\
     (forall e, In e l -> ~ lacksTime e) /\
     forall t, In t ts <->
       exists e, In e l /\
         ScheduleException.startTime e = Some (ExceptionTimes.startTime t) /\
         ScheduleException.endTime e = Some (ExceptionTimes.endTime t)) \/
  (readAllTimes l = Thrown splitOfNull /\ exists e, In e l /\ lacksTime e).
Proof.
  induction l as [|x l IH]; cbn [readAllTimes].
  - left. exists []. split; [reflexivity|]. split; [intros e []|].
    intros t. split; [intros [] | intros (e & [] & _)].
  - destruct (readTimes_cases x) as [(st & en & Hs & He & ->) | [Hl ->]];
      cbn [bindOutcome].
    2:{ right. split; [reflexivity|]. exists x. split; [left; reflexivity|].
        exact Hl. }
    destruct IH as [(ts & -> & Hall & Hts) | [-> (e & Hin & Hl)]];
      cbn [bindOutcome].
    2:{ right. split; [reflexivity|]. exists e. split; [right|]; assumption. }
    left. eexists. split; [reflexivity|]. split.
    + intros e [<- | Hin]; [| exact (Hall e Hin)].
      unfold lacksTime. rewrite Hs, He. intros [H | H]; discriminate.
    + intros t. cbn [In]. rewrite Hts. split.
      * intros [<- | (e & Hin & H)]; [exists x | exists e]; cbn; auto.
      * intros (e & [<- | Hin] & H1 & H2).
        -- left. destruct t as [a b]. cbn in *. congruence.
        -- right. exists e. auto.
Qed.

Lemma forEach_returned {A B} (turn : A -> Outcome (list B)) (xs : list A)
    (ys : list B) :
  forEach turn xs = Returned ys ->
  forall y, In y ys ->
    exists x zs, In x xs /\ turn x = Returned zs /\ In y zs.
Proof.
  revert ys. induction xs as [|x xs IH]; cbn [forEach]; intros ys H y Hy.
  - inversion H; subst. destruct Hy.
  - destruct (turn x) as [zs|e] eqn:Ex; cbn [bindOutcome] in H;
      [| discriminate].
    destruct (forEach turn xs) as [later|e]; cbn [bindOutcome] in H;
      [| discriminate].
    inversion H; subst. apply in_app_iff in Hy. destruct Hy as [Hy | Hy].
    + exists x, zs. split; [left; reflexivity | auto].
    + destruct (IH later eq_refl y Hy) as (x' & zs' & Hin & Ht & Hz).
      exists x', zs'. split; [right; exact Hin | auto].
Qed.

Lemma forEach_thrown {A B} (turn : A -> Outcome (list B)) (xs : list A)
    (err : Error) :
  forEach turn xs = Thrown err -> exists x, In x xs /\ turn x = Thrown err.
Proof.
  induction xs as [|x xs IH]; cbn [forEach]; [discriminate|].
  destruct (turn x) as [zs|e] eqn:Ex; cbn [bindOutcome].
  - destruct (forEach turn xs) as [later|e]; cbn [bindOutcome];
      [discriminate|].
    intros H. destruct (IH H) as (x' & Hin & Ht). exists x'.
    split; [right; exact Hin | exact Ht].
  - intros H. inversion H; subst. exists x.
    split; [left; reflexivity | exact Ex].
Qed.

Lemma forEach_throws {A B} (turn : A -> Outcome (list B)) (xs : list A)
    (err : Error) :
  (forall x, In x xs -> turn x = Thrown err) -> xs <> [] ->
  forEach turn xs = Thrown err.
Proof.
  destruct xs as [|x xs]; [congruence|]. intros H _. cbn [forEach].
  rewrite (H x (or_introl eq_refl)). reflexivity.
Qed.

(** The loop of [isTimeSlotAvailable] over the exceptions of the day. *)
Lemma overlapsPartialException_cases (start end' : Z)
    (l : list ScheduleException.t) :
  match overlapsPartialException start end' l with
  | Returned false =>
      forall e, In e l -> ScheduleException.isFullDay e = false ->
        exists st en,
          ScheduleException.startTime e = Some st /\
          ScheduleException.endTime e = Some en /\
          (end' <= setHours start st \/ setHours start en <= start)
  | Returned true =>
      exists e st en, In e l /\ ScheduleException.isFullDay e = false /\
        ScheduleException.startTime e = Some st /\
        ScheduleException.endTime e = Some en /\
        ~ (end' <= setHours start st \/ setHours start en <= start)
  | Thrown err =>
      err = splitOfNull /\
      exists e, In e l /\ ScheduleException.isFullDay e = false /\
                lacksTime e
  end.
Proof.
  induction l as [|x l IH]; cbn [overlapsPartialException].
  - intros e [].
  - destruct (ScheduleException.isFullDay x) eqn:Ef; cbn [negb].
    + destruct (overlapsPartialException start end' l) as [[|]|err].
      * destruct IH as (e & st & en & Hin & H). exists e, st, en.
        split; [right; exact Hin | exact H].
      * intros e [<- | Hin] Hp; [congruence | exact (IH e Hin Hp)].
      * destruct IH as (-> & e & Hin & H). split; [reflexivity|].
        exists e. split; [right; exact Hin | exact H].
    + destruct (readTimes_cases x) as [(st & en & Hs & He & ->) | [Hl ->]];
        cbn [bindOutcome ExceptionTimes.startTime ExceptionTimes.endTime].
      2:{ split; [reflexivity|]. exists x. auto with datatypes. }
      destruct ((end' <=? setHours start st) || (start >=? setHours start en))
        eqn:Eo; cbn [negb].
      * rewrite orb_true_iff, Z.leb_le, Z.geb_le in Eo.
        destruct (overlapsPartialException start end' l) as [[|]|err].
        -- destruct IH as (e & st' & en' & Hin & H). exists e, st', en'.
           split; [right; exact Hin | exact H].
        -- intros e [<- | Hin] Hp; [| exact (IH e Hin Hp)].
           exists st, en. auto.
        -- destruct IH as (-> & e & Hin & H). split; [reflexivity|].
           exists e. split; [right; exact Hin | exact H].
      * rewrite orb_false_iff, Z.leb_gt, Z.geb_leb, Z.leb_gt in Eo.
        exists x, st, en. repeat split; auto with datatypes. lia.
Qed.

(** X15: the free ranges of a schedule period are non-empty, pairwise disjoint
    and in increasing order, and together they are exactly the instants of the
    period outside every partial exception and every appointment. *)
Theorem scheduleRanges_free_time (day : Z) (schedule : DoctorSchedule.t)
    (partialExceptions : list ExceptionTimes.t)
    (appointments : list Appointment.t) :
  setHours day (DoctorSchedule.startTime schedule)
    < setHours day (DoctorSchedule.endTime schedule) ->
  Forall (fun e => setHours day (ExceptionTimes.startTime e)
                   <= setHours day (ExceptionTimes.endTime e))
         partialExceptions ->
  Forall (fun a => Appointment.startTime a <= Appointment.endTime a)
         appointments ->
  let free := scheduleRanges day schedule partialExceptions appointments in
  Forall valid free /\ pairwise_disjoint free /\ sorted free /\
  forall t, covers free t <->
    setHours day (DoctorSchedule.startTime schedule) <= t
      < setHours day (DoctorSchedule.endTime schedule) /\
    (forall e, In e partialExceptions ->
       ~ setHours day (ExceptionTimes.startTime e) <= t
           < setHours day (ExceptionTimes.endTime e)) /\
    (forall a, In a appointments ->
       ~ Appointment.startTime a <= t < Appointment.endTime a).
Proof.
  intros Hs He Ha free.
  assert (Hc : chain (setHours day (DoctorSchedule.startTime schedule)) free).
  { unfold free, scheduleRanges.
    apply removeAll_chain; [apply Forall_map; exact Ha|].
    apply removeAll_chain; [apply Forall_map; exact He|].
    simpl. unfold valid; simpl. lia. }
  repeat apply conj.
  - exact (chain_valid _ _ Hc).
  - exact (chain_disjoint _ _ Hc).
  - exact (chain_sorted _ _ Hc).
  - intros t. apply scheduleRanges_covers.
Qed.

(** The theorem on the Monday of the practice with the lunch break and the
    confirmed appointment. *)
Lemma scheduleRanges_free_time_witness :
  let free :=
    scheduleRanges (at_ monday 0 0)
      {| DoctorSchedule.id := "ds-1"; DoctorSchedule.doctorId := "doc-1";
         DoctorSchedule.dayOfWeek := 1;
         DoctorSchedule.startTime := {| hour := 9; minute := 0 |};
         DoctorSchedule.endTime := {| hour := 17; minute := 0 |};
         DoctorSchedule.isAvailable := true;
         DoctorSchedule.effectiveDate := None;
         DoctorSchedule.expiryDate := None |}
      [lunchTimes] [existing "CONFIRMED"] in
  Forall valid free /\ pairwise_disjoint free /\ sorted free.
Proof.
  cbn zeta.
  refine (let H := scheduleRanges_free_time (at_ monday 0 0) _ [lunchTimes]
                     [existing "CONFIRMED"] _ _ _ in
          conj (proj1 H) (conj (proj1 (proj2 H)) (proj1 (proj2 (proj2 H))))).
  - vm_compute; reflexivity.
  - repeat constructor. vm_compute. discriminate.
  - repeat constructor. vm_compute. discriminate.
Defined.

Lemma nullOrLte_spec (f : option Z) (d : Z) :
  nullOrLte f d = true <-> forall v, f = Some v -> v <= d.
Proof.
  destruct f as [v|]; simpl.
  - rewrite Z.leb_le. split; [intros H w E; inversion E; subst; exact H|].
    intros H; apply H; reflexivity.
  - split; [discriminate | reflexivity].
Qed.

Lemma nullOrGte_spec (f : option Z) (d : Z) :
  nullOrGte f d = true <-> forall v, f = Some v -> d <= v.
Proof.
  destruct f as [v|]; simpl.
  - rewrite Z.geb_le. split; [intros H w E; inversion E; subst; exact H|].
    intros H; apply H; reflexivity.
  - split; [discriminate | reflexivity].
Qed.

(** The outcome of [isTimeSlotAvailable]. *)
Lemma isTimeSlotAvailable_answer (doctorId : Id) (startTime endTime : Z)
    (s : Store) :
  exists outcome,
    call (isTimeSlotAvailable doctorId startTime endTime) s = (s, outcome) /\
    (outcome = Returned true <->
     (exists sch, In sch (doctorSchedules s) /\
        DoctorSchedule.doctorId sch = doctorId /\
        DoctorSchedule.dayOfWeek sch = getDay startTime /\
        clock_leb (DoctorSchedule.startTime sch) (toTimeString startTime)
          = true /\
        clock_leb (toTimeString endTime) (DoctorSchedule.endTime sch)
          = true /\
        (forall d, DoctorSchedule.effectiveDate sch = Some d ->
                   d <= startTime) /\
        (forall d, DoctorSchedule.expiryDate sch = Some d -> endTime <= d) /\
        DoctorSchedule.isAvailable sch = true) /\
     (forall e, In e (scheduleExceptions s) ->
        ScheduleException.doctorId e = doctorId ->
        ScheduleException.date e = startOfDay startTime ->
        ScheduleException.isFullDay e = false /\
        exists st en,
          ScheduleException.startTime e = Some st /\
          ScheduleException.endTime e = Some en /\
          (endTime <= setHours startTime st \/
           setHours startTime en <= startTime)) /\
     (forall a, In a (appointments s) ->
        Appointment.doctorId a = doctorId ->
        Appointment.status a <> "CANCELLED" ->
        Appointment.status a <> "NO_SHOW" ->
        endTime <= Appointment.startTime a \/
        Appointment.endTime a <= startTime)) /\
    (forall err, outcome = Thrown err ->
       err = splitOfNull /\
       exists e, In e (scheduleExceptions s) /\
         ScheduleException.doctorId e = doctorId /\
         ScheduleException.date e = startOfDay startTime /\
         ScheduleException.isFullDay e = false /\
         lacksTime e).
Proof.
  unfold call, isTimeSlotAvailable.
  rewrite run_await. cbn [exec fst snd].
  match goal with |- context [find ?f (doctorSchedules s)] =>
    set (fs := f) end.
  assert (Hfs : forall sch, fs sch = true <->
    DoctorSchedule.doctorId sch = doctorId /\
    DoctorSchedule.dayOfWeek sch = getDay startTime /\
    clock_leb (DoctorSchedule.startTime sch) (toTimeString startTime) = true /\
    clock_leb (toTimeString endTime) (DoctorSchedule.endTime sch) = true /\
    (forall d, DoctorSchedule.effectiveDate sch = Some d -> d <= startTime) /\
    (forall d, DoctorSchedule.expiryDate sch = Some d -> endTime <= d) /\
    DoctorSchedule.isAvailable sch = true).
  { intros sch. unfold fs.
    rewrite !andb_true_iff, String.eqb_eq, Z.eqb_eq, nullOrLte_spec,
      nullOrGte_spec. tauto. }
  destruct (isSome (find fs (doctorSchedules s))) eqn:Es; cbn [negb].
  2:{ exists (Returned false). split; [reflexivity|].
      split; [| discriminate]. split; [discriminate|].
      intros [(sch & Hin & Hp) _].
      assert (isSome (find fs (doctorSchedules s)) = true)
        by (apply (isSome_find fs); exists sch; split;
            [exact Hin | apply Hfs, Hp]).
      congruence. }
  assert (Hex1 : exists sch, In sch (doctorSchedules s) /\
    DoctorSchedule.doctorId sch = doctorId /\
    DoctorSchedule.dayOfWeek sch = getDay startTime /\
    clock_leb (DoctorSchedule.startTime sch) (toTimeString startTime) = true /\
    clock_leb (toTimeString endTime) (DoctorSchedule.endTime sch) = true /\
    (forall d, DoctorSchedule.effectiveDate sch = Some d -> d <= startTime) /\
    (forall d, DoctorSchedule.expiryDate sch = Some d -> endTime <= d) /\
    DoctorSchedule.isAvailable sch = true).
  { apply (isSome_find fs) in Es. destruct Es as (sch & Hin & Hp). exists sch.
    split; [exact Hin | apply Hfs, Hp]. }
  rewrite run_await. cbn [exec fst snd].
  set (es := filter _ (scheduleExceptions s)).
  assert (Hes : forall e, In e es <->
            In e (scheduleExceptions s) /\
            ScheduleException.doctorId e = doctorId /\
            ScheduleException.date e = startOfDay startTime).
  { intros e. unfold es.
    rewrite filter_In, andb_true_iff, String.eqb_eq, Z.eqb_eq. tauto. }
  destruct (isSome (find ScheduleException.isFullDay es)) eqn:Efull.
  { exists (Returned false). split; [reflexivity|].
    split; [| discriminate]. split; [discriminate|].
    intros (_ & He & _). apply isSome_find in Efull.
    destruct Efull as (e & Hin & Hfull). apply Hes in Hin.
    destruct (He e) as [Hp _]; try tauto. congruence. }
  assert (Hpartial : forall e, In e es -> ScheduleException.isFullDay e = false).
  { intros e Hine.
    destruct (ScheduleException.isFullDay e) eqn:Ef; [|reflexivity].
    assert (isSome (find ScheduleException.isFullDay es) = true)
      by (apply isSome_find; exists e; auto).
    congruence. }
  pose proof (overlapsPartialException_cases startTime endTime es) as Hloop.
  destruct (overlapsPartialException startTime endTime es) as [[|]|err];
    cbn [ofOutcome bind].
  { (* a partial exception overlaps *)
    exists (Returned false). split; [reflexivity|].
    split; [| discriminate]. split; [discriminate|].
    intros (_ & He & _).
    destruct Hloop as (e & st & en & Hin & _ & Hst & Hen & Hov).
    apply Hes in Hin. destruct (He e) as [_ (st' & en' & Hst' & Hen' & Hfree)];
      try tauto.
    rewrite Hst in Hst'. rewrite Hen in Hen'.
    inversion Hst'; inversion Hen'; subst. exfalso. exact (Hov Hfree). }
  2:{ (* a read throws *)
    exists (Thrown err). split; [reflexivity|]. split.
    - split; [discriminate|]. intros (_ & He & _).
      destruct Hloop as (_ & e & Hin & _ & Hl).
      apply Hes in Hin. destruct (He e) as [_ (st & en & Hst & Hen & _)];
        try tauto.
      unfold lacksTime in Hl. rewrite Hst, Hen in Hl.
      exfalso. destruct Hl; discriminate.
    - intros err' H. inversion H; subst err'.
      destruct Hloop as (-> & e & Hin & Hp & Hl). split; [reflexivity|].
      exists e. apply Hes in Hin. tauto. }
  assert (Hex2 : forall e, In e (scheduleExceptions s) ->
        ScheduleException.doctorId e = doctorId ->
        ScheduleException.date e = startOfDay startTime ->
        ScheduleException.isFullDay e = false /\
        exists st en,
          ScheduleException.startTime e = Some st /\
          ScheduleException.endTime e = Some en /\
          (endTime <= setHours startTime st \/
           setHours startTime en <= startTime)).
  { intros e Hin Hd Hdate.
    assert (Hine : In e es) by (apply Hes; tauto).
    split; [exact (Hpartial e Hine)|].
    exact (Hloop e Hine (Hpartial e Hine)). }
  rewrite run_await. cbn [exec fst snd].
  match goal with |- context [find ?f (appointments s)] =>
    set (fa := f) end.
  assert (Hfa : forall a, fa a = true <->
    Appointment.doctorId a = doctorId /\
    Appointment.status a <> "CANCELLED" /\ Appointment.status a <> "NO_SHOW" /\
    ~ (endTime <= Appointment.startTime a \/
       Appointment.endTime a <= startTime)).
  { intros a. unfold fa.
    rewrite !andb_true_iff, String.eqb_eq, occupiesTime_spec,
      Z.ltb_lt, Z.gtb_lt. intuition lia. }
  destruct (isSome (find fa (appointments s))) eqn:Ea.
  - exists (Returned false). split; [reflexivity|].
    split; [| discriminate]. split; [discriminate|].
    intros (_ & _ & Hno). apply (isSome_find fa) in Ea.
    destruct Ea as (a & Hin & Hp). apply Hfa in Hp.
    destruct Hp as (Hd & Hc & Hn & Hov). exfalso. apply Hov.
    apply (Hno a Hin Hd Hc Hn).
  - exists (Returned true). split; [reflexivity|].
    split; [| discriminate]. split; [| reflexivity]. intros _.
    repeat apply conj; [exact Hex1 | exact Hex2 |].
    intros a Hin Hd Hc Hn.
    destruct (Z_le_gt_dec endTime (Appointment.startTime a)); [tauto|].
    destruct (Z_le_gt_dec (Appointment.endTime a) startTime); [tauto|].
    assert (isSome (find fa (appointments s)) = true).
    { apply (isSome_find fa). exists a. split; [exact Hin|]. apply Hfa.
      repeat split; auto. lia. }
    congruence.
Qed.

(** X16: [isTimeSlotAvailable] only reads. It answers yes exactly when a
    schedule entry covers the clock times, every exception of the doctor dated
    at the midnight of the start is partial, has both of its times and does
    not overlap the interval, and no occupying appointment of the doctor
    overlaps the interval. It throws nothing but the TypeError of reading a
    time that is null, and only when a partial exception of the doctor dated
    at that midnight lacks a time; otherwise it returns an answer. *)
Theorem isTimeSlotAvailable_true_iff (doctorId : Id) (startTime endTime : Z)
    (s : Store) :
  exists outcome,
    call (isTimeSlotAvailable doctorId startTime endTime) s = (s, outcome) /\
    (outcome = Returned true <->
     (exists sch, In sch (doctorSchedules s) /\
        DoctorSchedule.doctorId sch = doctorId /\
        DoctorSchedule.dayOfWeek sch = getDay startTime /\
        clock_leb (DoctorSchedule.startTime sch) (toTimeString startTime)
          = true /\
        clock_leb (toTimeString endTime) (DoctorSchedule.endTime sch)
          = true /\
        (forall d, DoctorSchedule.effectiveDate sch = Some d ->
                   d <= startTime) /\
        (forall d, DoctorSchedule.expiryDate sch = Some d -> endTime <= d) /\
        DoctorSchedule.isAvailable sch = true) /\
     (forall e, In e (scheduleExceptions s) ->
        ScheduleException.doctorId e = doctorId ->
        ScheduleException.date e = startOfDay startTime ->
        ScheduleException.isFullDay e = false /\
        exists st en,
          ScheduleException.startTime e = Some st /\
          ScheduleException.endTime e = Some en /\
          (endTime <= setHours startTime st \/
           setHours startTime en <= startTime)) /\
     (forall a, In a (appointments s) ->
        Appointment.doctorId a = doctorId ->
        Appointment.status a <> "CANCELLED" ->
        Appointment.status a <> "NO_SHOW" ->
        endTime <= Appointment.startTime a \/
        Appointment.endTime a <= startTime)) /\
    (forall err, outcome = Thrown err ->
       err = splitOfNull /\
       exists e, In e (scheduleExceptions s) /\
         ScheduleException.doctorId e = doctorId /\
         ScheduleException.date e = startOfDay startTime /\
         ScheduleException.isFullDay e = false /\
         lacksTime e).
Proof. exact (isTimeSlotAvailable_answer doctorId startTime endTime s). Qed.


Lemma generateTimeSlots_inside (rangeStart rangeEnd duration : Z) (sl : Slot) :
  In sl (_generateTimeSlots rangeStart rangeEnd duration) ->
  endTime sl = startTime sl + duration * msPerMinute /\
  rangeStart <= startTime sl /\ endTime sl <= rangeEnd.
Proof.
  unfold _generateTimeSlots. intros Hin.
  pose proof (slotLoop_slots rangeStart (rangeEnd - duration * 60 * 1000)
                (duration * 60 * 1000)) as H.
  rewrite Forall_forall in H. specialize (H sl Hin).
  unfold msPerMinute. lia.
Qed.

(** The outcome of [getAvailableTimeSlots]. *)
Lemma getAvailableTimeSlots_slots (doctorId : Id) (date duration : Z)
    (s : Store) :
  let day := startOfDay date in
  exists outcome,
    call (getAvailableTimeSlots doctorId date duration) s = (s, outcome) /\
    ((exists e, In e (scheduleExceptions s) /\
        ScheduleException.doctorId e = doctorId /\
        day <= ScheduleException.date e <= endOfDay day /\
        ScheduleException.isFullDay e = true) -> outcome = Returned []) /\
    (forall err, outcome = Thrown err <->
       err = splitOfNull /\
       (forall e, In e (scheduleExceptions s) ->
          ScheduleException.doctorId e = doctorId ->
          day <= ScheduleException.date e <= endOfDay day ->
          ScheduleException.isFullDay e = false) /\
       (exists sch, In sch (doctorSchedules s) /\
          DoctorSchedule.doctorId sch = doctorId /\
          DoctorSchedule.dayOfWeek sch = getDay day /\
          DoctorSchedule.isAvailable sch = true /\
          (forall d, DoctorSchedule.effectiveDate sch = Some d -> d <= day) /\
          (forall d, DoctorSchedule.expiryDate sch = Some d -> day <= d)) /\
       (exists e, In e (scheduleExceptions s) /\
          ScheduleException.doctorId e = doctorId /\
          day <= ScheduleException.date e <= endOfDay day /\
          lacksTime e)) /\
    forall slots, outcome = Returned slots ->
    forall sl, In sl slots ->
      endTime sl = startTime sl + duration * msPerMinute /\
      exists sch, In sch (doctorSchedules s) /\
        DoctorSchedule.doctorId sch = doctorId /\
        DoctorSchedule.dayOfWeek sch = getDay day /\
        DoctorSchedule.isAvailable sch = true /\
        (forall d, DoctorSchedule.effectiveDate sch = Some d -> d <= day) /\
        (forall d, DoctorSchedule.expiryDate sch = Some d -> day <= d) /\
        (forall e, In e (scheduleExceptions s) ->
           ScheduleException.doctorId e = doctorId ->
           day <= ScheduleException.date e <= endOfDay day ->
           ScheduleException.isFullDay e = false /\
           exists st en,
             ScheduleException.startTime e = Some st /\
             ScheduleException.endTime e = Some en /\
             forall t, startTime sl <= t < endTime sl ->
               ~ setHours day st <= t < setHours day en) /\
        forall t, startTime sl <= t < endTime sl ->
          setHours day (DoctorSchedule.startTime sch) <= t
            < setHours day (DoctorSchedule.endTime sch) /\
          (forall a, In a (appointments s) ->
             Appointment.doctorId a = doctorId ->
             Appointment.status a <> "CANCELLED" ->
             Appointment.status a <> "NO_SHOW" ->
             day <= Appointment.startTime a ->
             Appointment.endTime a <= endOfDay day ->
             ~ Appointment.startTime a <= t < Appointment.endTime a).
Proof.
  intros day. unfold call, getAvailableTimeSlots. fold day.
  rewrite run_await. cbn [exec fst snd].
  rewrite run_await. cbn [exec fst snd].
  set (items := filter _ (doctorSchedules s)).
  set (es := filter _ (scheduleExceptions s)).
  assert (Hitems : forall sch, In sch items <->
            In sch (doctorSchedules s) /\
            DoctorSchedule.doctorId sch = doctorId /\
            DoctorSchedule.dayOfWeek sch = getDay day /\
            DoctorSchedule.isAvailable sch = true /\
            (forall d, DoctorSchedule.effectiveDate sch = Some d -> d <= day) /\
            (forall d, DoctorSchedule.expiryDate sch = Some d -> day <= d)).
  { intros sch. unfold items.
    rewrite filter_In, !andb_true_iff, String.eqb_eq, Z.eqb_eq,
      nullOrLte_spec, nullOrGte_spec. tauto. }
  assert (Hes : forall e, In e es <->
            In e (scheduleExceptions s) /\
            ScheduleException.doctorId e = doctorId /\
            day <= ScheduleException.date e <= endOfDay day).
  { intros e. unfold es.
    rewrite filter_In, !andb_true_iff, String.eqb_eq, Z.geb_le, Z.leb_le.
    tauto. }
  destruct (find ScheduleException.isFullDay es) as [full|] eqn:Efull.
  { exists (Returned []). split; [reflexivity|]. split; [reflexivity|].
    split.
    - intros err. split; [discriminate|]. intros (_ & Hall & _).
      apply find_some in Efull. destruct Efull as [Hin Hfull].
      apply Hes in Hin. rewrite Hall in Hfull; [discriminate | tauto ..].
    - intros slots H sl Hsl. inversion H; subst. destruct Hsl. }
  assert (Hpartial : forall e, In e es -> ScheduleException.isFullDay e = false).
  { intros e Hine.
    destruct (ScheduleException.isFullDay e) eqn:Ef; [|reflexivity].
    rewrite (find_none _ _ Efull e Hine) in Ef. discriminate. }
  rewrite run_await. cbn [exec fst snd]. rewrite run_ofOutcome.
  set (appts := filter _ (appointments s)).
  set (partialExceptions :=
         filter (fun e => negb (ScheduleException.isFullDay e)) es).
  assert (Hpe : forall e, In e partialExceptions <-> In e es).
  { intros e. unfold partialExceptions. rewrite filter_In, negb_true_iff.
    split; [tauto|]. intros Hine. split; [exact Hine | exact (Hpartial e Hine)]. }
  match goal with |- context [forEach ?f items] => set (turn := f) end.
  eexists. split; [reflexivity|]. split.
  { intros (e & Hin & Hd & Hdate & Hfull).
    rewrite (Hpartial e) in Hfull; [discriminate | apply Hes; tauto]. }
  destruct (readAllTimes_cases partialExceptions)
    as [(ts & Hread & Hall & Hts) | (Hread & e0 & Hin0 & Hlack0)].
  - (* every partial exception of the day has its times *)
    assert (Hturn : forall sch, turn sch =
              Returned (flat_map (fun range =>
                          _generateTimeSlots (start range) (end_ range)
                                             duration)
                       (scheduleRanges day sch ts appts))).
    { intros sch. unfold turn. fold partialExceptions. rewrite Hread.
      reflexivity. }
    split.
    + intros err. split.
      * intros H. apply forEach_thrown in H. destruct H as (x & _ & Hx).
        rewrite Hturn in Hx. discriminate.
      * intros (_ & _ & _ & e & Hin & Hd & Hdate & Hl). exfalso.
        apply (Hall e); [| exact Hl]. apply Hpe, Hes. tauto.
    + intros slots Hslots sl Hsl.
      destruct (forEach_returned _ _ _ Hslots sl Hsl)
        as (sch & zs & Hsch & Hzs & Hz).
      rewrite Hturn in Hzs. inversion Hzs; subst zs. clear Hzs.
      apply in_flat_map in Hz. destruct Hz as (r & Hr & Hz).
      apply generateTimeSlots_inside in Hz. destruct Hz as (Hdur & Hlo & Hhi).
      split; [exact Hdur|]. exists sch.
      apply Hitems in Hsch.
      destruct Hsch as (Hin & Hd & Hw & Hav & Hef & Hex).
      assert (Hcov : forall t, startTime sl <= t < endTime sl ->
        covers (scheduleRanges day sch ts appts) t).
      { intros t Ht. exists r. split; [exact Hr|]. unfold inside. lia. }
      do 6 (split; [assumption|]). split.
      * intros e Hine Hde Hdate.
        assert (Hes' : In e es) by (apply Hes; tauto).
        split; [exact (Hpartial e Hes')|].
        destruct (readTimes_cases e)
          as [(st & en & Hst & Hen & _) | [Hl _]];
          [| exfalso; apply (Hall e); [apply Hpe, Hes' | exact Hl]].
        exists st, en. split; [exact Hst|]. split; [exact Hen|].
        intros t Ht.
        destruct (proj1 (scheduleRanges_covers _ _ _ _ _) (Hcov t Ht))
          as (_ & He & _).
        apply (He {| ExceptionTimes.startTime := st;
                     ExceptionTimes.endTime := en |}).
        apply Hts. exists e. split; [apply Hpe, Hes' | cbn; auto].
      * intros t Ht.
        destruct (proj1 (scheduleRanges_covers _ _ _ _ _) (Hcov t Ht))
          as (Hsched & _ & Ha).
        split; [lia|].
        intros a Hina Hda Hc Hn Hst Hen Hint.
        apply (Ha a); [| exact Hint].
        apply filter_In. split; [exact Hina|].
        rewrite !andb_true_iff, String.eqb_eq, Z.geb_le, Z.leb_le,
          occupiesTime_spec. tauto.
  - (* a partial exception of the day lacks a time *)
    assert (Hturn : forall sch, turn sch = Thrown splitOfNull).
    { intros sch. unfold turn. fold partialExceptions. rewrite Hread.
      reflexivity. }
    destruct items as [|sch0 items'] eqn:Eitems.
    + cbn [forEach]. split.
      * intros err. split; [discriminate|].
        intros (_ & _ & (sch & Hsch) & _). apply Hitems in Hsch.
        destruct Hsch.
      * intros slots H sl Hsl. inversion H; subst. destruct Hsl.
    + rewrite (forEach_throws turn (sch0 :: items') splitOfNull);
        [| intros x _; apply Hturn | discriminate].
      split; [| discriminate].
      intros err. split.
      * intros H. inversion H; subst err. split; [reflexivity|]. split.
        -- intros e Hine Hd Hdate. apply Hpartial, Hes. tauto.
        -- split.
           ++ exists sch0. apply Hitems. left; reflexivity.
           ++ exists e0. apply Hpe, Hes in Hin0. tauto.
      * intros (-> & _). reflexivity.
Qed.

(** X17: [getAvailableTimeSlots] only reads. A full-day exception of the
    doctor dated within the requested day empties the answer. The call throws
    exactly when no such full-day exception exists, some schedule entry of the
    doctor applies to the day, and an exception of the doctor dated within the
    day lacks a time; what it throws is the TypeError of reading a time that
    is null. Every slot of a returned answer has the requested duration and
    lies within the hours of a schedule entry of the doctor for that day of
    the week; every exception of the doctor dated within the day is then
    partial with both of its times, and no instant of the slot falls into it
    or into an occupying appointment of the doctor that lies within the
    day. *)
Theorem getAvailableTimeSlots_sound (doctorId : Id) (date duration : Z)
    (s : Store) :
  let day := startOfDay date in
  exists outcome,
    call (getAvailableTimeSlots doctorId date duration) s = (s, outcome) /\
    ((exists e, In e (scheduleExceptions s) /\
        ScheduleException.doctorId e = doctorId /\
        day <= ScheduleException.date e <= endOfDay day /\
        ScheduleException.isFullDay e = true) -> outcome = Returned []) /\
    (forall err, outcome = Thrown err <->
       err = splitOfNull /\
       (forall e, In e (scheduleExceptions s) ->
          ScheduleException.doctorId e = doctorId ->
          day <= ScheduleException.date e <= endOfDay day ->
          ScheduleException.isFullDay e = false) /\
       (exists sch, In sch (doctorSchedules s) /\
          DoctorSchedule.doctorId sch = doctorId /\
          DoctorSchedule.dayOfWeek sch = getDay day /\
          DoctorSchedule.isAvailable sch = true /\
          (forall d, DoctorSchedule.effectiveDate sch = Some d -> d <= day) /\
          (forall d, DoctorSchedule.expiryDate sch = Some d -> day <= d)) /\
       (exists e, In e (scheduleExceptions s) /\
          ScheduleException.doctorId e = doctorId /\
          day <= ScheduleException.date e <= endOfDay day /\
          lacksTime e)) /\
    forall slots, outcome = Returned slots ->
    forall sl, In sl slots ->
      endTime sl = startTime sl + duration * msPerMinute /\
      exists sch, In sch (doctorSchedules s) /\
        DoctorSchedule.doctorId sch = doctorId /\
        DoctorSchedule.dayOfWeek sch = getDay day /\
        DoctorSchedule.isAvailable sch = true /\
        (forall d, DoctorSchedule.effectiveDate sch = Some d -> d <= day) /\
        (forall d, DoctorSchedule.expiryDate sch = Some d -> day <= d) /\
        (forall e, In e (scheduleExceptions s) ->
           ScheduleException.doctorId e = doctorId ->
           day <= ScheduleException.date e <= endOfDay day ->
           ScheduleException.isFullDay e = false /\
           exists st en,
             ScheduleException.startTime e = Some st /\
             ScheduleException.endTime e = Some en /\
             forall t, startTime sl <= t < endTime sl ->
               ~ setHours day st <= t < setHours day en) /\
        forall t, startTime sl <= t < endTime sl ->
          setHours day (DoctorSchedule.startTime sch) <= t
            < setHours day (DoctorSchedule.endTime sch) /\
          (forall a, In a (appointments s) ->
             Appointment.doctorId a = doctorId ->
             Appointment.status a <> "CANCELLED" ->
             Appointment.status a <> "NO_SHOW" ->
             day <= Appointment.startTime a ->
             Appointment.endTime a <= endOfDay day ->
             ~ Appointment.startTime a <= t < Appointment.endTime a).
Proof. exact (getAvailableTimeSlots_slots doctorId date duration s). Qed.


(** The walk of [_generateAvailabilitySlots] over the days. *)
Lemma generateAvailabilitySlots_cases (weeklySchedule : list DoctorSchedule.t)
    (exceptions : list ScheduleException.t)
    (appts : list Appointment.t) (currentDate endDate : Z) :
  match _generateAvailabilitySlots weeklySchedule exceptions appts
          currentDate endDate with
  | Returned slots =>
      (forall k : nat, currentDate + Z.of_nat k * msPerDay <= endDate ->
         exists zs, availabilityOfDay weeklySchedule exceptions appts
                      (currentDate + Z.of_nat k * msPerDay) = Returned zs) /\
      forall sl, In sl slots ->
        exists (k : nat) zs,
          currentDate + Z.of_nat k * msPerDay <= endDate /\
          availabilityOfDay weeklySchedule exceptions appts
            (currentDate + Z.of_nat k * msPerDay) = Returned zs /\
          In sl zs
  | Thrown err =>
      exists k : nat,
        currentDate + Z.of_nat k * msPerDay <= endDate /\
        availabilityOfDay weeklySchedule exceptions appts
          (currentDate + Z.of_nat k * msPerDay) = Thrown err
  end.
Proof.
  funelim (_generateAvailabilitySlots weeklySchedule exceptions appts
             currentDate endDate).
  - clear Heqcall. assert (Hd : 0 < msPerDay) by reflexivity.
    match goal with
    | |- context [bindOutcome (availabilityOfDay ?w ?e ?a ?c) _] =>
        destruct (availabilityOfDay w e a c) as [today|err] eqn:Etoday
    end; cbn [bindOutcome].
    2:{ exists 0%nat. rewrite Z.add_0_r. split; [lia | exact Etoday]. }
    specialize (H today).
    match goal with
    | |- context [bindOutcome (_generateAvailabilitySlots ?w ?e ?a ?c ?d) _] =>
        destruct (_generateAvailabilitySlots w e a c d) as [later|err]
    end; cbn [bindOutcome].
    + destruct H as [Hall Hin]. split.
      * intros [|k] Hk.
        -- exists today. rewrite Z.add_0_r. exact Etoday.
        -- replace (currentDate + Z.of_nat (S k) * msPerDay)
             with (currentDate + msPerDay + Z.of_nat k * msPerDay) in * by lia.
           exact (Hall k Hk).
      * intros sl Hsl. apply in_app_iff in Hsl. destruct Hsl as [Hsl | Hsl].
        -- exists 0%nat, today. rewrite Z.add_0_r.
           split; [lia|]. split; [exact Etoday | exact Hsl].
        -- destruct (Hin sl Hsl) as (k & zs & Hk & Hz & Hzs).
           exists (S k), zs.
           replace (currentDate + Z.of_nat (S k) * msPerDay)
             with (currentDate + msPerDay + Z.of_nat k * msPerDay) by lia.
           repeat split; assumption.
    + destruct H as (k & Hk & Hz). exists (S k).
      replace (currentDate + Z.of_nat (S k) * msPerDay)
        with (currentDate + msPerDay + Z.of_nat k * msPerDay) by lia.
      split; assumption.
  - split; [| intros sl []]. intros k Hk.
    assert (Hd : 0 < msPerDay) by reflexivity. nia.
Qed.

(** One day of [_generateAvailabilitySlots]. *)
Lemma availabilityOfDay_cases (weeklySchedule : list DoctorSchedule.t)
    (exceptions : list ScheduleException.t)
    (appointments : list Appointment.t) (day : Z) :
  let sameDate e := toISODate (ScheduleException.date e) = toISODate day in
  match availabilityOfDay weeklySchedule exceptions appointments day with
  | Returned slots =>
      ((forall e, In e exceptions -> sameDate e ->
          ScheduleException.isFullDay e = false) ->
       (exists sch, In sch weeklySchedule /\
          DoctorSchedule.dayOfWeek sch = getDay day) ->
       forall e, In e exceptions -> sameDate e -> ~ lacksTime e) /\
      forall sl, In sl slots ->
        AvailabilitySlot.date sl = toISODate day /\
        (forall e, In e exceptions -> sameDate e ->
           ScheduleException.isFullDay e = false /\
           exists st en,
             ScheduleException.startTime e = Some st /\
             ScheduleException.endTime e = Some en /\
             forall t, AvailabilitySlot.startTime sl <= t
                         < AvailabilitySlot.endTime sl ->
               ~ setHours day st <= t < setHours day en) /\
        exists sch, In sch weeklySchedule /\
          DoctorSchedule.dayOfWeek sch = getDay day /\
          forall t, AvailabilitySlot.startTime sl <= t
                      < AvailabilitySlot.endTime sl ->
            setHours day (DoctorSchedule.startTime sch) <= t
              < setHours day (DoctorSchedule.endTime sch) /\
            forall a, In a appointments ->
              toISODate (Appointment.startTime a) = toISODate day ->
              ~ Appointment.startTime a <= t < Appointment.endTime a
  | Thrown err =>
      err = splitOfNull /\
      (forall e, In e exceptions -> sameDate e ->
         ScheduleException.isFullDay e = false) /\
      (exists sch, In sch weeklySchedule /\
         DoctorSchedule.dayOfWeek sch = getDay day) /\
      exists e, In e exceptions /\ sameDate e /\ lacksTime e
  end.
Proof.
  intros sameDate. unfold availabilityOfDay.
  match goal with |- context [find ?f exceptions] =>
    destruct (find f exceptions) as [full|] eqn:Efull end.
  { apply find_some in Efull. destruct Efull as [Hin Hp].
    apply andb_true_iff in Hp. destruct Hp as [Hsame Hfull].
    apply Z.eqb_eq in Hsame. split; [| intros sl []].
    intros Hall. rewrite (Hall full Hin Hsame) in Hfull. discriminate. }
  assert (Hpartial : forall e, In e exceptions -> sameDate e ->
            ScheduleException.isFullDay e = false).
  { intros e Hine Hsame. assert (Hn := find_none _ _ Efull e Hine).
    cbn beta in Hn. unfold sameDate in Hsame.
    rewrite Hsame, Z.eqb_refl in Hn. exact Hn. }
  set (daySchedules := filter _ weeklySchedule).
  set (partialExceptions := filter _ exceptions).
  set (dayAppointments := filter _ appointments).
  assert (Hds : forall sch, In sch daySchedules <->
            In sch weeklySchedule /\
            DoctorSchedule.dayOfWeek sch = getDay day).
  { intros sch. unfold daySchedules. rewrite filter_In, Z.eqb_eq. tauto. }
  assert (Hpe : forall e, In e partialExceptions <->
            In e exceptions /\ sameDate e).
  { intros e. unfold partialExceptions, sameDate.
    rewrite filter_In, andb_true_iff, Z.eqb_eq, negb_true_iff.
    split; [tauto|]. intros [Hine Hsame]. repeat split; auto. }
  match goal with |- context [forEach ?f daySchedules] => set (turn := f) end.
  destruct (readAllTimes_cases partialExceptions)
    as [(ts & Hread & Hall & Hts) | (Hread & e0 & Hin0 & Hlack0)].
  - assert (Hturn : forall sch, turn sch =
              Returned
                (map (fun range =>
                        {| AvailabilitySlot.date := toISODate day;
                           AvailabilitySlot.startTime := start range;
                           AvailabilitySlot.endTime := end_ range |})
                     (scheduleRanges day sch ts dayAppointments))).
    { intros sch. unfold turn. rewrite Hread. reflexivity. }
    destruct (forEach turn daySchedules) as [slots|err] eqn:Eloop.
    2:{ apply forEach_thrown in Eloop. destruct Eloop as (x & _ & Hx).
        rewrite Hturn in Hx. discriminate. }
    split.
    { intros _ _ e Hine Hsame. apply Hall, Hpe. tauto. }
    intros sl Hsl.
    destruct (forEach_returned _ _ _ Eloop sl Hsl)
      as (sch & zs & Hsch & Hzs & Hz).
    rewrite Hturn in Hzs. inversion Hzs; subst zs. clear Hzs.
    apply in_map_iff in Hz. destruct Hz as (r & <- & Hr).
    cbn [AvailabilitySlot.date AvailabilitySlot.startTime
         AvailabilitySlot.endTime].
    assert (Hcov : forall t, start r <= t < end_ r ->
      covers (scheduleRanges day sch ts dayAppointments) t).
    { intros t Ht. exists r. split; [exact Hr | exact Ht]. }
    split; [reflexivity|]. split.
    + intros e Hine Hsame. split; [exact (Hpartial e Hine Hsame)|].
      assert (Hp : In e partialExceptions) by (apply Hpe; tauto).
      destruct (readTimes_cases e)
        as [(st & en & Hst & Hen & _) | [Hl _]];
        [| exfalso; exact (Hall e Hp Hl)].
      exists st, en. split; [exact Hst|]. split; [exact Hen|].
      intros t Ht.
      destruct (proj1 (scheduleRanges_covers _ _ _ _ _) (Hcov t Ht))
        as (_ & He & _).
      apply (He {| ExceptionTimes.startTime := st;
                   ExceptionTimes.endTime := en |}).
      apply Hts. exists e. split; [exact Hp | cbn; auto].
    + exists sch. apply Hds in Hsch. destruct Hsch as [Hin Hdow].
      split; [exact Hin|]. split; [exact Hdow|].
      intros t Ht.
      destruct (proj1 (scheduleRanges_covers _ _ _ _ _) (Hcov t Ht))
        as (Hsched & _ & Ha).
      split; [lia|].
      intros a Hina Hsame. apply (Ha a).
      unfold dayAppointments. apply filter_In. split; [exact Hina|].
      rewrite Hsame. apply Z.eqb_refl.
  - assert (Hturn : forall sch, turn sch = Thrown splitOfNull).
    { intros sch. unfold turn. rewrite Hread. reflexivity. }
    destruct daySchedules as [|sch0 rest] eqn:Eds.
    + cbn [forEach]. split; [| intros sl []].
      intros _ (sch & Hsch). apply Hds in Hsch. destruct Hsch.
    + rewrite (forEach_throws turn (sch0 :: rest) splitOfNull);
        [| intros x _; apply Hturn | discriminate].
      split; [reflexivity|]. split; [exact Hpartial|]. split.
      * exists sch0. apply Hds. left; reflexivity.
      * exists e0. apply Hpe in Hin0. tauto.
Qed.


(** X18: [getDoctorSchedule] only reads. It throws exactly when, on some day
    of the requested period counted in whole days from [startDate], the
    doctor's exceptions of the period hold no full-day exception of that
    date, one of the doctor's available schedule entries applies to the day
    of the week, and an exception of that date lacks a time; what it throws
    is the TypeError of reading a time that is null. Every range of a
    returned answer belongs to such a day, carries its calendar date and lies
    within the hours of one of the doctor's available schedule entries for
    the day of the week; every exception of that date among the doctor's
    exceptions of the period is then partial with both of its times, and no
    instant of the range falls into it or into an occupying appointment of
    the period that starts on that date. *)
Theorem getDoctorSchedule_sound (doctorId : Id) (startDate endDate : Z)
    (s : Store) :
  exists outcome,
    call (getDoctorSchedule doctorId startDate endDate) s = (s, outcome) /\
    (forall err, outcome = Thrown err <->
       err = splitOfNull /\
       exists (k : nat) (sch : DoctorSchedule.t),
         let day := startDate + Z.of_nat k * msPerDay in
         day <= endDate /\
         (forall e, In e (scheduleExceptions s) ->
            ScheduleException.doctorId e = doctorId ->
            startDate <= ScheduleException.date e <= endDate ->
            toISODate (ScheduleException.date e) = toISODate day ->
            ScheduleException.isFullDay e = false) /\
         In sch (doctorSchedules s) /\
         DoctorSchedule.doctorId sch = doctorId /\
         DoctorSchedule.dayOfWeek sch = getDay day /\
         DoctorSchedule.isAvailable sch = true /\
         (forall d, DoctorSchedule.effectiveDate sch = Some d ->
                    d <= endDate) /\
         (forall d, DoctorSchedule.expiryDate sch = Some d ->
                    startDate <= d) /\
         exists e, In e (scheduleExceptions s) /\
           ScheduleException.doctorId e = doctorId /\
           startDate <= ScheduleException.date e <= endDate /\
           toISODate (ScheduleException.date e) = toISODate day /\
           lacksTime e) /\
    forall slots, outcome = Returned slots ->
    forall sl, In sl slots ->
      exists (k : nat) (sch : DoctorSchedule.t),
        let day := startDate + Z.of_nat k * msPerDay in
        day <= endDate /\
        AvailabilitySlot.date sl = toISODate day /\
        In sch (doctorSchedules s) /\
        DoctorSchedule.doctorId sch = doctorId /\
        DoctorSchedule.dayOfWeek sch = getDay day /\
        DoctorSchedule.isAvailable sch = true /\
        (forall e, In e (scheduleExceptions s) ->
           ScheduleException.doctorId e = doctorId ->
           startDate <= ScheduleException.date e <= endDate ->
           toISODate (ScheduleException.date e) = toISODate day ->
           ScheduleException.isFullDay e = false /\
           exists st en,
             ScheduleException.startTime e = Some st /\
             ScheduleException.endTime e = Some en /\
             forall t, AvailabilitySlot.startTime sl <= t
                         < AvailabilitySlot.endTime sl ->
               ~ setHours day st <= t < setHours day en) /\
        forall t, AvailabilitySlot.startTime sl <= t
                    < AvailabilitySlot.endTime sl ->
          setHours day (DoctorSchedule.startTime sch) <= t
            < setHours day (DoctorSchedule.endTime sch) /\
          (forall a, In a (appointments s) ->
             Appointment.doctorId a = doctorId ->
             Appointment.status a <> "CANCELLED" ->
             Appointment.status a <> "NO_SHOW" ->
             startDate <= Appointment.startTime a ->
             Appointment.endTime a <= endDate ->
             toISODate (Appointment.startTime a) = toISODate day ->
             ~ Appointment.startTime a <= t < Appointment.endTime a).
Proof.
  unfold call, getDoctorSchedule.
  rewrite run_await. cbn [exec fst snd].
  rewrite run_await. cbn [exec fst snd].
  rewrite run_await. cbn [exec fst snd]. rewrite run_ofOutcome.
  set (ws := filter _ (doctorSchedules s)).
  set (es := filter _ (scheduleExceptions s)).
  set (appts := filter _ (appointments s)).
  assert (Hws : forall sch, In sch ws <->
            In sch (doctorSchedules s) /\
            DoctorSchedule.doctorId sch = doctorId /\
            DoctorSchedule.isAvailable sch = true /\
            (forall d, DoctorSchedule.effectiveDate sch = Some d ->
                       d <= endDate) /\
            (forall d, DoctorSchedule.expiryDate sch = Some d ->
                       startDate <= d)).
  { intros sch. unfold ws.
    rewrite filter_In, !andb_true_iff, String.eqb_eq, nullOrLte_spec,
      nullOrGte_spec. tauto. }
  assert (Hes : forall e, In e es <->
            In e (scheduleExceptions s) /\
            ScheduleException.doctorId e = doctorId /\
            startDate <= ScheduleException.date e <= endDate).
  { intros e. unfold es.
    rewrite filter_In, !andb_true_iff, String.eqb_eq, Z.geb_le, Z.leb_le.
    tauto. }
  assert (Happts : forall a, In a appts <->
            In a (appointments s) /\
            Appointment.doctorId a = doctorId /\
            startDate <= Appointment.startTime a /\
            Appointment.endTime a <= endDate /\
            Appointment.status a <> "CANCELLED" /\
            Appointment.status a <> "NO_SHOW").
  { intros a. unfold appts.
    rewrite filter_In, !andb_true_iff, String.eqb_eq, Z.geb_le, Z.leb_le,
      occupiesTime_spec. tauto. }
  pose proof (generateAvailabilitySlots_cases ws es appts startDate endDate)
    as Hwalk.
  eexists. split; [reflexivity|].
  destruct (_generateAvailabilitySlots ws es appts startDate endDate)
    as [answer|thrown].
  - destruct Hwalk as [Hdays Hin]. split.
    + intros err. split; [discriminate|].
      intros (_ & k & sch & Hk & Hall & Hsch & Hd & Hdow & Hav & Hef & Hex
              & e & Hine & Hde & Hperiod & Hsame & Hl).
      cbn zeta in *. exfalso.
      destruct (Hdays k Hk) as (zs & Hzs).
      pose proof (availabilityOfDay_cases ws es appts
                    (startDate + Z.of_nat k * msPerDay)) as Hday.
      cbn zeta in Hday. rewrite Hzs in Hday. destruct Hday as [Hno _].
      apply (Hno (fun e' Hin' => Hall e' (proj1 (proj1 (Hes e') Hin'))
                    (proj1 (proj2 (proj1 (Hes e') Hin')))
                    (proj2 (proj2 (proj1 (Hes e') Hin'))))) with (e := e).
      * exists sch. split; [apply Hws; tauto | exact Hdow].
      * apply Hes. tauto.
      * exact Hsame.
      * exact Hl.
    + intros slots Hslots sl Hsl. inversion Hslots; subst slots.
      destruct (Hin sl Hsl) as (k & zs & Hk & Hzs & Hz). exists k.
      pose proof (availabilityOfDay_cases ws es appts
                    (startDate + Z.of_nat k * msPerDay)) as Hday.
      cbn zeta in Hday. rewrite Hzs in Hday. destruct Hday as [_ Hday].
      destruct (Hday sl Hz) as (Hdate & Hexc & sch & Hsch & Hdow & Hinst).
      exists sch. cbn zeta. apply Hws in Hsch.
      destruct Hsch as (Hsch & Hd & Hav & _).
      do 6 (split; [assumption|]). split.
      * intros e Hine Hde Hperiod Hsame. apply Hexc; [apply Hes; tauto|].
        exact Hsame.
      * intros t Ht. destruct (Hinst t Ht) as [Hhours Ha].
        split; [exact Hhours|].
        intros a Hina Hda Hc Hn Hst Hen Hsame. apply Ha; [| exact Hsame].
        apply Happts. tauto.
  - destruct Hwalk as (k & Hk & Hthrown).
    pose proof (availabilityOfDay_cases ws es appts
                  (startDate + Z.of_nat k * msPerDay)) as Hday.
    cbn zeta in Hday. rewrite Hthrown in Hday.
    destruct Hday as (-> & Hall & (sch & Hsch & Hdow) & e & Hine & Hsame & Hl).
    split; [| discriminate].
    intros err. split; [| intros [-> _]; reflexivity].
    intros H. inversion H; subst err. split; [reflexivity|].
    exists k, sch. cbn zeta. apply Hws in Hsch. apply Hes in Hine.
    split; [exact Hk|]. split.
    { intros e' Hine' Hde' Hperiod' Hsame'. apply Hall; [apply Hes; tauto|].
      exact Hsame'. }
    repeat (split; [tauto|]). exists e. tauto.
Qed.

Lemma toISODate_startOfDay (d : Z) : toISODate (startOfDay d) = toISODate d.
Proof.
  unfold startOfDay, toISODate. apply Z.div_mul. discriminate.
Qed.

Lemma startOfDay_idem (d : Z) : startOfDay (startOfDay d) = startOfDay d.
Proof. unfold startOfDay at 1. rewrite toISODate_startOfDay. reflexivity. Qed.

Lemma startOfDay_bounds (d : Z) : startOfDay d <= d < startOfDay d + msPerDay.
Proof.
  unfold startOfDay, toISODate.
  pose proof (Z.mod_pos_bound d msPerDay ltac:(reflexivity)).
  pose proof (Z.div_mod d msPerDay ltac:(discriminate)). lia.
Qed.

Lemma toISODate_within (day t : Z) :
  startOfDay day <= t < startOfDay day + msPerDay ->
  toISODate t = toISODate day.
Proof.
  unfold startOfDay, toISODate. intros H.
  symmetry. apply (Z.div_unique t msPerDay (day / msPerDay)
                     (t - day / msPerDay * msPerDay)); lia.
Qed.

Lemma setHours_within (day : Z) (c : ClockTime) :
  validClock c ->
  startOfDay day <= setHours day c <= startOfDay day + msPerDay - 60000.
Proof.
  unfold validClock, setHours. change msPerHour with 3600000.
  change msPerDay with 86400000. lia.
Qed.

(** The clock time of an instant of the day against a clock time of that
    day. *)
Lemma clock_leb_toTimeString (day t : Z) (c : ClockTime) :
  validClock c ->
  setHours day c <= t < startOfDay day + msPerDay ->
  clock_leb c (toTimeString t) = true.
Proof.
  intros Hc Ht. pose proof (setHours_within day c Hc) as Hw.
  unfold validClock, setHours in *.
  set (x := t - startOfDay day).
  assert (Hx : 0 <= x < msPerDay) by (unfold x; lia).
  assert (Hmod : t mod msPerDay = x).
  { symmetry. apply (Z.mod_unique t msPerDay (toISODate day) x); [lia|].
    unfold x, startOfDay. ring. }
  assert (Hmodh : t mod msPerHour = x mod msPerHour).
  { replace t with (x + toISODate day * 24 * msPerHour)
      by (unfold x, startOfDay, msPerDay; ring).
    apply Z.mod_add. discriminate. }
  unfold clock_leb, toTimeString. cbn [hour minute]. rewrite Hmod, Hmodh.
  change msPerHour with 3600000 in *. change msPerDay with 86400000 in *.
  assert (Hle : hour c * 3600000 + minute c * 60000 <= x) by (unfold x; lia).
  assert (Hq : hour c <= x / 3600000).
  { apply Z.div_le_lower_bound; lia. }
  destruct (Z.ltb_spec0 (hour c) (x / 3600000)); [reflexivity|].
  assert (Heq : hour c = x / 3600000) by lia.
  rewrite Heq, Z.eqb_refl. cbn [orb andb]. apply Z.leb_le.
  apply Z.div_le_lower_bound; [lia|].
  pose proof (Z.div_mod x 3600000 ltac:(discriminate)). lia.
Qed.

Lemma toTimeString_clock_leb (day t : Z) (c : ClockTime) :
  validClock c ->
  startOfDay day <= t <= setHours day c ->
  clock_leb (toTimeString t) c = true.
Proof.
  intros Hc Ht. pose proof (setHours_within day c Hc) as Hw.
  unfold validClock, setHours in *.
  set (x := t - startOfDay day).
  assert (Hx : 0 <= x < msPerDay) by (unfold x; change msPerDay with 86400000 in *; lia).
  assert (Hmod : t mod msPerDay = x).
  { symmetry. apply (Z.mod_unique t msPerDay (toISODate day) x); [lia|].
    unfold x, startOfDay. ring. }
  assert (Hmodh : t mod msPerHour = x mod msPerHour).
  { replace t with (x + toISODate day * 24 * msPerHour)
      by (unfold x, startOfDay, msPerDay; ring).
    apply Z.mod_add. discriminate. }
  unfold clock_leb, toTimeString. cbn [hour minute]. rewrite Hmod, Hmodh.
  change msPerHour with 3600000 in *. change msPerDay with 86400000 in *.
  assert (Hle : x <= hour c * 3600000 + minute c * 60000) by (unfold x; lia).
  assert (Hq : x / 3600000 <= hour c).
  { assert (x / 3600000 < hour c + 1); [| lia].
    apply Z.div_lt_upper_bound; lia. }
  destruct (Z.ltb_spec0 (x / 3600000) (hour c)); [reflexivity|].
  assert (Heq : x / 3600000 = hour c) by lia.
  rewrite Heq, Z.eqb_refl. cbn [orb andb]. apply Z.leb_le.
  assert (x mod 3600000 / (60 * 1000) < minute c + 1); [| lia].
  apply Z.div_lt_upper_bound; [lia|].
  pose proof (Z.div_mod x 3600000 ltac:(discriminate)). lia.
Qed.

(** X19: every slot that [getAvailableTimeSlots] offers is one that
    [isTimeSlotAvailable] accepts, for a positive duration and a store in
    which the schedule entries of the doctor have clock times of the day and
    do not expire before the end of the requested day, the partial exceptions
    of the doctor that have both of their times start before they end, and
    the occupying appointments of the doctor are intervals that end on the
    day on which they start. *)
Theorem offered_slot_is_available (doctorId : Id) (date duration : Z)
    (s s1 : Store) (slots : list Slot) (sl : Slot) :
  0 < duration ->
  (forall sch, In sch (doctorSchedules s) ->
     DoctorSchedule.doctorId sch = doctorId ->
     validClock (DoctorSchedule.startTime sch) /\
     validClock (DoctorSchedule.endTime sch) /\
     forall d, DoctorSchedule.expiryDate sch = Some d ->
               endOfDay (startOfDay date) <= d) ->
  (forall e, In e (scheduleExceptions s) ->
     ScheduleException.doctorId e = doctorId ->
     ScheduleException.isFullDay e = false ->
     forall st en,
       ScheduleException.startTime e = Some st ->
       ScheduleException.endTime e = Some en ->
       setHours date st < setHours date en) ->
  (forall a, In a (appointments s) ->
     Appointment.doctorId a = doctorId ->
     Appointment.status a <> "CANCELLED" ->
     Appointment.status a <> "NO_SHOW" ->
     Appointment.startTime a < Appointment.endTime a /\
     Appointment.endTime a <= endOfDay (Appointment.startTime a)) ->
  call (getAvailableTimeSlots doctorId date duration) s
    = (s1, Returned slots) ->
  In sl slots ->
  call (isTimeSlotAvailable doctorId (startTime sl) (endTime sl)) s
    = (s, Returned true).
Proof.
  intros Hdur Hsched Hexc Happ Hcall Hin.
  destruct (getAvailableTimeSlots_slots doctorId date duration s)
    as (outcome & Hcall' & _ & _ & Hslots).
  rewrite Hcall in Hcall'. inversion Hcall'; subst s1 outcome. clear Hcall'.
  destruct (Hslots slots eq_refl sl Hin)
    as (Hlen & sch & Hsin & Hsd & Hdow & Hav & Heff & Hexp & Hexcs & Hpt).
  clear Hslots.
  destruct (Hsched sch Hsin Hsd) as (Hc1 & Hc2 & Hexpiry).
  set (day := startOfDay date) in *.
  assert (Hday : startOfDay day = day) by apply startOfDay_idem.
  pose proof (setHours_within day _ Hc1) as Hlo.
  pose proof (setHours_within day _ Hc2) as Hhi.
  rewrite Hday in Hlo, Hhi.
  set (a := startTime sl) in *. set (b := endTime sl) in *.
  assert (Hab : a < b) by (unfold msPerMinute in Hlen; lia).
  destruct (Hpt a ltac:(lia)) as (Ha & _).
  destruct (Hpt (b - 1) ltac:(lia)) as (Hb & _).
  assert (Hin_day : day <= a /\ b <= day + msPerDay - 60000) by lia.
  assert (Hsod : startOfDay a = day).
  { unfold startOfDay at 1. rewrite (toISODate_within day a).
    - exact Hday.
    - rewrite Hday. change msPerDay with 86400000 in *. lia. }
  assert (Hset : forall c, setHours a c = setHours day c).
  { intros c. unfold setHours. rewrite Hsod, Hday. reflexivity. }
  assert (Hset' : forall c, setHours date c = setHours day c).
  { intros c. unfold setHours. rewrite Hday. reflexivity. }
  destruct (isTimeSlotAvailable_answer doctorId a b s)
    as (answer & Hrun & Hiff & _).
  rewrite Hrun. f_equal. apply Hiff. clear Hrun Hiff.
  repeat apply conj.
  - exists sch. repeat apply conj; auto.
    + rewrite Hdow. unfold getDay. f_equal. f_equal.
      symmetry. apply toISODate_within. rewrite Hday.
      change msPerDay with 86400000 in *. lia.
    + apply (clock_leb_toTimeString day); [exact Hc1|]. rewrite Hday.
      change msPerDay with 86400000 in *. lia.
    + apply (toTimeString_clock_leb day); [exact Hc2|]. rewrite Hday. lia.
    + intros d Hd. specialize (Heff d Hd). lia.
    + intros d Hd. specialize (Hexpiry d Hd). unfold endOfDay in Hexpiry.
      fold day in Hexpiry. rewrite Hday in Hexpiry.
      change msPerDay with 86400000 in *. lia.
  - intros e Hine Hde Hdate. rewrite Hsod in Hdate.
    assert (Hrange : day <= ScheduleException.date e <= endOfDay day).
    { unfold endOfDay. rewrite Hday, Hdate.
      change msPerDay with 86400000. lia. }
    destruct (Hexcs e Hine Hde Hrange)
      as (Hpartial & st & en & Hst & Hen & Hno).
    split; [exact Hpartial|]. exists st, en.
    split; [exact Hst|]. split; [exact Hen|].
    specialize (Hexc e Hine Hde Hpartial st en Hst Hen).
    rewrite !Hset' in Hexc. rewrite !Hset.
    destruct (Z_le_gt_dec b (setHours day st)); [left; assumption|].
    destruct (Z_le_gt_dec (setHours day en) a); [right; assumption|].
    exfalso.
    apply (Hno (Z.max a (setHours day st))); lia.
  - intros x Hinx Hdx Hcx Hnx.
    destruct (Happ x Hinx Hdx Hcx Hnx) as (Hwf & Hone).
    destruct (Z_le_gt_dec b (Appointment.startTime x)); [left; assumption|].
    destruct (Z_le_gt_dec (Appointment.endTime x) a); [right; assumption|].
    exfalso.
    pose proof (startOfDay_bounds (Appointment.startTime x)) as Hbx.
    unfold endOfDay in Hone.
    assert (Hsame : startOfDay (Appointment.startTime x) = day).
    { unfold startOfDay in *. fold day in Hday.
      unfold day, startOfDay in *.
      change msPerDay with 86400000 in *.
      assert (toISODate (Appointment.startTime x) = toISODate date) by lia.
      congruence. }
    rewrite Hsame in *.
    destruct (Hpt (Z.max a (Appointment.startTime x)) ltac:(lia))
      as (_ & Hax).
    apply (Hax x Hinx Hdx Hcx Hnx); unfold endOfDay; rewrite ?Hday; lia.
Qed.

(** The theorem on the Monday of the practice with the lunch break and the
    confirmed appointment: the first slot offered, 09:00-09:30, is
    accepted. *)
Lemma offered_slot_is_available_witness :
  call (isTimeSlotAvailable "doc-1" (at_ monday 9 0) (at_ monday 9 30))
       (store [existing "CONFIRMED"] [lunch])
  = (store [existing "CONFIRMED"] [lunch], Returned true).
Proof.
  refine (offered_slot_is_available "doc-1" (at_ monday 0 0) 30
    (store [existing "CONFIRMED"] [lunch])
    (fst (call (getAvailableTimeSlots "doc-1" (at_ monday 0 0) 30)
               (store [existing "CONFIRMED"] [lunch])))
    (match snd (call (getAvailableTimeSlots "doc-1" (at_ monday 0 0) 30)
                     (store [existing "CONFIRMED"] [lunch])) with
     | Returned l => l
     | Thrown _ => []
     end)
    {| startTime := at_ monday 9 0; endTime := at_ monday 9 30 |}
    _ _ _ _ _ _).
  - reflexivity.
  - intros sch [<- | []] _. unfold validClock. simpl.
    repeat split; try lia. discriminate.
  - intros e [<- | []] _ _ st en Hst Hen.
    vm_compute in Hst, Hen. inversion Hst; inversion Hen; subst.
    vm_compute. reflexivity.
  - intros a [<- | []] _ _ _. split; vm_compute; [reflexivity | discriminate].
  - vm_compute. reflexivity.
  - vm_compute. left. reflexivity.
Defined.

End AvailabilityFacts.

Module AdminFacts.
Import Db Dates AppointmentService ScheduleService Booking Clinic.
Import Outcomes AppointmentFacts ScheduleFacts.
Local Open Scope string_scope.
Local Open Scope Z_scope.
Local Open Scope prog_scope.

Lemma ofPractice_spec (s : Store) (doctorId practiceId : Id) :
  ScheduleAdmin.ofPractice s doctorId practiceId = true <->
  doctorOf s doctorId practiceId.
Proof.
  unfold ScheduleAdmin.ofPractice, doctorOf. rewrite existsb_exists.
  split; intros (doc & Hin & H); exists doc;
    rewrite andb_true_iff, !String.eqb_eq in *; tauto.
Qed.

Lemma NoDup_key_inj {A} (key : A -> Id) (l : list A) (a b : A) :
  NoDup (map key l) -> In a l -> In b l -> key a = key b -> a = b.
Proof.
  induction l as [|x l IH]; intros Hnd Ha Hb Hk; [destruct Ha|].
  inversion Hnd as [|? ? Hx Hl]; subst.
  destruct Ha as [-> | Ha], Hb as [-> | Hb]; auto.
  - exfalso. apply Hx. rewrite Hk. apply in_map, Hb.
  - exfalso. apply Hx. rewrite <- Hk. apply in_map, Ha.
Qed.

Lemma filter_other_id {A} (key : A -> Id) (id : Id) (l : list A) (r r' : A) :
  NoDup (map key l) -> In r l -> In r' l -> key r' = id -> r' <> r ->
  In r (filter (fun x => negb (String.eqb (key x) id)) l).
Proof.
  intros Hnd Hr Hr' Hk Hne. apply filter_In. split; [exact Hr|].
  rewrite negb_true_iff, String.eqb_neq. intros Hkr. apply Hne.
  apply (NoDup_key_inj key l); auto. congruence.
Qed.

(** X20: a practice cannot delete the weekly template of a doctor that is not
    one of its own: the call leaves such a row in the table whatever id it is
    given, and rejects the row's own id with "Schedule item not found or
    unauthorized". No call changes the appointments or the exceptions. *)
Theorem deleteScheduleItem_authorization (scheduleId practiceId : Id)
    (s : Store) (r : DoctorSchedule.t) :
  NoDup (map DoctorSchedule.id (doctorSchedules s)) ->
  In r (doctorSchedules s) ->
  ~ doctorOf s (DoctorSchedule.doctorId r) practiceId ->
  let s' := fst (call (deleteScheduleItem scheduleId practiceId) s) in
  In r (doctorSchedules s') /\
  appointments s' = appointments s /\
  scheduleExceptions s' = scheduleExceptions s /\
  (DoctorSchedule.id r = scheduleId ->
   call (deleteScheduleItem scheduleId practiceId) s
   = (s, Thrown (PlainError "Schedule item not found or unauthorized"))).
Proof.
  intros Hnd Hr Hnot. unfold call, deleteScheduleItem.
  rewrite run_await. cbn [exec fst snd].
  match goal with |- context [find ?f (doctorSchedules s)] => set (owned := f) end.
  assert (Hown : owned r = false).
  { unfold owned. apply andb_false_iff. right.
    destruct (existsb _ (doctors s)) eqn:E; [| reflexivity].
    exfalso. apply Hnot, ofPractice_spec. exact E. }
  destruct (find owned (doctorSchedules s)) as [r'|] eqn:Ef;
    cbn [orThrow bind await run exec fst snd].
  - destruct (find_some _ _ Ef) as [Hr' Hp].
    repeat apply conj; try reflexivity.
    + apply (filter_other_id DoctorSchedule.id scheduleId _ r r' Hnd Hr Hr').
      * unfold owned in Hp. apply andb_true_iff in Hp.
        apply String.eqb_eq, Hp.
      * intros ->. congruence.
    + intros Hid. exfalso.
      assert (r' = r).
      { apply (NoDup_key_inj DoctorSchedule.id (doctorSchedules s)); auto.
        unfold owned in Hp. apply andb_true_iff in Hp. destruct Hp as [Hp _].
        apply String.eqb_eq in Hp. congruence. }
      subst. congruence.
  - repeat apply conj; auto.
Qed.

(** The theorem on the template of the practice's doctor and a request of
    another practice. *)
Lemma deleteScheduleItem_authorization_witness :
  call (deleteScheduleItem "ds-1" "practice-2") (store [] [])
  = (store [] [],
     Thrown (PlainError "Schedule item not found or unauthorized")).
Proof.
  refine (proj2 (proj2 (proj2 (deleteScheduleItem_authorization "ds-1"
    "practice-2" (store [] [])
    {| DoctorSchedule.id := "ds-1"; DoctorSchedule.doctorId := "doc-1";
       DoctorSchedule.dayOfWeek := 1;
       DoctorSchedule.startTime := {| hour := 9; minute := 0 |};
       DoctorSchedule.endTime := {| hour := 17; minute := 0 |};
       DoctorSchedule.isAvailable := true;
       DoctorSchedule.effectiveDate := None;
       DoctorSchedule.expiryDate := None |} _ _ _))) _).
  - repeat constructor. simpl. tauto.
  - left. reflexivity.
  - intros (doc & [<- | []] & _ & H). discriminate H.
  - reflexivity.
Defined.

(** X21: the same for [removeScheduleException]: an exception of a doctor that
    is not one of the practice's stays in the table, and its own id is
    rejected with "Exception not found or unauthorized". *)
Theorem removeScheduleException_authorization (exceptionId practiceId : Id)
    (s : Store) (r : ScheduleException.t) :
  NoDup (map ScheduleException.id (scheduleExceptions s)) ->
  In r (scheduleExceptions s) ->
  ~ doctorOf s (ScheduleException.doctorId r) practiceId ->
  let s' :=
    fst (run ScheduleAdmin.exec
           (ScheduleAdmin.removeScheduleException exceptionId practiceId) s) in
  In r (scheduleExceptions s') /\
  appointments s' = appointments s /\
  doctorSchedules s' = doctorSchedules s /\
  (ScheduleException.id r = exceptionId ->
   run ScheduleAdmin.exec
       (ScheduleAdmin.removeScheduleException exceptionId practiceId) s
   = (s, Thrown ScheduleAdmin.exceptionNotFound)).
Proof.
  intros Hnd Hr Hnot. unfold ScheduleAdmin.removeScheduleException.
  rewrite run_await. cbn [ScheduleAdmin.exec fst snd].
  match goal with |- context [find ?f (scheduleExceptions s)] =>
    set (owned := f) end.
  assert (Hown : owned r = false).
  { unfold owned. apply andb_false_iff. right.
    destruct (ScheduleAdmin.ofPractice s _ practiceId) eqn:E; [| reflexivity].
    exfalso. apply Hnot, ofPractice_spec. exact E. }
  destruct (find owned (scheduleExceptions s)) as [r'|] eqn:Ef;
    cbn [orThrow bind await run ScheduleAdmin.exec fst snd].
  - destruct (find_some _ _ Ef) as [Hr' Hp].
    assert (Hid' : ScheduleException.id r' = exceptionId).
    { unfold owned in Hp. apply andb_true_iff in Hp. apply String.eqb_eq, Hp. }
    repeat apply conj; try reflexivity.
    + apply (filter_other_id ScheduleException.id exceptionId _ r r'
               Hnd Hr Hr' Hid').
      intros ->. congruence.
    + intros Hid. exfalso.
      assert (r' = r)
        by (apply (NoDup_key_inj ScheduleException.id (scheduleExceptions s));
            auto; congruence).
      subst. congruence.
  - repeat apply conj; auto.
Qed.

(** The theorem on the day off of the practice's doctor and a request of
    another practice. *)
Lemma removeScheduleException_authorization_witness :
  run ScheduleAdmin.exec
      (ScheduleAdmin.removeScheduleException "ex-1" "practice-2")
      (store [] [dayOff])
  = (store [] [dayOff], Thrown ScheduleAdmin.exceptionNotFound).
Proof.
  refine (proj2 (proj2 (proj2 (removeScheduleException_authorization "ex-1"
    "practice-2" (store [] [dayOff]) dayOff _ _ _))) _).
  - repeat constructor. simpl. tauto.
  - left. reflexivity.
  - intros (doc & [<- | []] & _ & H). discriminate H.
  - reflexivity.
Defined.

Lemma createSlots_run (doctorId : Id)
    (scheduleItems : list ScheduleAdmin.ScheduleItem.t) :
  forall s,
    (Forall (fun item => clock_leb (ScheduleAdmin.ScheduleItem.endTime item)
                           (ScheduleAdmin.ScheduleItem.startTime item) = false)
            scheduleItems ->
     exists s' rows,
       run ScheduleAdmin.exec (ScheduleAdmin.createSlots doctorId scheduleItems) s
         = (s', Returned rows) /\
       doctorSchedules s' = (doctorSchedules s ++ rows)%list /\
       created s' = (created s + List.length scheduleItems)%nat /\
       doctors s' = doctors s /\ services s' = services s /\
       patients s' = patients s /\ appointments s' = appointments s /\
       schedules s' = schedules s /\
       scheduleExceptions s' = scheduleExceptions s /\
       map DoctorSchedule.id rows
         = map ScheduleAdmin.freshRow
               (seq (created s) (List.length scheduleItems)) /\
       Forall2 (fun item row =>
                  DoctorSchedule.doctorId row = doctorId /\
                  DoctorSchedule.dayOfWeek row
                    = ScheduleAdmin.ScheduleItem.dayOfWeek item /\
                  DoctorSchedule.startTime row
                    = ScheduleAdmin.ScheduleItem.startTime item /\
                  DoctorSchedule.endTime row
                    = ScheduleAdmin.ScheduleItem.endTime item /\
                  DoctorSchedule.isAvailable row
                    = ScheduleAdmin.ScheduleItem.isAvailable item /\
                  DoctorSchedule.effectiveDate row
                    = ScheduleAdmin.ScheduleItem.effectiveDate item /\
                  DoctorSchedule.expiryDate row
                    = ScheduleAdmin.ScheduleItem.expiryDate item)
               scheduleItems rows) /\
    (Exists (fun item => clock_leb (ScheduleAdmin.ScheduleItem.endTime item)
                           (ScheduleAdmin.ScheduleItem.startTime item) = true)
            scheduleItems ->
     snd (run ScheduleAdmin.exec
            (ScheduleAdmin.createSlots doctorId scheduleItems) s)
       = Thrown ScheduleAdmin.invalidTimes).
Proof.
  induction scheduleItems as [|item rest IH]; intros s.
  - split.
    + intros _. exists s, []. cbn. rewrite app_nil_r, Nat.add_0_r.
      repeat apply conj; auto.
    + intros H. inversion H.
  - cbn [ScheduleAdmin.createSlots]. rewrite run_throwIf.
    destruct (clock_leb (ScheduleAdmin.ScheduleItem.endTime item)
                        (ScheduleAdmin.ScheduleItem.startTime item)) eqn:Ec.
    + split; [| reflexivity].
      intros H. inversion H; subst. congruence.
    + rewrite run_await. cbn [ScheduleAdmin.exec fst snd]. rewrite run_bind.
      match goal with |- context [run ScheduleAdmin.exec
                                    (ScheduleAdmin.createSlots doctorId rest) ?s1] =>
        destruct (IH s1) as [IHok IHbad];
        destruct (run ScheduleAdmin.exec
                    (ScheduleAdmin.createSlots doctorId rest) s1)
          as [s2 [rows|e]] eqn:Er
      end.
      * split.
        -- intros H. inversion H as [|? ? _ Hrest]; subst.
           destruct (IHok Hrest)
             as (s' & rows' & Heq & Hds & Hcr & Hd & Hsv & Hp & Ha & Hsc & Hex
                 & Hids & Hrows).
           inversion Heq; subst s' rows'. cbn [run].
           eexists. eexists. split; [reflexivity|].
           cbn [doctorSchedules created doctors services patients appointments
                schedules scheduleExceptions] in *.
           repeat apply conj; auto.
           ++ rewrite Hds, <- app_assoc. reflexivity.
           ++ rewrite Hcr. cbn [List.length]. lia.
           ++ cbn [map List.length seq]. rewrite Hids. reflexivity.
           ++ constructor; [repeat apply conj; reflexivity | exact Hrows].
        -- intros H. inversion H; subst; [congruence|].
           specialize (IHbad H1). cbn [snd] in IHbad. discriminate.
      * split.
        -- intros H. inversion H as [|? ? _ Hrest]; subst.
           destruct (IHok Hrest) as (s' & rows' & Heq & _). discriminate.
        -- intros H. inversion H; subst; [congruence|].
           specialize (IHbad H1). cbn [snd] in IHbad. rewrite IHbad.
           reflexivity.
Qed.

(** X22: [setDoctorSchedule] is all or nothing. Without a doctor of that id in
    the practice it throws and changes nothing; with one item whose end time
    is not after its start time it throws and changes nothing, whatever rows
    came before that item; otherwise it appends one row per item, in order and
    with the item's fields, to the rows the doctor already has, and touches no
    other table. *)
Theorem setDoctorSchedule_all_or_nothing (doctorId : Id)
    (scheduleItems : list ScheduleAdmin.ScheduleItem.t) (practiceId : Id)
    (s : Store) :
  let inverted item :=
    clock_leb (ScheduleAdmin.ScheduleItem.endTime item)
              (ScheduleAdmin.ScheduleItem.startTime item) in
  (~ doctorOf s doctorId practiceId ->
   ScheduleAdmin.setDoctorSchedule doctorId scheduleItems practiceId s
   = (s, Thrown ScheduleAdmin.doctorNotInPractice)) /\
  (doctorOf s doctorId practiceId ->
   Exists (fun item => inverted item = true) scheduleItems ->
   ScheduleAdmin.setDoctorSchedule doctorId scheduleItems practiceId s
   = (s, Thrown ScheduleAdmin.invalidTimes)) /\
  (doctorOf s doctorId practiceId ->
   Forall (fun item => inverted item = false) scheduleItems ->
   exists s' rows,
     ScheduleAdmin.setDoctorSchedule doctorId scheduleItems practiceId s
     = (s', Returned rows) /\
     doctorSchedules s' = (doctorSchedules s ++ rows)%list /\
     appointments s' = appointments s /\
     scheduleExceptions s' = scheduleExceptions s /\
     doctors s' = doctors s /\
     Forall2 (fun item row =>
                DoctorSchedule.doctorId row = doctorId /\
                DoctorSchedule.dayOfWeek row
                  = ScheduleAdmin.ScheduleItem.dayOfWeek item /\
                DoctorSchedule.startTime row
                  = ScheduleAdmin.ScheduleItem.startTime item /\
                DoctorSchedule.endTime row
                  = ScheduleAdmin.ScheduleItem.endTime item /\
                DoctorSchedule.isAvailable row
                  = ScheduleAdmin.ScheduleItem.isAvailable item /\
                DoctorSchedule.effectiveDate row
                  = ScheduleAdmin.ScheduleItem.effectiveDate item /\
                DoctorSchedule.expiryDate row
                  = ScheduleAdmin.ScheduleItem.expiryDate item)
             scheduleItems rows).
Proof.
  intros inverted.
  unfold ScheduleAdmin.setDoctorSchedule, ScheduleAdmin.transaction.
  rewrite run_await. cbn [ScheduleAdmin.exec fst snd].
  assert (Hdoc : isSome (find (fun d => String.eqb (Doctor.id d) doctorId
                     && String.eqb (Doctor.practiceId d) practiceId)
                    (doctors s)) = true <-> doctorOf s doctorId practiceId).
  { rewrite isSome_find. unfold doctorOf.
    split; intros (doc & Hin & H); exists doc;
      rewrite andb_true_iff, !String.eqb_eq in *; tauto. }
  destruct (find _ (doctors s)) as [doc|]; cbn [isSome] in Hdoc;
    rewrite run_orThrow.
  2:{ repeat apply conj; [reflexivity | |]; intros H; apply Hdoc in H;
        discriminate. }
  destruct (createSlots_run doctorId scheduleItems s) as [Hok Hbad].
  repeat apply conj.
  - intros H. exfalso. apply H, Hdoc. reflexivity.
  - intros _ H. specialize (Hbad H).
    destruct (run ScheduleAdmin.exec _ s) as [s' [rows|e]];
      cbn [snd] in Hbad; [discriminate|]. congruence.
  - intros _ H.
    destruct (Hok H) as (s' & rows & Heq & Hds & _ & Hd & _ & _ & Ha & _ & Hex
                         & _ & Hrows).
    exists s', rows. rewrite Heq. repeat apply conj; auto.
Qed.

(** X23: [addScheduleException] throws and changes nothing without a doctor of
    that id in the practice. Otherwise it appends the exception and no other
    row; a full-day exception whose date falls within a day empties
    [getAvailableTimeSlots] for that day, and one dated at the midnight of an
    interval's start makes [isTimeSlotAvailable] answer no. *)
Theorem addScheduleException_blocks_day (doctorId : Id)
    (exceptionData : ScheduleAdmin.ExceptionData.t) (s : Store) :
  (~ doctorOf s doctorId (ScheduleAdmin.ExceptionData.practiceId exceptionData) ->
   run ScheduleAdmin.exec
       (ScheduleAdmin.addScheduleException doctorId exceptionData) s
   = (s, Thrown ScheduleAdmin.doctorNotAssociated)) /\
  (doctorOf s doctorId (ScheduleAdmin.ExceptionData.practiceId exceptionData) ->
   exists s' e,
     run ScheduleAdmin.exec
         (ScheduleAdmin.addScheduleException doctorId exceptionData) s
     = (s', Returned e) /\
     scheduleExceptions s' = (scheduleExceptions s ++ [e])%list /\
     appointments s' = appointments s /\
     doctorSchedules s' = doctorSchedules s /\
     ScheduleException.doctorId e = doctorId /\
     ScheduleException.date e = ScheduleAdmin.ExceptionData.date exceptionData /\
     ScheduleException.isFullDay e
       = ScheduleAdmin.ExceptionData.isFullDay exceptionData /\
     (ScheduleAdmin.ExceptionData.isFullDay exceptionData = true ->
      (forall date duration,
         startOfDay date <= ScheduleAdmin.ExceptionData.date exceptionData
           <= endOfDay (startOfDay date) ->
         call (getAvailableTimeSlots doctorId date duration) s'
         = (s', Returned [])) /\
      (forall startTime endTime,
         ScheduleAdmin.ExceptionData.date exceptionData = startOfDay startTime ->
         call (isTimeSlotAvailable doctorId startTime endTime) s'
         = (s', Returned false)))).
Proof.
  unfold ScheduleAdmin.addScheduleException.
  rewrite run_await. cbn [ScheduleAdmin.exec fst snd].
  assert (Hdoc : isSome (find (fun d => String.eqb (Doctor.id d) doctorId
                     && String.eqb (Doctor.practiceId d)
                          (ScheduleAdmin.ExceptionData.practiceId exceptionData))
                    (doctors s)) = true
                 <-> doctorOf s doctorId
                       (ScheduleAdmin.ExceptionData.practiceId exceptionData)).
  { rewrite isSome_find. unfold doctorOf.
    split; intros (doc & Hin & H); exists doc;
      rewrite andb_true_iff, !String.eqb_eq in *; tauto. }
  destruct (find _ (doctors s)) as [doc|]; cbn [isSome] in Hdoc;
    rewrite run_orThrow.
  2:{ split; [reflexivity|]. intros H. apply Hdoc in H. discriminate. }
  split; [intros H; exfalso; apply H, Hdoc; reflexivity|]. intros _.
  cbn [await run ScheduleAdmin.exec].
  eexists. eexists. split; [reflexivity|].
  cbn [scheduleExceptions appointments doctorSchedules
       ScheduleException.doctorId ScheduleException.date
       ScheduleException.isFullDay].
  do 6 (split; [reflexivity|]).
  intros Hfull. split.
  - intros date duration Hdate.
    unfold call, getAvailableTimeSlots.
    rewrite run_await. cbn [exec fst snd].
    rewrite run_await. cbn [exec fst snd scheduleExceptions].
    match goal with |- context [find ScheduleException.isFullDay ?es] =>
      destruct (find_exists ScheduleException.isFullDay es) as [y Hy] end.
    { eexists. split.
      - apply filter_In. split; [apply in_or_app; right; left; reflexivity|].
        cbn [ScheduleException.doctorId ScheduleException.date].
        rewrite String.eqb_refl, !andb_true_iff, Z.geb_le, Z.leb_le. tauto.
      - exact Hfull. }
    rewrite Hy. reflexivity.
  - intros startTime endTime Hdate.
    eapply isTimeSlotAvailable_respects_exceptions.
    + cbn [scheduleExceptions]. apply in_or_app; right; left; reflexivity.
    + reflexivity.
    + exact Hdate.
    + exact Hfull.
Qed.

(** A partial exception for which the request gives no times is stored
    without them, and the three availability computations of its day then
    throw the TypeError of reading a time that is null. *)
Example partial_exception_without_times :
  let exceptionData :=
    {| ScheduleAdmin.ExceptionData.date := at_ monday 0 0;
       ScheduleAdmin.ExceptionData.isFullDay := false;
       ScheduleAdmin.ExceptionData.startTime := None;
       ScheduleAdmin.ExceptionData.endTime := None;
       ScheduleAdmin.ExceptionData.practiceId := "practice-1" |} in
  let s := fst (run ScheduleAdmin.exec
                  (ScheduleAdmin.addScheduleException "doc-1" exceptionData)
                  (store [] [])) in
  List.length (scheduleExceptions s) = 1%nat /\
  (forall e, In e (scheduleExceptions s) ->
     ScheduleException.isFullDay e = false /\ lacksTime e) /\
  snd (call (isTimeSlotAvailable "doc-1" (at_ monday 9 0) (at_ monday 9 30)) s)
    = Thrown splitOfNull /\
  snd (call (getAvailableTimeSlots "doc-1" (at_ monday 0 0) 30) s)
    = Thrown splitOfNull /\
  snd (call (getDoctorSchedule "doc-1" (at_ monday 0 0) (at_ monday 23 0)) s)
    = Thrown splitOfNull.
Proof.
  cbn zeta. split; [reflexivity|]. split.
  - intros e [<- | []]. split; [reflexivity | left; reflexivity].
  - repeat split; vm_compute; reflexivity.
Qed.

End AdminFacts.

(* ===================================================================== *)
(** * Further properties of the schedule controller                      *)
(* ===================================================================== *)

Module ControllerMore.
Import AppointmentFacts Clinic ScheduleController AdminFacts.
Local Open Scope string_scope.
Local Open Scope Z_scope.
Local Open Scope prog_scope.

(** X24: the handler deletes only within the practice of the request: an entry
    of another practice stays in the table whatever id is asked for, its own
    id is answered with "Schedule not found", and no request changes the
    appointments. *)
Theorem deleteSchedule_other_practice (practiceId scheduleId : Id)
    (s : Store) (r : Schedule.t) :
  NoDup (map Schedule.id (schedules s)) ->
  In r (schedules s) ->
  Schedule.practiceId r <> practiceId ->
  let s' := fst (run exec (deleteSchedule practiceId scheduleId) s) in
  In r (schedules s') /\
  appointments s' = appointments s /\
  (Schedule.id r = scheduleId ->
   run exec (deleteSchedule practiceId scheduleId) s
   = (s, Thrown (NotFoundError "Schedule not found"))).
Proof.
  intros Hnd Hr Hnot. unfold deleteSchedule.
  rewrite run_await. cbn [exec fst snd].
  match goal with |- context [find ?f (schedules s)] => set (owned := f) end.
  assert (Hown : owned r = false).
  { unfold owned. apply andb_false_iff. right. apply String.eqb_neq, Hnot. }
  destruct (find owned (schedules s)) as [r'|] eqn:Ef; rewrite run_orThrow.
  - destruct (find_some _ _ Ef) as [Hr' Hp].
    assert (Hid' : Schedule.id r' = scheduleId).
    { unfold owned in Hp. apply andb_true_iff in Hp. apply String.eqb_eq, Hp. }
    rewrite run_await. cbn [exec fst snd]. rewrite run_throwIf.
    destruct (0 <? _); cbn [fst].
    + repeat apply conj; auto. intros Hid. exfalso.
      assert (r' = r)
        by (apply (NoDup_key_inj Schedule.id (schedules s)); auto; congruence).
      subst. congruence.
    + cbn [bind await run exec fst schedules appointments].
      repeat apply conj; try reflexivity.
      * apply (filter_other_id Schedule.id scheduleId _ r r' Hnd Hr Hr' Hid').
        intros ->. congruence.
      * intros Hid. exfalso.
        assert (r' = r)
          by (apply (NoDup_key_inj Schedule.id (schedules s)); auto; congruence).
        subst. congruence.
  - repeat apply conj; auto.
Qed.
(** The theorem on the entry of the practice and a request of another
    practice. *)
Lemma deleteSchedule_other_practice_witness :
  run exec (deleteSchedule "practice-2" "sched-1") (controllerStore [])
  = (controllerStore [], Thrown (NotFoundError "Schedule not found")).
Proof.
  refine (proj2 (proj2 (deleteSchedule_other_practice "practice-2" "sched-1"
    (controllerStore []) entry _ _ _)) _).
  - repeat constructor. simpl. tauto.
  - left. reflexivity.
  - discriminate.
  - reflexivity.
Defined.

End ControllerMore.

(* ===================================================================== *)
(** * Properties of the listings                                         *)
(* ===================================================================== *)

Module ListingFacts.
Import Dates AppointmentService Listing.
Local Open Scope string_scope.
Local Open Scope Z_scope.

(** The value that [x && { key: x }] leaves under the key. *)
Lemma keyHolds_truthy (x : option string) (value : string) :
  keyHolds (match x with
            | Some v => if truthy v then Some v else None
            | None => None
            end) value = true <->
  forall v, x = Some v -> v <> "" -> value = v.
Proof.
  destruct x as [v|]; cbn.
  - unfold truthy. destruct (String.eqb_spec v "") as [->|Hne]; cbn.
    + split; [| reflexivity]. intros _ w Hw Hne. inversion Hw; subst.
      contradiction.
    + rewrite String.eqb_eq. split.
      * intros -> w Hw _. inversion Hw. reflexivity.
      * intros H. apply H; [reflexivity | exact Hne].
  - split; [discriminate | reflexivity].
Qed.

Ltac by_truthiness :=
  unfold spreadString, spreadDate, spreadFlag;
  repeat match goal with
         | |- context [truthy ?v] => destruct (truthy v)
         end;
  reflexivity.

Lemma practiceWhere_keys (practiceId : Id) (options : PracticeOptions.t) :
  practiceWhere practiceId options =
  {| Where.practiceId := Some practiceId;
     Where.patientId :=
       match PracticeOptions.patientId options with
       | Some v => if truthy v then Some v else None
       | None => None
       end;
     Where.doctorId :=
       match PracticeOptions.doctorId options with
       | Some v => if truthy v then Some v else None
       | None => None
       end;
     Where.status :=
       match PracticeOptions.status options with
       | Some v => if truthy v then Some v else None
       | None => None
       end;
     Where.startTime :=
       match PracticeOptions.endDate options with
       | Some endDate => Some (lteOnly endDate)
       | None =>
           match PracticeOptions.startDate options with
           | Some startDate => Some (gteOnly startDate)
           | None => None
           end
       end |}.
Proof.
  destruct options as [[st|] [sd|] [ed|] [doc|] [pat|]]; unfold practiceWhere;
    cbn [PracticeOptions.status PracticeOptions.startDate
         PracticeOptions.endDate PracticeOptions.doctorId
         PracticeOptions.patientId];
    by_truthiness.
Qed.

(** X25: the appointments that [getAppointmentsByPractice] lists and counts
    are those of the practice that match the status, the doctor and the
    patient asked for and, when [endDate] is given, start at or before it; the
    [startDate] is a lower bound on the start only when no [endDate] is given,
    since the second [startTime] key replaces the first. *)
Theorem practice_listing_filter (practiceId : Id)
    (options : PracticeOptions.t) (a : Appointment.t) :
  selects (practiceWhere practiceId options) a = true <->
  Appointment.practiceId a = practiceId /\
  (forall v, PracticeOptions.status options = Some v -> v <> "" ->
             Appointment.status a = v) /\
  (forall v, PracticeOptions.doctorId options = Some v -> v <> "" ->
             Appointment.doctorId a = v) /\
  (forall v, PracticeOptions.patientId options = Some v -> v <> "" ->
             Appointment.patientId a = v) /\
  match PracticeOptions.endDate options with
  | Some endDate => Appointment.startTime a <= endDate
  | None =>
      forall startDate, PracticeOptions.startDate options = Some startDate ->
                        startDate <= Appointment.startTime a
  end.
Proof.
  rewrite practiceWhere_keys. unfold selects.
  cbn [Where.practiceId Where.patientId Where.doctorId Where.status
       Where.startTime].
  rewrite !andb_true_iff, !keyHolds_truthy. cbn [keyHolds].
  rewrite String.eqb_eq.
  assert (Hdate :
    dateHolds (match PracticeOptions.endDate options with
               | Some endDate => Some (lteOnly endDate)
               | None =>
                   match PracticeOptions.startDate options with
                   | Some startDate => Some (gteOnly startDate)
                   | None => None
                   end
               end) (Appointment.startTime a) = true <->
    match PracticeOptions.endDate options with
    | Some endDate => Appointment.startTime a <= endDate
    | None =>
        forall startDate, PracticeOptions.startDate options = Some startDate ->
                          startDate <= Appointment.startTime a
    end).
  { destruct (PracticeOptions.endDate options) as [e|];
      [| destruct (PracticeOptions.startDate options) as [sd|]]; cbn.
    - rewrite andb_true_r. apply Z.leb_le.
    - rewrite !andb_true_r, Z.geb_le. split.
      + intros H x Hx. inversion Hx; subst. exact H.
      + intros H. apply H. reflexivity.
    - split; [discriminate | reflexivity]. }
  rewrite Hdate. tauto.
Qed.

Lemma patientWhere_keys (now : Z) (patientId : Id)
    (options : PatientOptions.t) :
  patientWhere now patientId options =
  {| Where.practiceId := None;
     Where.patientId := Some patientId;
     Where.doctorId := None;
     Where.status :=
       match PatientOptions.status options with
       | Some v => if truthy v then Some v else None
       | None => None
       end;
     Where.startTime :=
       if PatientOptions.past options then Some (ltOnly now)
       else if PatientOptions.upcoming options then Some (gteOnly now)
       else None |}.
Proof.
  destruct options as [[st|] [|] [|]]; unfold patientWhere;
    cbn [PatientOptions.status PatientOptions.upcoming PatientOptions.past];
    by_truthiness.
Qed.

(** X26: the appointments that [getPatientAppointments] lists and counts are
    those of the patient that match the status asked for and, with [past],
    started before the clock; [upcoming] restricts the list to the
    appointments that start at or after the clock only when [past] is not set,
    so with both flags the list is that of the past appointments. *)
Theorem patient_listing_filter (now : Z) (patientId : Id)
    (options : PatientOptions.t) (a : Appointment.t) :
  selects (patientWhere now patientId options) a = true <->
  Appointment.patientId a = patientId /\
  (forall v, PatientOptions.status options = Some v -> v <> "" ->
             Appointment.status a = v) /\
  (if PatientOptions.past options then Appointment.startTime a < now
   else if PatientOptions.upcoming options
        then now <= Appointment.startTime a
        else True).
Proof.
  rewrite patientWhere_keys. unfold selects.
  cbn [Where.practiceId Where.patientId Where.doctorId Where.status
       Where.startTime].
  rewrite !andb_true_iff, !keyHolds_truthy. cbn [keyHolds].
  rewrite String.eqb_eq.
  destruct (PatientOptions.past options);
    [| destruct (PatientOptions.upcoming options)]; cbn;
    rewrite ?andb_true_r, ?Z.ltb_lt, ?Z.geb_le; tauto.
Qed.

Lemma doctorWhere_keys (doctorId : Id) (options : DoctorOptions.t) :
  doctorWhere doctorId options =
  {| Where.practiceId := None;
     Where.patientId := None;
     Where.doctorId := Some doctorId;
     Where.status :=
       match DoctorOptions.status options with
       | Some v => if truthy v then Some v else None
       | None => None
       end;
     Where.startTime :=
       match DoctorOptions.date options with
       | Some date =>
           Some {| DateFilter.gte := Some (startOfDay date);
                   DateFilter.lte := Some (endOfDay date);
                   DateFilter.lt := None |}
       | None => None
       end |}.
Proof.
  destruct options as [[st|] [date|]]; unfold doctorWhere;
    cbn [DoctorOptions.status DoctorOptions.date]; by_truthiness.
Qed.

Lemma same_day_iff (date t : Z) :
  startOfDay date <= t <= endOfDay date <-> toISODate t = toISODate date.
Proof.
  unfold endOfDay, startOfDay, toISODate.
  pose proof (Z.mod_pos_bound t msPerDay ltac:(reflexivity)).
  pose proof (Z.div_mod t msPerDay ltac:(discriminate)).
  change msPerDay with 86400000 in *. split; [| intros <-; lia].
  intros Hb. lia.
Qed.

(** X27: the appointments that [getDoctorAppointments] lists and counts are
    those of the doctor that match the status asked for and, when a date is
    given, start on the calendar day of that date. *)
Theorem doctor_listing_filter (doctorId : Id) (options : DoctorOptions.t)
    (a : Appointment.t) :
  selects (doctorWhere doctorId options) a = true <->
  Appointment.doctorId a = doctorId /\
  (forall v, DoctorOptions.status options = Some v -> v <> "" ->
             Appointment.status a = v) /\
  (forall date, DoctorOptions.date options = Some date ->
                toISODate (Appointment.startTime a) = toISODate date).
Proof.
  rewrite doctorWhere_keys. unfold selects.
  cbn [Where.practiceId Where.patientId Where.doctorId Where.status
       Where.startTime].
  rewrite !andb_true_iff, !keyHolds_truthy. cbn [keyHolds].
  rewrite String.eqb_eq.
  destruct (DoctorOptions.date options) as [date|]; cbn.
  - rewrite andb_true_r, andb_true_iff, Z.geb_le, Z.leb_le.
    rewrite (same_day_iff date). split.
    + intros (((_ & Hd) & Hs) & Hday). repeat split; auto.
      intros d Hd'. inversion Hd'; subst. exact Hday.
    + intros (Hd & Hs & Hday). repeat split; auto.
  - split; [| tauto]. intros (((_ & Hd) & Hs) & _). repeat split; auto.
    discriminate.
Qed.
End ListingFacts.
